(** * SkillSwap messaging core: conversation/message store, notification
      service and the WebSocket chat consumer.

    Shallow embedding of
      - Backend/api/db.py            (conversation, message and notification helpers)
      - Backend/api/notifications.py (send_notification, send_notification_websocket)
      - Backend/api/messages/consumers.py (ChatConsumer and its helpers)

    MongoDB collections are lists of documents in insertion order; every
    helper is a computation in a state-and-exception monad over the world
    (collections, ObjectId generator, clock, channel layer). *)

From Stdlib Require Import ZArith NArith String Ascii.
From stdpp Require Import gmap strings list sorting.

#[local] Set Warnings "-clear-no-such-hyp".

Local Open Scope string_scope.
Local Open Scope list_scope.
Local Open Scope Z_scope.

(** ** Identifiers, strings and time *)

(** A bson [ObjectId]: twelve bytes, compared as a big-endian number. *)
Definition oid := N.
Bind Scope N_scope with oid.

(** [datetime] values, counted in milliseconds: the precision at which
    MongoDB stores and compares them. *)
Definition datetime := Z.

(** Python strings are [string]s whose characters are code points below
    256. *)

(** The value of a hexadecimal digit, in either case. *)
Definition hex_digit (c : ascii) : option N :=
  let n := N_of_ascii c in
  if ((48 <=? n) && (n <=? 57))%N then Some (n - 48)%N
  else if ((97 <=? n) && (n <=? 102))%N then Some (n - 87)%N
  else if ((65 <=? n) && (n <=? 70))%N then Some (n - 55)%N
  else None.

Fixpoint parse_hex (s : string) (acc : N) : option N :=
  match s with
  | EmptyString => Some acc
  | String c s' =>
      match hex_digit c with
      | Some d => parse_hex s' (acc * 16 + d)%N
      | None => None
      end
  end.

(** [ObjectId(s)] accepts exactly the strings of 24 hexadecimal digits. *)
Definition parse_oid (s : string) : option oid :=
  if Nat.eqb (String.length s) 24 then parse_hex s 0%N else None.

Definition hex_char (d : N) : ascii :=
  if (d <? 10)%N then ascii_of_N (48 + d) else ascii_of_N (87 + d).

(** The [k] low hexadecimal digits of [n], most significant first. *)
Fixpoint render_hex (k : nat) (n : N) : string :=
  match k with
  | O => EmptyString
  | S k' => String (hex_char ((n / 16 ^ N.of_nat k') mod 16)%N) (render_hex k' n)
  end.

(** [str(oid)]: 24 lower-case hexadecimal digits. *)
Definition str (o : oid) : string := render_hex 24 o.

(** Python truthiness of a string: only the empty string is false. *)
Definition str_truthy (s : string) : bool := negb (String.eqb s "").

(** [c.isspace()] for a code point below 256. *)
Definition isspace (c : ascii) : bool :=
  let n := N_of_ascii c in
  (((9 <=? n) && (n <=? 13)) || ((28 <=? n) && (n <=? 32)) || (n =? 133) || (n =? 160))%N.

Fixpoint lstrip (s : string) : string :=
  match s with
  | EmptyString => EmptyString
  | String c s' => if isspace c then lstrip s' else s
  end.

(** [s.rstrip()]: a character is dropped when it is white space and so is
    everything after it. *)
Fixpoint rstrip (s : string) : string :=
  match s with
  | EmptyString => EmptyString
  | String c s' =>
      match rstrip s' with
      | EmptyString => if isspace c then EmptyString else String c EmptyString
      | r => String c r
      end
  end.

(** [s.strip()] *)
Definition strip (s : string) : string := rstrip (lstrip s).

(** ** Exceptions and the computation monad *)

(** The exceptions the modelled code raises; all are subclasses of
    [Exception].  A [ValueError] carries its message template and the
    values interpolated into it. *)
Inductive exn :=
| ValueError (msg : string) (args : list string)
| InvalidId
| TypeError
| AttributeError
| ChannelLayerError.

Inductive result (A : Type) :=
| Ok (a : A)
| Raise (e : exn).
Arguments Ok {A} a.
Arguments Raise {A} e.

(** A computation over a state [S]: it ends with a value or an exception,
    and in both cases with the state reached so far (Python does not roll
    back effects when an exception propagates). *)
Definition M (S A : Type) := S -> result A * S.

Definition ret {S A} (a : A) : M S A := fun s => (Ok a, s).

Definition bind {S A B} (m : M S A) (k : A -> M S B) : M S B :=
  fun s => match m s with
           | (Ok a, s') => k a s'
           | (Raise e, s') => (Raise e, s')
           end.

Definition raise {S A} (e : exn) : M S A := fun s => (Raise e, s).

(** [try: m except Exception as e: h e] *)
Definition try_except {S A} (m : M S A) (h : exn -> M S A) : M S A :=
  fun s => match m s with
           | (Ok a, s') => (Ok a, s')
           | (Raise e, s') => h e s'
           end.

Definition gets {S A} (f : S -> A) : M S A := fun s => (Ok (f s), s).
Definition modify {S} (f : S -> S) : M S unit := fun s => (Ok tt, f s).

Notation "x <- m ;; k" := (bind m (fun x => k))
  (at level 100, m at next level, right associativity).
Notation "m ;;; k" := (bind m (fun _ => k))
  (at level 100, right associativity).

(** [for x in xs: body x] *)
Fixpoint for_each {S A} (xs : list A) (body : A -> M S unit) : M S unit :=
  match xs with
  | [] => ret tt
  | x :: xs' => body x ;;; for_each xs' body
  end.

(** ** Documents *)

Module Conv.
Record t := mk {
  _id : oid;
  participants : list oid;
  last_message : string;
  last_message_timestamp : option datetime;
  unread_counts : gmap string Z;
  created_at : datetime;
  updated_at : datetime
}.

Definition set_last (text : string) (ts : option datetime) (now : datetime) (c : t) : t :=
  mk (_id c) (participants c) text ts (unread_counts c) (created_at c) now.

Definition set_unread (u : gmap string Z) (c : t) : t :=
  mk (_id c) (participants c) (last_message c) (last_message_timestamp c) u
     (created_at c) (updated_at c).
End Conv.

Module Msg.
Record t := mk {
  _id : oid;
  conversation_id : oid;
  sender_id : oid;
  text : string;
  attachments : list string;
  timestamp : datetime;
  is_read : bool;
  read_at : option datetime;
  is_edited : bool;
  edited_at : option datetime;
  is_deleted : bool;
  deleted_at : option datetime
}.

(** [$set: {is_read: True, read_at: now}] *)
Definition set_read (now : datetime) (m : t) : t :=
  mk (_id m) (conversation_id m) (sender_id m) (text m) (attachments m) (timestamp m)
     true (Some now) (is_edited m) (edited_at m) (is_deleted m) (deleted_at m).

(** [$set: {text: new_text, edited_at: now, is_edited: True}] *)
Definition set_edited (new_text : string) (now : datetime) (m : t) : t :=
  mk (_id m) (conversation_id m) (sender_id m) new_text (attachments m) (timestamp m)
     (is_read m) (read_at m) true (Some now) (is_deleted m) (deleted_at m).

(** [$set: {is_deleted: True, deleted_at: now, text: '[Message deleted]', attachments: []}] *)
Definition set_deleted (now : datetime) (m : t) : t :=
  mk (_id m) (conversation_id m) (sender_id m) "[Message deleted]" [] (timestamp m)
     (is_read m) (read_at m) (is_edited m) (edited_at m) true (Some now).
End Msg.

Module Notif.
Record t := mk {
  _id : oid;
  user_id : oid;
  type : string;
  title : string;
  body : string;
  related_id : option oid;
  is_read : bool;
  created_at : datetime
}.
End Notif.

Module Usr.
Record t := mk {
  _id : oid;
  django_user_id : option Z;
  name : option string;
  last_seen : option datetime
}.
End Usr.

#[global] Instance conv_eq_dec : EqDecision Conv.t.
Proof. solve_decision. Defined.
#[global] Instance msg_eq_dec : EqDecision Msg.t.
Proof. solve_decision. Defined.
#[global] Instance notif_eq_dec : EqDecision Notif.t.
Proof. solve_decision. Defined.

(** ** JSON values and wire formats *)

(** A value decoded by [json.loads]; the numbers represented are the
    integers. *)
#[local] Unset Elimination Schemes.
Inductive json :=
| JNull
| JBool (b : bool)
| JNum (z : Z)
| JStr (s : string)
| JList (l : list json)
| JObj (kv : list (string * json)).
#[local] Set Elimination Schemes.

(** Python truthiness. *)
Definition truthy (j : json) : bool :=
  match j with
  | JNull => false
  | JBool b => b
  | JNum z => negb (z =? 0)%Z
  | JStr s => str_truthy s
  | JList l => negb (Nat.eqb (length l) 0)
  | JObj kv => negb (Nat.eqb (length kv) 0)
  end.

Fixpoint assoc (k : string) (kv : list (string * json)) : option json :=
  match kv with
  | [] => None
  | (k', v) :: kv' => if decide (k' = k) then Some v else assoc k kv'
  end.

(** [data.get(key)] on a decoded dict: [None] when the key is absent.
    json.loads keeps the last occurrence of a repeated key. *)
Definition dict_get (key : string) (kv : list (string * json)) : json :=
  default JNull (assoc key (reverse kv)).

(** [data.get(key, dflt)] *)
Definition dict_get_default (key : string) (dflt : json) (kv : list (string * json)) : json :=
  default dflt (assoc key (reverse kv)).

(** [x == 'literal'] for a decoded value [x]. *)
Definition is_str (j : json) (lit : string) : bool :=
  match j with
  | JStr s => String.eqb s lit
  | _ => false
  end.

(** The dict built by [format_message_response]; timestamps travel in
    ISO format and are read back by [datetime.fromisoformat] unchanged. *)
Record WsMessage := mkWsMessage {
  ws_id : option string;
  ws_conversation_id : option string;
  ws_sender_id : option string;
  ws_text : string;
  ws_attachments : list string;
  ws_timestamp : option datetime;
  ws_is_read : bool;
  ws_read_at : option datetime
}.

(** The dict built for a notification on the wire. *)
Record WsNotification := mkWsNotification {
  wn_id : string;
  wn_type : string;
  wn_title : string;
  wn_body : string;
  wn_related_id : option string;
  wn_is_read : bool;
  wn_created_at : option datetime
}.

(** ** Channel layer *)

(** Group names: [f'chat_{conversation_id}'] and [f'notifications_{user_id}']. *)
Definition chat_ (conversation_id : string) : string := "chat_" +:+ conversation_id.
Definition notifications_ (user_id : string) : string := "notifications_" +:+ user_id.

(** The target of a [group_send]: a group name, or [f'chat_{j}'] for a
    decoded value [j] that is not a string. *)
Inductive group_target :=
| Named (g : string)
| Formatted (j : json).

Definition chat_target (conversation_id : json) : group_target :=
  match conversation_id with
  | JStr s => Named (chat_ s)
  | j => Formatted j
  end.

(** Events sent through the channel layer; the constructor is the [type]
    key, that is the name of the consumer method that handles it. *)
Inductive GroupEvent :=
| Ev_chat_message (message : WsMessage)
| Ev_typing_indicator (user_id : option string) (is_typing : json)
| Ev_read_receipt (user_id : option string) (conversation_id : json) (message_count : Z)
| Ev_presence_update (user_id : option string) (status : string)
| Ev_notification_received (notification : WsNotification)
| Ev_message_edited (message : WsMessage)
| Ev_message_deleted (message : WsMessage).

(** What the outside observes, in order. *)
Inductive Effect :=
| Persisted (n : Notif.t)
| GroupSend (target : group_target) (event : GroupEvent) (delivered : bool).

(** ** The world *)

Record World := mkWorld {
  conversations : list Conv.t;
  messages : list Msg.t;
  notifications : list Notif.t;
  users : list Usr.t;
  (** the driver's ObjectId generator *)
  next_oid : oid;
  (** successive readings of [datetime.utcnow()] *)
  clock : nat -> datetime;
  ticks : nat;
  (** [get_channel_layer()]: [None] when not configured; otherwise which
      [group_send] calls go through *)
  channel_layer : option (group_target -> bool);
  trace : list Effect
}.

Definition set_conversations (cs : list Conv.t) (w : World) : World :=
  mkWorld cs (messages w) (notifications w) (users w) (next_oid w) (clock w) (ticks w)
          (channel_layer w) (trace w).
Definition set_messages (ms : list Msg.t) (w : World) : World :=
  mkWorld (conversations w) ms (notifications w) (users w) (next_oid w) (clock w) (ticks w)
          (channel_layer w) (trace w).
Definition set_notifications (ns : list Notif.t) (w : World) : World :=
  mkWorld (conversations w) (messages w) ns (users w) (next_oid w) (clock w) (ticks w)
          (channel_layer w) (trace w).
Definition set_next_oid (o : oid) (w : World) : World :=
  mkWorld (conversations w) (messages w) (notifications w) (users w) o (clock w) (ticks w)
          (channel_layer w) (trace w).
Definition set_ticks (n : nat) (w : World) : World :=
  mkWorld (conversations w) (messages w) (notifications w) (users w) (next_oid w) (clock w) n
          (channel_layer w) (trace w).
Definition set_trace (t : list Effect) (w : World) : World :=
  mkWorld (conversations w) (messages w) (notifications w) (users w) (next_oid w) (clock w)
          (ticks w) (channel_layer w) t.

(** [datetime.utcnow()] *)
Definition utcnow : M World datetime :=
  fun w => (Ok (clock w (ticks w)), set_ticks (S (ticks w)) w).

(** A freshly generated ObjectId. *)
Definition new_oid : M World oid :=
  fun w => (Ok (next_oid w), set_next_oid (N.succ (next_oid w)) w).

Definition emit (e : Effect) : M World unit :=
  modify (fun w => set_trace (trace w ++ [e]) w).

(** [ObjectId(s)] for a string: [bson.errors.InvalidId] unless [s] is 24
    hexadecimal digits. *)
Definition ObjectId {S} (s : string) : M S oid :=
  match parse_oid s with
  | Some o => ret o
  | None => raise InvalidId
  end.

(** [ObjectId(x)] for a decoded value: [ObjectId(None)] generates a new
    id, a non-string is a [TypeError]. *)
Definition ObjectId_of (x : json) : M World oid :=
  match x with
  | JStr s => ObjectId s
  | JNull => new_oid
  | _ => raise TypeError
  end.

(** ** MongoDB primitives on a collection *)

Section Collection.
Context {D : Type} `{EqDecision D}.

(** [find_one(filter)]: the first matching document. *)
Definition find_one (p : D -> bool) (coll : list D) : option D :=
  List.find p coll.

(** [update_one(filter, {'$set': ...})]: the first matching document is
    rewritten; [modified_count] is 1 when that changed it, else 0. *)
Fixpoint update_one (p : D -> bool) (f : D -> D) (coll : list D) : list D * nat :=
  match coll with
  | [] => ([], 0%nat)
  | d :: coll' =>
      if p d then (f d :: coll', if decide (f d = d) then 0%nat else 1%nat)
      else let '(coll'', n) := update_one p f coll' in (d :: coll'', n)
  end.

(** [update_many(filter, {'$set': ...})]; [modified_count] counts the
    documents the update changed. *)
Fixpoint update_many (p : D -> bool) (f : D -> D) (coll : list D) : list D * nat :=
  match coll with
  | [] => ([], 0%nat)
  | d :: coll' =>
      let '(coll'', n) := update_many p f coll' in
      if p d then (f d :: coll'', if decide (f d = d) then n else S n)
      else (d :: coll'', n)
  end.

(** [.sort(key, 1)]: ascending.  MongoDB does not fix the order of
    documents with equal keys; here they stay in collection order (a
    stable insertion sort).  What is proved of
    [get_messages_after_timestamp] and of the replay on reconnection is
    stated through the sortedness and the content of the result only, so
    that it holds for any order of such documents. *)
Fixpoint insert_asc (key : D -> Z) (d : D) (l : list D) : list D :=
  match l with
  | [] => [d]
  | x :: l' => if (key d <=? key x)%Z then d :: x :: l' else x :: insert_asc key d l'
  end.

Fixpoint sort_asc (key : D -> Z) (l : list D) : list D :=
  match l with
  | [] => []
  | d :: l' => insert_asc key d (sort_asc key l')
  end.

(** [.sort(key, -1)]: descending. *)
Definition sort_desc (key : D -> Z) (l : list D) : list D :=
  sort_asc (fun d => (- key d)%Z) l.

(** [.limit(n)]: a limit of 0 is no limit. *)
Definition limit (n : nat) (l : list D) : list D :=
  if Nat.eqb n 0 then l else take n l.

(** [.skip(n)] *)
Definition skip (n : nat) (l : list D) : list D := drop n l.

End Collection.

(** ** db.py: conversations *)

(** The loop of [get_or_create_conversation] that converts the ids and
    drops repeated ones. *)
Fixpoint participant_oids_of (participant_ids : list string) (participant_oids : list oid)
  : M World (list oid) :=
  match participant_ids with
  | [] => ret participant_oids
  | pid :: rest =>
      o <- try_except (ObjectId pid)
             (fun _ => raise (ValueError "Invalid participant ID: {pid}" [pid])) ;;
      participant_oids_of rest
        (if decide (o ∈ participant_oids) then participant_oids else participant_oids ++ [o])
  end.

(** The sort keeps the number of ids, so the match on the sorted list
    fails exactly when the source's test [len(participant_oids) != 2]
    holds. *)
Definition get_or_create_conversation (participant_ids : list string) : M World Conv.t :=
  if negb (Nat.eqb (length participant_ids) 2)
  then raise (ValueError "conversation must have exactly 2 participants" [])
  else
    participant_oids <- participant_oids_of participant_ids [] ;;
    match sort_asc Z.of_N participant_oids with
    | [p0; p1] =>
        existing <- gets (fun w =>
          find_one (fun c => bool_decide (Conv.participants c = [p0; p1])) (conversations w)) ;;
        match existing with
        | Some c => ret c
        | None =>
            created_at <- utcnow ;;
            updated_at <- utcnow ;;
            inserted_id <- new_oid ;;
            let conversation_data :=
              Conv.mk inserted_id [p0; p1] "" None
                      (<[str p1 := 0]> (<[str p0 := 0]> ∅)) created_at updated_at in
            modify (fun w => set_conversations (conversations w ++ [conversation_data]) w) ;;;
            ret conversation_data
        end
    | _ => raise (ValueError "participants must be unique" [])
    end.

Definition get_conversation_by_id (conversation_id : string) : M World (option Conv.t) :=
  try_except
    (o <- ObjectId conversation_id ;;
     gets (fun w => find_one (fun c => bool_decide (Conv._id c = o)) (conversations w)))
    (fun _ => ret None).

Definition get_user_conversations (user_id : string) : M World (list Conv.t) :=
  try_except
    (user_oid <- ObjectId user_id ;;
     gets (fun w =>
       sort_desc Conv.updated_at
         (List.filter (fun c => bool_decide (user_oid ∈ Conv.participants c)) (conversations w))))
    (fun _ => ret []).

Definition update_conversation_last_message
    (conversation_id : string) (message_text : string) (timestamp : option datetime)
  : M World bool :=
  o <- ObjectId conversation_id ;;
  now <- utcnow ;;
  fun w =>
    let '(cs, modified_count) :=
      update_one (fun c => bool_decide (Conv._id c = o))
                 (Conv.set_last message_text timestamp now) (conversations w) in
    (Ok (Nat.ltb 0 modified_count), set_conversations cs w).

(** [$inc: {unread_counts.<user_id>: 1}]; a missing counter counts from 0. *)
Definition inc_unread (user_id : string) (c : Conv.t) : Conv.t :=
  Conv.set_unread
    (<[user_id := default 0 (Conv.unread_counts c !! user_id) + 1]> (Conv.unread_counts c)) c.

Definition increment_unread_count (conversation_id user_id : string) : M World bool :=
  o <- ObjectId conversation_id ;;
  fun w =>
    let '(cs, modified_count) :=
      update_one (fun c => bool_decide (Conv._id c = o)) (inc_unread user_id) (conversations w) in
    (Ok (Nat.ltb 0 modified_count), set_conversations cs w).

(** ** db.py: notifications *)

Definition valid_types : list string :=
  ["new_message"; "payment_success"; "payment_received"; "subscription_updated";
   "session_request"; "session_accept"; "session_reject"].

Definition create_notification
    (user_id notification_type title body : string) (related_id : option string)
  : M World Notif.t :=
  if negb (str_truthy user_id) then raise (ValueError "user_id is required" [])
  else if negb (str_truthy notification_type)
  then raise (ValueError "notification_type is required" [])
  else if negb (str_truthy title) then raise (ValueError "title is required" [])
  else if negb (str_truthy body) then raise (ValueError "body is required" [])
  else if negb (bool_decide (notification_type ∈ valid_types))
  then raise (ValueError "Invalid notification type. Must be one of: {valid_types}" [])
  else
    user_oid <- ObjectId user_id ;;
    related_oid <- match related_id with
                   | Some r => if str_truthy r then o <- ObjectId r ;; ret (Some o)
                               else ret None
                   | None => ret None
                   end ;;
    created_at <- utcnow ;;
    inserted_id <- new_oid ;;
    let notification_data :=
      Notif.mk inserted_id user_oid notification_type (strip title) (strip body)
               related_oid false created_at in
    modify (fun w => set_notifications (notifications w ++ [notification_data]) w) ;;;
    emit (Persisted notification_data) ;;;
    ret notification_data.

(** ** notifications.py *)

Definition get_channel_layer : M World (option (group_target -> bool)) :=
  gets channel_layer.

(** [channel_layer.group_send(group, event)]: the attempt is observable
    whether it goes through or raises. *)
Definition group_send (layer : group_target -> bool) (target : group_target)
    (event : GroupEvent) : M World unit :=
  if layer target then emit (GroupSend target event true)
  else emit (GroupSend target event false) ;;; raise ChannelLayerError.

Definition format_notification (n : Notif.t) : WsNotification :=
  mkWsNotification (str (Notif._id n)) (Notif.type n) (Notif.title n) (Notif.body n)
                   (str <$> Notif.related_id n) (Notif.is_read n) (Some (Notif.created_at n)).

Definition send_notification_websocket (user_id : string) (notification : Notif.t)
  : M World unit :=
  try_except
    (channel_layer <- get_channel_layer ;;
     match channel_layer with
     | None => ret tt
     | Some layer =>
         let notification_data := format_notification notification in
         let group_name := notifications_ user_id in
         group_send layer (Named group_name) (Ev_notification_received notification_data)
     end)
    (fun _ => ret tt).

Definition send_notification
    (user_id notification_type title body : string) (related_id : option string)
  : M World Notif.t :=
  try_except
    (notification <- create_notification user_id notification_type title body related_id ;;
     send_notification_websocket user_id notification ;;;
     ret notification)
    (fun e => raise e).

(** ** db.py: users *)

Definition get_user_by_django_id (django_user_id : option Z) : M World (option Usr.t) :=
  gets (fun w =>
    find_one (fun u => bool_decide (Usr.django_user_id u = django_user_id)) (users w)).

(** ** db.py: messages *)

Definition opt_truthy (s : option string) : bool :=
  match s with
  | Some s => str_truthy s
  | None => false
  end.

(** The loop of [create_message] over the attachment URLs. *)
Fixpoint attachment_urls (attachments : list json) : M World (list string) :=
  match attachments with
  | [] => ret []
  | JStr url :: rest =>
      if str_truthy (strip url) then urls <- attachment_urls rest ;; ret (url :: urls)
      else raise (ValueError "all attachment URLs must be non-empty strings" [])
  | _ :: _ => raise (ValueError "all attachment URLs must be non-empty strings" [])
  end.

(** [s[:n]] *)
Definition prefix (n : nat) (s : string) : string := String.substring 0 n s.

Definition create_message
    (conversation_id sender_id recipient_id : option string) (text : string)
    (attachments : json) : M World Msg.t :=
  if negb (str_truthy text) || negb (str_truthy (strip text))
  then raise (ValueError "message text cannot be empty" [])
  else if Nat.ltb (String.length (strip text)) 1
  then raise (ValueError "message text must be at least 1 character" [])
  else if negb (opt_truthy sender_id) then raise (ValueError "sender_id is required" [])
  else
    let sender_id := default "" sender_id in
    sender_oid <- try_except (ObjectId sender_id)
                    (fun _ => raise (ValueError "Invalid sender_id: {sender_id}" [sender_id])) ;;
    conversation_id <-
      match conversation_id with
      | None =>
          if negb (opt_truthy recipient_id)
          then raise (ValueError
                        "recipient_id is required when conversation_id is not provided" [])
          else
            let recipient_id := default "" recipient_id in
            try_except (ObjectId recipient_id)
              (fun _ => raise (ValueError "Invalid recipient_id: {recipient_id}"
                                          [recipient_id])) ;;;
            conversation <- get_or_create_conversation [sender_id; recipient_id] ;;
            ret (str (Conv._id conversation))
      | Some conversation_id =>
          conversation <- get_conversation_by_id conversation_id ;;
          match conversation with
          | None => raise (ValueError "conversation {conversation_id} does not exist"
                                      [conversation_id])
          | Some conversation =>
              let participant_oids := str <$> Conv.participants conversation in
              if bool_decide (sender_id ∈ participant_oids) then ret conversation_id
              else raise (ValueError "sender must be a participant in the conversation" [])
          end
      end ;;
    attachments <-
      (if truthy attachments then
         match attachments with
         | JList urls => attachment_urls urls
         | _ => raise (ValueError "attachments must be a list" [])
         end
       else ret []) ;;
    conversation_oid <- ObjectId conversation_id ;;
    timestamp <- utcnow ;;
    inserted_id <- new_oid ;;
    let message_data :=
      Msg.mk inserted_id conversation_oid sender_oid (strip text) attachments timestamp
             false None false None false None in
    modify (fun w => set_messages (messages w ++ [message_data]) w) ;;;
    update_conversation_last_message conversation_id (strip text) (Some timestamp) ;;;
    conversation <- get_conversation_by_id conversation_id ;;
    match conversation with
    | Some conversation =>
        get_user_by_django_id None ;;;
        sender_name <- gets (fun w =>
          match find_one (fun u => bool_decide (Usr._id u = sender_oid)) (users w) with
          | Some sender_mongo => default "Someone" (Usr.name sender_mongo)
          | None => "Someone"
          end) ;;
        for_each (Conv.participants conversation) (fun participant_oid =>
          let participant_str := str participant_oid in
          if negb (String.eqb participant_str sender_id) then
            increment_unread_count conversation_id participant_str ;;;
            try_except
              (let message_preview :=
                 prefix 100 (strip text)
                 +:+ (if Nat.ltb 100 (String.length (strip text)) then "..." else "") in
               send_notification participant_str "new_message"
                 ("New message from " +:+ sender_name) message_preview
                 (Some conversation_id) ;;;
               ret tt)
              (fun _ => ret tt)
          else ret tt)
    | None => ret tt
    end ;;;
    ret message_data.

Definition get_messages_by_conversation (conversation_id : string) (limit_ skip_ : nat)
  : M World (list Msg.t) :=
  try_except
    (o <- ObjectId conversation_id ;;
     gets (fun w =>
       limit limit_ (skip skip_ (sort_desc Msg.timestamp
         (List.filter (fun m => bool_decide (Msg.conversation_id m = o)) (messages w))))))
    (fun _ => ret []).

(** The [after_timestamp] argument: a [datetime]; a [str], given with
    what [fromisoformat] or else [strptime] reads from it ([None] when
    both raise [ValueError]); or a value of another type. *)
Inductive timestamp_arg :=
| At (t : datetime)
| AtStr (parsed : option datetime)
| AtOther.

Definition get_messages_after_timestamp
    (conversation_id : string) (after_timestamp : timestamp_arg) (limit_ : nat)
  : M World (list Msg.t) :=
  try_except
    (match match after_timestamp with
           | At t => Some t
           | AtStr parsed => parsed
           | AtOther => None
           end with
     | None => ret []
     | Some after_timestamp =>
         o <- ObjectId conversation_id ;;
         gets (fun w =>
           limit limit_ (sort_asc Msg.timestamp
             (List.filter (fun m => bool_decide (Msg.conversation_id m = o)
                                    && (after_timestamp <? Msg.timestamp m))
                          (messages w))))
     end)
    (fun _ => ret []).

Definition mark_message_as_read (message_id : json) : M World bool :=
  o <- ObjectId_of message_id ;;
  now <- utcnow ;;
  fun w =>
    let '(ms, modified_count) :=
      update_one (fun m => bool_decide (Msg._id m = o)) (Msg.set_read now) (messages w) in
    (Ok (Nat.ltb 0 modified_count), set_messages ms w).

(** An id argument that may be [None]. *)
Definition opt_json (s : option string) : json :=
  match s with
  | Some s => JStr s
  | None => JNull
  end.

(** [f'{s}'] for a string or [None]. *)
Definition fstr (s : option string) : string := default "None" s.

(** The conversation id reaches [reset_unread_count] as the client event
    carried it. *)
Definition reset_unread_count (conversation_id : json) (user_id : option string)
  : M World bool :=
  o <- ObjectId_of conversation_id ;;
  fun w =>
    let '(cs, modified_count) :=
      update_one (fun c => bool_decide (Conv._id c = o))
                 (fun c => Conv.set_unread (<[fstr user_id := 0]> (Conv.unread_counts c)) c)
                 (conversations w) in
    (Ok (Nat.ltb 0 modified_count), set_conversations cs w).

Definition mark_conversation_messages_as_read
    (conversation_id : json) (user_id : option string) : M World nat :=
  o <- ObjectId_of conversation_id ;;
  user_oid <- ObjectId_of (opt_json user_id) ;;
  now <- utcnow ;;
  modified_count <- (fun w =>
    let '(ms, modified_count) :=
      update_many (fun m => bool_decide (Msg.conversation_id m = o)
                            && negb (bool_decide (Msg.sender_id m = user_oid))
                            && negb (Msg.is_read m))
                  (Msg.set_read now) (messages w) in
    (Ok modified_count, set_messages ms w)) ;;
  (if Nat.ltb 0 modified_count
   then reset_unread_count conversation_id user_id ;;; ret tt
   else ret tt) ;;;
  ret modified_count.

Definition update_message (message_id sender_id new_text : string)
  : M World (option Msg.t) :=
  if negb (str_truthy new_text) || negb (str_truthy (strip new_text))
  then raise (ValueError "message text cannot be empty" [])
  else if Nat.ltb (String.length (strip new_text)) 1
  then raise (ValueError "message text must be at least 1 character" [])
  else
    ids <- try_except
             (message_oid <- ObjectId message_id ;;
              sender_oid <- ObjectId sender_id ;;
              ret (message_oid, sender_oid))
             (fun _ => raise (ValueError "Invalid message_id or sender_id format" [])) ;;
    let '(message_oid, sender_oid) := ids in
    message <- gets (fun w =>
      find_one (fun m => bool_decide (Msg._id m = message_oid)) (messages w)) ;;
    match message with
    | None => ret None
    | Some message =>
        if negb (bool_decide (Msg.sender_id message = sender_oid))
        then raise (ValueError "Only the message sender can update the message" [])
        else
          now <- utcnow ;;
          modified_count <- (fun w =>
            let '(ms, modified_count) :=
              update_one (fun m => bool_decide (Msg._id m = message_oid))
                         (Msg.set_edited (strip new_text) now) (messages w) in
            (Ok modified_count, set_messages ms w)) ;;
          if Nat.ltb 0 modified_count then
            updated_message <- gets (fun w =>
              find_one (fun m => bool_decide (Msg._id m = message_oid)) (messages w)) ;;
            let conversation_id := str (Msg.conversation_id message) in
            conversation <- get_conversation_by_id conversation_id ;;
            match conversation with
            | Some conversation =>
                if bool_decide (Conv.last_message_timestamp conversation
                                = Some (Msg.timestamp message))
                then update_conversation_last_message conversation_id (strip new_text)
                       (Some (Msg.timestamp message)) ;;; ret tt
                else ret tt
            | None => ret tt
            end ;;;
            ret updated_message
          else ret None
    end.

Definition delete_message (message_id sender_id : string) : M World bool :=
  ids <- try_except
           (message_oid <- ObjectId message_id ;;
            sender_oid <- ObjectId sender_id ;;
            ret (message_oid, sender_oid))
           (fun _ => raise (ValueError "Invalid message_id or sender_id format" [])) ;;
  let '(message_oid, sender_oid) := ids in
  message <- gets (fun w =>
    find_one (fun m => bool_decide (Msg._id m = message_oid)) (messages w)) ;;
  match message with
  | None => ret false
  | Some message =>
      if negb (bool_decide (Msg.sender_id message = sender_oid))
      then raise (ValueError "Only the message sender can delete the message" [])
      else
        now <- utcnow ;;
        modified_count <- (fun w =>
          let '(ms, modified_count) :=
            update_one (fun m => bool_decide (Msg._id m = message_oid))
                       (Msg.set_deleted now) (messages w) in
          (Ok modified_count, set_messages ms w)) ;;
        if Nat.ltb 0 modified_count then
          let conversation_id := str (Msg.conversation_id message) in
          conversation <- get_conversation_by_id conversation_id ;;
          match conversation with
          | Some conversation =>
              if bool_decide (Conv.last_message_timestamp conversation
                              = Some (Msg.timestamp message))
              then
                recent_messages <- get_messages_by_conversation conversation_id 1 0 ;;
                match recent_messages with
                | last_msg :: _ =>
                    if negb (Msg.is_deleted last_msg)
                    then update_conversation_last_message conversation_id
                           (Msg.text last_msg) (Some (Msg.timestamp last_msg)) ;;; ret tt
                    else update_conversation_last_message conversation_id "" None ;;; ret tt
                | [] => update_conversation_last_message conversation_id "" None ;;; ret tt
                end
              else ret tt
          | None => ret tt
          end ;;;
          ret true
        else ret false
  end.

Definition get_message_by_id (message_id : string) : M World (option Msg.t) :=
  try_except
    (o <- ObjectId message_id ;;
     gets (fun w => find_one (fun m => bool_decide (Msg._id m = o)) (messages w)))
    (fun _ => ret None).

(** ** consumers.py: session state *)

(** Frames written to the WebSocket with [self.send]; an error frame
    carries its code, its message template and the values interpolated
    into it. *)
Inductive Frame :=
| F_error (code : string) (error : string) (args : list json)
| F_message (message : WsMessage)
| F_missed_message (conversation_id : string) (message : WsMessage)
| F_typing (user_id : option string) (is_typing : json)
| F_read_receipt (user_id : option string) (conversation_id : json) (message_count : Z)
| F_presence (user_id : option string) (status : string)
| F_notification (notification : WsNotification)
| F_message_edited (message : WsMessage)
| F_message_deleted (message : WsMessage)
| F_read_receipt_sent (message_count : nat)
| F_reconnected
| F_pong.

(** The attributes of a [ChatConsumer], and the frames it has written to
    its socket (oldest first). *)
Record Session := mkSession {
  authenticated : bool;
  (** the Django user, by id *)
  user : option Z;
  mongo_user_id : option string;
  (** from the URL route *)
  conversation_id : option string;
  room_group_name : option string;
  conversation_groups : gset string;
  sent_message_ids : gset string;
  last_seen_timestamps : gmap string (option datetime);
  transport : list Frame
}.

(** [ChatConsumer.__init__] *)
Definition init_session : Session :=
  mkSession false None None None None ∅ ∅ ∅ [].

Definition set_conversation_groups (g : gset string) (s : Session) : Session :=
  mkSession (authenticated s) (user s) (mongo_user_id s) (conversation_id s)
            (room_group_name s) g (sent_message_ids s) (last_seen_timestamps s) (transport s).
Definition set_sent_message_ids (ids : gset string) (s : Session) : Session :=
  mkSession (authenticated s) (user s) (mongo_user_id s) (conversation_id s)
            (room_group_name s) (conversation_groups s) ids (last_seen_timestamps s)
            (transport s).
Definition set_last_seen_timestamps (t : gmap string (option datetime)) (s : Session)
  : Session :=
  mkSession (authenticated s) (user s) (mongo_user_id s) (conversation_id s)
            (room_group_name s) (conversation_groups s) (sent_message_ids s) t (transport s).
Definition set_transport (fs : list Frame) (s : Session) : Session :=
  mkSession (authenticated s) (user s) (mongo_user_id s) (conversation_id s)
            (room_group_name s) (conversation_groups s) (sent_message_ids s)
            (last_seen_timestamps s) fs.

(** Consumer methods run over the session and the world. *)
Definition CM (A : Type) := M (Session * World) A.

(** A database or channel-layer call made from a consumer method. *)
Definition liftW {A} (m : M World A) : CM A :=
  fun st => let '(r, w') := m (snd st) in (r, (fst st, w')).

Definition self {A} (f : Session -> A) : CM A := gets (fun st => f (fst st)).
Definition update_self (f : Session -> Session) : CM unit :=
  modify (fun st => (f (fst st), snd st)).

(** [await self.send(text_data=json.dumps(frame))] *)
Definition send (frame : Frame) : CM unit :=
  update_self (fun s => set_transport (transport s ++ [frame]) s).

(** [self.channel_layer]; a method called on [None] is an [AttributeError]. *)
Definition self_channel_layer : CM (group_target -> bool) :=
  layer <- liftW get_channel_layer ;;
  match layer with
  | Some layer => ret layer
  | None => raise AttributeError
  end.

(** [await self.channel_layer.group_send(group, event)] *)
Definition self_group_send (target : group_target) (event : GroupEvent) : CM unit :=
  layer <- self_channel_layer ;;
  liftW (group_send layer target event).

(** [await self.channel_layer.group_add(group, self.channel_name)]: it
    raises for the groups the layer refuses. *)
Definition self_group_add (group_name : string) : CM unit :=
  layer <- self_channel_layer ;;
  if layer (Named group_name) then ret tt else raise ChannelLayerError.

(** ** consumers.py: database helpers *)

(** What [for x in v] iterates over, when [v] is iterable. *)
Definition py_iter (v : json) : option (list json) :=
  match v with
  | JList l => Some l
  | JStr s => Some ((fun c => JStr (String c EmptyString)) <$> list_ascii_of_string s)
  | JObj kv => Some (JStr <$> reverse (remove_dups (reverse (kv.*1))))
  | _ => None
  end.

(** The loop of [mark_messages_read] over the given ids. *)
Fixpoint mark_each_read (message_ids : list json) (count : nat) : M World nat :=
  match message_ids with
  | [] => ret count
  | msg_id :: rest =>
      marked <- mark_message_as_read msg_id ;;
      mark_each_read rest (if marked then S count else count)
  end.

Definition mark_messages_read
    (conversation_id : json) (user_id : option string) (message_ids : json)
  : M World nat :=
  try_except
    (if truthy message_ids then
       match py_iter message_ids with
       | Some ids => mark_each_read ids 0%nat
       | None => raise TypeError
       end
     else mark_conversation_messages_as_read conversation_id user_id)
    (fun _ => ret 0%nat).

Definition fetch_user_conversations (user_id : string) : M World (list Conv.t) :=
  try_except (get_user_conversations user_id) (fun _ => ret []).

Definition fetch_missed_messages
    (conversation_id : string) (after_timestamp : timestamp_arg) (limit_ : nat)
  : M World (list Msg.t) :=
  try_except (get_messages_after_timestamp conversation_id after_timestamp limit_)
             (fun _ => ret []).

Definition format_message_response (message : Msg.t) : WsMessage :=
  mkWsMessage (Some (str (Msg._id message))) (Some (str (Msg.conversation_id message)))
              (Some (str (Msg.sender_id message))) (Msg.text message)
              (Msg.attachments message) (Some (Msg.timestamp message))
              (Msg.is_read message) (Msg.read_at message).

(** ** consumers.py: ChatConsumer *)

(** The loop of [reconnect_to_conversations] over the missed messages of
    one conversation. *)
Definition replay_missed (conv_id : string) (missed_messages : list Msg.t) : CM unit :=
  for_each missed_messages (fun msg =>
    let msg_id := str (Msg._id msg) in
    sent <- self sent_message_ids ;;
    if bool_decide (msg_id ∉ sent) then
      send (F_missed_message conv_id (format_message_response msg)) ;;;
      update_self (fun s => set_sent_message_ids (sent_message_ids s ∪ {[msg_id]}) s)
    else ret tt).

(** The body of the loop of [reconnect_to_conversations] over the user's
    conversations. *)
Definition reconnect_to_conversation (conversation : Conv.t) : CM unit :=
  let conv_id := str (Conv._id conversation) in
  let group_name := chat_ conv_id in
  groups <- self conversation_groups ;;
  (if bool_decide (group_name ∉ groups) then
     self_group_add group_name ;;;
     update_self (fun s => set_conversation_groups (conversation_groups s ∪ {[group_name]}) s)
   else ret tt) ;;;
  last_seen <- self (fun s => mjoin (last_seen_timestamps s !! conv_id)) ;;
  last_seen <-
    match last_seen with
    | Some t => ret (Some t)
    | None =>
        match Conv.last_message_timestamp conversation with
        | Some t => ret (Some t)
        | None =>
            user_ <- self user ;;
            match user_ with
            | Some user_id =>
                mongo_user <- liftW (get_user_by_django_id (Some user_id)) ;;
                match mongo_user with
                | Some mongo_user => ret (Usr.last_seen mongo_user)
                | None => ret None
                end
            | None => ret None
            end
        end
    end ;;
  match last_seen with
  | Some last_seen =>
      missed_messages <- liftW (fetch_missed_messages conv_id (At last_seen) 50) ;;
      replay_missed conv_id missed_messages
  | None => ret tt
  end ;;;
  update_self (fun s =>
    set_last_seen_timestamps
      (<[conv_id := Conv.last_message_timestamp conversation]> (last_seen_timestamps s)) s).

Definition reconnect_to_conversations : CM unit :=
  authenticated_ <- self authenticated ;;
  mongo_user_id_ <- self mongo_user_id ;;
  if negb authenticated_ || negb (opt_truthy mongo_user_id_) then ret tt
  else
    try_except
      (conversations_ <- liftW (fetch_user_conversations (default "" mongo_user_id_)) ;;
       for_each conversations_ reconnect_to_conversation)
      (fun _ => ret tt).

Definition handle_reconnect (data : list (string * json)) : CM unit :=
  try_except
    (reconnect_to_conversations ;;; send F_reconnected)
    (fun _ => send (F_error "RECONNECT_FAILED" "Failed to reconnect" [])).

(** [a or b] *)
Definition py_or (a b : json) : json := if truthy a then a else b.

Definition handle_typing (data : list (string * json)) : CM unit :=
  try_except
    (conversation_id_ <- self conversation_id ;;
     let conversation_id := py_or (dict_get "conversation_id" data) (opt_json conversation_id_) in
     if negb (truthy conversation_id)
     then send (F_error "VALIDATION_ERROR" "conversation_id is required" [])
     else
       let is_typing := dict_get_default "is_typing" (JBool true) data in
       mongo_user_id_ <- self mongo_user_id ;;
       self_group_send (chat_target conversation_id)
                       (Ev_typing_indicator mongo_user_id_ is_typing))
    (fun _ => ret tt).

Definition handle_read_receipt (data : list (string * json)) : CM unit :=
  try_except
    (conversation_id_ <- self conversation_id ;;
     let conversation_id := py_or (dict_get "conversation_id" data) (opt_json conversation_id_) in
     if negb (truthy conversation_id)
     then send (F_error "VALIDATION_ERROR" "conversation_id is required" [])
     else
       let message_ids := dict_get_default "message_ids" (JList []) data in
       mongo_user_id_ <- self mongo_user_id ;;
       count <- liftW (mark_messages_read conversation_id mongo_user_id_
                         (if truthy message_ids then message_ids else JNull)) ;;
       self_group_send (chat_target conversation_id)
                       (Ev_read_receipt mongo_user_id_ conversation_id (Z.of_nat count)) ;;;
       send (F_read_receipt_sent count))
    (fun _ => send (F_error "INTERNAL_ERROR" "Failed to process read receipt" [])).

(** What reaches [receive]: text that [json.loads] rejects, or the value
    it decodes. *)
Inductive text_data :=
| Malformed
| Decoded (j : json).

Section Receive.

(** The methods [receive] routes to and that are not detailed here. *)
Variable authenticate_user : json -> CM unit.
Variables handle_send_message handle_get_missed_messages handle_notifications_sync
          handle_edit_message handle_delete_message : list (string * json) -> CM unit.

Definition receive (text : text_data) : CM unit :=
  match text with
  | Malformed => send (F_error "VALIDATION_ERROR" "Invalid JSON format" [])
  | Decoded j =>
      try_except
        (match j with
         | JObj data =>
             let event_type := dict_get "type" data in
             if is_str event_type "authenticate" then
               let token := dict_get "token" data in
               if negb (truthy token)
               then send (F_error "VALIDATION_ERROR" "Token is required for authentication" [])
               else authenticate_user token
             else
               authenticated_ <- self authenticated ;;
               if negb authenticated_ then
                 send (F_error "AUTH_REQUIRED"
                         "Authentication required. Please send an authenticate event first." [])
               else if is_str event_type "send_message" then handle_send_message data
               else if is_str event_type "typing" then handle_typing data
               else if is_str event_type "read_receipt" then handle_read_receipt data
               else if is_str event_type "reconnect" then handle_reconnect data
               else if is_str event_type "get_missed_messages"
               then handle_get_missed_messages data
               else if is_str event_type "notifications_sync"
               then handle_notifications_sync data
               else if is_str event_type "edit_message" then handle_edit_message data
               else if is_str event_type "delete_message" then handle_delete_message data
               else if is_str event_type "ping" then send F_pong
               else send (F_error "UNKNOWN_EVENT" "Unknown event type: {event_type}"
                                  [event_type])
         | _ => raise AttributeError
         end)
        (fun _ => send (F_error "INTERNAL_ERROR" "Internal server error" []))
  end.

End Receive.

(** *** Handlers of group events *)

Definition chat_message (message : WsMessage) : CM unit :=
  let message_id := ws_id message in
  sent <- self sent_message_ids ;;
  match message_id with
  | Some message_id =>
      if str_truthy message_id && bool_decide (message_id ∉ sent) then
        send (F_message message) ;;;
        update_self (fun s => set_sent_message_ids (sent_message_ids s ∪ {[message_id]}) s) ;;;
        match ws_conversation_id message, ws_timestamp message with
        | Some conversation_id, Some timestamp =>
            if str_truthy conversation_id then
              update_self (fun s =>
                set_last_seen_timestamps
                  (<[conversation_id := Some timestamp]> (last_seen_timestamps s)) s)
            else ret tt
        | _, _ => ret tt
        end
      else ret tt
  | None => ret tt
  end.

Definition typing_indicator (user_id : option string) (is_typing : json) : CM unit :=
  mongo_user_id_ <- self mongo_user_id ;;
  if bool_decide (user_id ≠ mongo_user_id_) then send (F_typing user_id is_typing)
  else ret tt.

Definition read_receipt (user_id : option string) (conversation_id : json)
    (message_count : Z) : CM unit :=
  mongo_user_id_ <- self mongo_user_id ;;
  if bool_decide (user_id ≠ mongo_user_id_)
  then send (F_read_receipt user_id conversation_id message_count)
  else ret tt.

Definition presence_update (user_id : option string) (status : string) : CM unit :=
  mongo_user_id_ <- self mongo_user_id ;;
  if bool_decide (user_id ≠ mongo_user_id_) then send (F_presence user_id status)
  else ret tt.

Definition notification_received (notification : WsNotification) : CM unit :=
  send (F_notification notification).

Definition message_edited (message : WsMessage) : CM unit :=
  send (F_message_edited message).

Definition message_deleted (message : WsMessage) : CM unit :=
  send (F_message_deleted message).

(** The channel layer calls the method named by the event's [type]. *)
Definition dispatch_group_event (event : GroupEvent) : CM unit :=
  match event with
  | Ev_chat_message message => chat_message message
  | Ev_typing_indicator user_id is_typing => typing_indicator user_id is_typing
  | Ev_read_receipt user_id conversation_id message_count =>
      read_receipt user_id conversation_id message_count
  | Ev_presence_update user_id status => presence_update user_id status
  | Ev_notification_received notification => notification_received notification
  | Ev_message_edited message => message_edited message
  | Ev_message_deleted message => message_deleted message
  end.

(** ** Sample states and notions used in the statements *)

(** A world with one conversation between users 1 and 2 and one message
    sent by user 1. *)
Definition world_one_message : World :=
  mkWorld
    [Conv.mk 10 [1%N; 2%N] "hi" (Some 100) (<[str 2 := 1]> (<[str 1 := 0]> ∅)) 100 100]
    [Msg.mk 20 10 1 "hi" [] 100 false None false None false None]
    [] [] 21 (fun n => 200 + Z.of_nat n) 0 None [].

(** A conversation between users 1 and 2 with two messages of user 1; the
    conversation shows the second one. *)
Definition world_two_messages : World :=
  mkWorld
    [Conv.mk 10 [1%N; 2%N] "second" (Some 101) (<[str 2 := 2]> (<[str 1 := 0]> ∅)) 100 101]
    [Msg.mk 20 10 1 "first" [] 100 false None false None false None;
     Msg.mk 21 10 1 "second" [] 101 false None false None false None]
    [] [] 22 (fun n => 200 + Z.of_nat n) 0 (Some (fun _ => true)) [].

Definition empty_world : World :=
  mkWorld [] [] [] [] 100 (fun n => 1000 + Z.of_nat n) 0 (Some (fun _ => true)) [].

(** User 1 sends "hi" to user 2 with no prior conversation: the
    conversation gets id 100, the message id 101. *)
Definition world_after_hi : World :=
  snd (create_message None (Some (str 1)) (Some (str 2)) "hi" JNull empty_world).

(** The session of user 2 on that conversation. *)
Definition session_of_user_2 : Session :=
  mkSession true (Some 2) (Some (str 2)) (Some (str 100)) (Some (chat_ (str 100)))
            {[chat_ (str 100); notifications_ (str 2)]} ∅ ∅ [].

Definition unread_of (user_id : string) (w : World) : option Z :=
  c ← find_one (fun c => bool_decide (Conv._id c = 100%N)) (conversations w);
  Conv.unread_counts c !! user_id.

(** The event types [receive] routes, in the order it tests them. *)
Definition event_types : list string :=
  ["authenticate"; "send_message"; "typing"; "read_receipt"; "reconnect";
   "get_missed_messages"; "notifications_sync"; "edit_message"; "delete_message"; "ping"].


(** The message id carried by a [missed_message] frame. *)
Definition missed_id (f : Frame) : option string :=
  match f with
  | F_missed_message _ m => ws_id m
  | _ => None
  end.


(** [replayed s s' fs]: from [s] to [s'] the session wrote the frames
    [fs]; each is a [missed_message] with an id, the ids are pairwise
    distinct, none had been delivered in [s], and all are recorded as
    delivered in [s']. *)
Definition replayed (s s' : Session) (fs : list Frame) : Prop :=
  transport s' = transport s ++ fs
  /\ Forall (fun f => is_Some (missed_id f)) fs
  /\ NoDup (omap missed_id fs)
  /\ (forall id, id ∈ omap missed_id fs -> id ∉ sent_message_ids s)
  /\ sent_message_ids s' = sent_message_ids s ∪ list_to_set (omap missed_id fs).

(** A consumer method that only replays, whatever its outcome. *)
Definition replays {A} (m : CM A) : Prop :=
  forall s w, exists fs, replayed s (fst (snd (m (s, w)))) fs.


(** ** db.py: further helpers *)

#[global] Instance usr_eq_dec : EqDecision Usr.t.
Proof. solve_decision. Defined.

Definition set_users (us : list Usr.t) (w : World) : World :=
  mkWorld (conversations w) (messages w) (notifications w) us (next_oid w) (clock w) (ticks w)
          (channel_layer w) (trace w).

(** [$set: {last_seen: now}] *)
Definition set_last_seen (now : datetime) (u : Usr.t) : Usr.t :=
  Usr.mk (Usr._id u) (Usr.django_user_id u) (Usr.name u) (Some now).

Definition update_last_seen (django_user_id : Z) : M World bool :=
  now <- utcnow ;;
  fun w =>
    let '(us, modified_count) :=
      update_one (fun u => bool_decide (Usr.django_user_id u = Some django_user_id))
                 (set_last_seen now) (users w) in
    (Ok (Nat.ltb 0 modified_count), set_users us w).

(** [delete_one(filter)]: the first matching document is removed;
    [deleted_count] is 1 when there was one, else 0. *)
Fixpoint delete_one {D} (p : D -> bool) (coll : list D) : list D * nat :=
  match coll with
  | [] => ([], 0%nat)
  | d :: coll' =>
      if p d then (coll', 1%nat)
      else let '(coll'', n) := delete_one p coll' in (d :: coll'', n)
  end.

Definition get_user_notifications
    (user_id : string) (limit_ skip_ : nat) (unread_only : bool) : M World (list Notif.t) :=
  try_except
    (user_oid <- ObjectId user_id ;;
     gets (fun w =>
       limit limit_ (skip skip_ (sort_desc Notif.created_at
         (List.filter (fun n => bool_decide (Notif.user_id n = user_oid)
                                && (if unread_only then negb (Notif.is_read n) else true))
                      (notifications w))))))
    (fun _ => ret []).

(** [count_documents(filter)] *)
Definition get_unread_count (user_id : string) : M World nat :=
  try_except
    (user_oid <- ObjectId user_id ;;
     gets (fun w =>
       length (List.filter (fun n => bool_decide (Notif.user_id n = user_oid)
                                     && negb (Notif.is_read n))
                           (notifications w))))
    (fun _ => ret 0%nat).

Definition get_notification_by_id (notification_id : string) : M World (option Notif.t) :=
  try_except
    (o <- ObjectId notification_id ;;
     gets (fun w => find_one (fun n => bool_decide (Notif._id n = o)) (notifications w)))
    (fun _ => ret None).

Definition delete_notification (notification_id : string) : M World bool :=
  o <- ObjectId notification_id ;;
  fun w =>
    let '(ns, deleted_count) :=
      delete_one (fun n => bool_decide (Notif._id n = o)) (notifications w) in
    (Ok (Nat.ltb 0 deleted_count), set_notifications ns w).

(** ** consumers.py: further helpers and methods *)

(** The pair [(is_valid, conversation)] is [(True, conversation)] or
    [(False, None)]: [Some conversation] or [None]. *)
Definition validate_conversation_access (user_id : option string) (conversation_id : string)
  : M World (option Conv.t) :=
  try_except
    (conversation <- get_conversation_by_id conversation_id ;;
     match conversation with
     | None => ret None
     | Some conversation =>
         ObjectId_of (opt_json user_id) ;;;
         let participant_ids := Some <$> (str <$> Conv.participants conversation) in
         if bool_decide (user_id ∉ participant_ids) then ret None
         else ret (Some conversation)
     end)
    (fun _ => ret None).

Definition update_user_last_seen_db (django_user_id : Z) : M World bool :=
  try_except (update_last_seen django_user_id) (fun _ => ret false).

(** [for group_name in self.conversation_groups]: the groups are visited
    in the order [elements] lists them. *)
Definition broadcast_presence (status : string) : CM unit :=
  authenticated_ <- self authenticated ;;
  mongo_user_id_ <- self mongo_user_id ;;
  if negb authenticated_ || negb (opt_truthy mongo_user_id_) then ret tt
  else
    groups <- self conversation_groups ;;
    for_each (elements groups) (fun group_name =>
      self_group_send (Named group_name) (Ev_presence_update mongo_user_id_ status)).

(** [await self.channel_layer.group_discard(group, self.channel_name)] *)
Definition self_group_discard (group_name : string) : CM unit :=
  layer <- self_channel_layer ;;
  if layer (Named group_name) then ret tt else raise ChannelLayerError.

Definition disconnect (close_code : Z) : CM unit :=
  authenticated_ <- self authenticated ;;
  (if authenticated_ then
     broadcast_presence "offline" ;;;
     groups <- self conversation_groups ;;
     for_each (elements groups) self_group_discard
   else ret tt) ;;;
  update_self (fun s =>
    set_last_seen_timestamps ∅ (set_sent_message_ids ∅ (set_conversation_groups ∅ s))).

(** [try: m except ValueError as e: h e]: other exceptions pass. *)
Definition try_except_ValueError {S A} (m : M S A)
    (h : string -> list string -> M S A) : M S A :=
  fun s => match m s with
           | (Raise (ValueError msg args), s') => h msg args s'
           | r => r
           end.

(** A session whose [mongo_user_id] is [None] has been refused by
    [validate_conversation_access] ([None] is in no participant list), so
    [update_message] is reached with a string. *)
Definition handle_edit_message (data : list (string * json)) : CM unit :=
  try_except
    (let message_id := dict_get "message_id" data in
     if negb (truthy message_id)
     then send (F_error "VALIDATION_ERROR" "message_id is required" [])
     else
       match dict_get_default "text" (JStr "") data with
       | JStr text =>
           let new_text := strip text in
           if negb (str_truthy new_text)
           then send (F_error "VALIDATION_ERROR" "text is required and cannot be empty" [])
           else
             match message_id with
             | JStr message_id =>
                 message <- liftW (get_message_by_id message_id) ;;
                 match message with
                 | None => send (F_error "NOT_FOUND" "Message not found" [])
                 | Some message =>
                     let conversation_id := str (Msg.conversation_id message) in
                     mongo_user_id_ <- self mongo_user_id ;;
                     access <- liftW (validate_conversation_access mongo_user_id_
                                        conversation_id) ;;
                     match access, mongo_user_id_ with
                     | Some _, Some user_id =>
                         try_except_ValueError
                           (updated_message <-
                              liftW (update_message message_id user_id new_text) ;;
                            match updated_message with
                            | None =>
                                send (F_error "INTERNAL_ERROR" "Failed to update message" [])
                            | Some updated_message =>
                                let message_data := format_message_response updated_message in
                                self_group_send (Named (chat_ conversation_id))
                                                (Ev_message_edited message_data) ;;;
                                send (F_message_edited message_data)
                            end)
                           (fun msg args => send (F_error "VALIDATION_ERROR" msg (JStr <$> args)))
                     | _, _ =>
                         send (F_error "FORBIDDEN" "Not authorized for this conversation" [])
                     end
                 end
             | _ =>
                 (* ObjectId raises for a value that is not a string, and
                    get_message_by_id answers None *)
                 send (F_error "NOT_FOUND" "Message not found" [])
             end
       | _ => raise AttributeError
       end)
    (fun _ => send (F_error "INTERNAL_ERROR" "Failed to edit message" [])).

(** ** notification_views.py and message_views.py *)

(** The body of a [Response]: [{'error': ...}] (the text of a
    [ValueError] with its template and values), [{'message': '...'}], or
    a document under its key. *)
Inductive Body :=
| B_error (error : string) (args : list string)
| B_text (message : string)
| B_conversation (conversation : Conv.t)
| B_message (message : Msg.t).

Record Response := mkResponse {
  body : Body;
  status : Z
}.

Definition HTTP_200_OK : Z := 200.
Definition HTTP_400_BAD_REQUEST : Z := 400.
Definition HTTP_403_FORBIDDEN : Z := 403.
Definition HTTP_404_NOT_FOUND : Z := 404.
Definition HTTP_500_INTERNAL_SERVER_ERROR : Z := 500.

(** [try: m except InvalidId: h]: other exceptions pass. *)
Definition try_except_InvalidId {S A} (m : M S A) (h : M S A) : M S A :=
  fun s => match m s with
           | (Raise InvalidId, s') => h s'
           | r => r
           end.

(** [try: ObjectId(x) except InvalidId: return ...]: whether the
    [return] is taken. *)
Definition invalid_id (x : json) : M World bool :=
  try_except_InvalidId (ObjectId_of x ;;; ret false) (ret true).

(** The views run for an authenticated request; [request_user_id] is
    [request.user.id]. *)
Definition delete_notification_view (request_user_id : Z) (notification_id : string)
  : M World Response :=
  try_except
    (invalid <- invalid_id (JStr notification_id) ;;
     if invalid
     then ret (mkResponse (B_error "Invalid notification ID format" []) HTTP_400_BAD_REQUEST)
     else
       mongo_user <- get_user_by_django_id (Some request_user_id) ;;
       match mongo_user with
       | None => ret (mkResponse (B_error "User not found in MongoDB" []) HTTP_404_NOT_FOUND)
       | Some mongo_user =>
           notification <- get_notification_by_id notification_id ;;
           match notification with
           | None =>
               ret (mkResponse (B_error "Notification not found" []) HTTP_404_NOT_FOUND)
           | Some notification =>
               let user_id := str (Usr._id mongo_user) in
               let notification_user_id := str (Notif.user_id notification) in
               if negb (String.eqb notification_user_id user_id)
               then ret (mkResponse (B_error "Not authorized to delete this notification" [])
                                    HTTP_403_FORBIDDEN)
               else
                 success <- delete_notification notification_id ;;
                 if success
                 then ret (mkResponse (B_text "Notification deleted") HTTP_200_OK)
                 else ret (mkResponse (B_error "Failed to delete notification" [])
                                      HTTP_400_BAD_REQUEST)
           end
       end)
    (fun _ => ret (mkResponse (B_error "Internal server error" [])
                              HTTP_500_INTERNAL_SERVER_ERROR)).

(** [recipient_id] is [request.data.get('recipient_id')]. *)
Definition create_conversation_view (request_user_id : Z) (recipient_id : json)
  : M World Response :=
  try_except
    (mongo_user <- get_user_by_django_id (Some request_user_id) ;;
     match mongo_user with
     | None => ret (mkResponse (B_error "User not found in MongoDB" []) HTTP_404_NOT_FOUND)
     | Some mongo_user =>
         let user_id := str (Usr._id mongo_user) in
         if negb (truthy recipient_id)
         then ret (mkResponse (B_error "recipient_id is required" []) HTTP_400_BAD_REQUEST)
         else
           invalid <- invalid_id recipient_id ;;
           if invalid
           then ret (mkResponse (B_error "Invalid recipient_id format" [])
                                HTTP_400_BAD_REQUEST)
           else
             match recipient_id with
             | JStr recipient_id =>
                 if String.eqb user_id recipient_id
                 then ret (mkResponse (B_error "Cannot create conversation with yourself" [])
                                      HTTP_400_BAD_REQUEST)
                 else
                   conversation <- get_or_create_conversation [user_id; recipient_id] ;;
                   ret (mkResponse (B_conversation conversation) HTTP_200_OK)
             | _ => raise TypeError
             end
     end)
    (fun _ => ret (mkResponse (B_error "Internal server error" [])
                              HTTP_500_INTERNAL_SERVER_ERROR)).

(** [new_text] is [request.data.get('text')]. *)
Definition update_message_view (request_user_id : Z) (message_id : string) (new_text : json)
  : M World Response :=
  try_except
    (invalid <- invalid_id (JStr message_id) ;;
     if invalid
     then ret (mkResponse (B_error "Invalid message ID format" []) HTTP_400_BAD_REQUEST)
     else
       mongo_user <- get_user_by_django_id (Some request_user_id) ;;
       match mongo_user with
       | None => ret (mkResponse (B_error "User not found in MongoDB" []) HTTP_404_NOT_FOUND)
       | Some mongo_user =>
           let user_id := str (Usr._id mongo_user) in
           if negb (truthy new_text)
           then ret (mkResponse (B_error "text field is required" []) HTTP_400_BAD_REQUEST)
           else
             try_except_ValueError
               (updated_message <-
                  match new_text with
                  | JStr new_text => update_message message_id user_id new_text
                  | _ => raise AttributeError
                  end ;;
                match updated_message with
                | None =>
                    ret (mkResponse (B_error "Message not found" []) HTTP_404_NOT_FOUND)
                | Some updated_message =>
                    ret (mkResponse (B_message updated_message) HTTP_200_OK)
                end)
               (fun msg args => ret (mkResponse (B_error msg args) HTTP_400_BAD_REQUEST))
       end)
    (fun _ => ret (mkResponse (B_error "Internal server error" [])
                              HTTP_500_INTERNAL_SERVER_ERROR)).

Definition delete_message_view (request_user_id : Z) (message_id : string)
  : M World Response :=
  try_except
    (invalid <- invalid_id (JStr message_id) ;;
     if invalid
     then ret (mkResponse (B_error "Invalid message ID format" []) HTTP_400_BAD_REQUEST)
     else
       mongo_user <- get_user_by_django_id (Some request_user_id) ;;
       match mongo_user with
       | None => ret (mkResponse (B_error "User not found in MongoDB" []) HTTP_404_NOT_FOUND)
       | Some mongo_user =>
           let user_id := str (Usr._id mongo_user) in
           message <- get_message_by_id message_id ;;
           match message with
           | None => ret (mkResponse (B_error "Message not found" []) HTTP_404_NOT_FOUND)
           | Some _ =>
               try_except_ValueError
                 (success <- delete_message message_id user_id ;;
                  if negb success
                  then ret (mkResponse (B_error "Failed to delete message" [])
                                       HTTP_500_INTERNAL_SERVER_ERROR)
                  else ret (mkResponse (B_text "Message deleted successfully") HTTP_200_OK))
                 (fun msg args => ret (mkResponse (B_error msg args) HTTP_403_FORBIDDEN))
           end
       end)
    (fun _ => ret (mkResponse (B_error "Internal server error" [])
                              HTTP_500_INTERNAL_SERVER_ERROR)).

(** ** Notions used in the further statements *)

(** What an operation on notifications or on the channel layer leaves
    alone. *)
Definition same_chat (w w' : World) : Prop :=
  conversations w' = conversations w /\ messages w' = messages w /\ users w' = users w.

(** The body of the loop of [create_message] over the participants. *)
Definition unread_and_notify (conversation_id sender_id text sender_name : string)
    (participant_oid : oid) : M World unit :=
  let participant_str := str participant_oid in
  if negb (String.eqb participant_str sender_id) then
    increment_unread_count conversation_id participant_str ;;;
    try_except
      (let message_preview :=
         prefix 100 (strip text)
         +:+ (if Nat.ltb 100 (String.length (strip text)) then "..." else "") in
       send_notification participant_str "new_message"
         ("New message from " +:+ sender_name) message_preview
         (Some conversation_id) ;;;
       ret tt)
      (fun _ => ret tt)
  else ret tt.

(** [$inc] of the counter of [user_id]. *)
Definition bump (u : gmap string Z) (user_id : string) : gmap string Z :=
  <[user_id := default 0 (u !! user_id) + 1]> u.

(** The participants other than the sender, as [create_message] names
    them. *)
Definition recipients (sender_id : string) (participants : list oid) : list string :=
  List.filter (fun k => negb (String.eqb k sender_id)) (str <$> participants).

(** The attachment check of [create_message], giving the list stored. *)
Definition validate_attachments (attachments : json) : M World (list string) :=
  if truthy attachments then
    match attachments with
    | JList urls => attachment_urls urls
    | _ => raise (ValueError "attachments must be a list" [])
    end
  else ret [].

(** The filter of [mark_conversation_messages_as_read]: an unread message
    of conversation [c] that user [u] did not send. *)
Definition unread_for (c u : oid) (m : Msg.t) : bool :=
  bool_decide (Msg.conversation_id m = c)
  && negb (bool_decide (Msg.sender_id m = u))
  && negb (Msg.is_read m).

(** From [w] to [w'] every stored message is still stored, and is still
    read when it was. *)
Definition keeps_read (w w' : World) : Prop :=
  forall o m,
    find_one (fun x => bool_decide (Msg._id x = o)) (messages w) = Some m ->
    exists m',
      find_one (fun x => bool_decide (Msg._id x = o)) (messages w') = Some m'
      /\ (Msg.is_read m = true -> Msg.is_read m' = true).

(** A consumer method that leaves the world as it is and leaves no group
    the session has joined, whatever its outcome. *)
Definition quiet {A} (m : CM A) : Prop :=
  forall s w,
    snd (snd (m (s, w))) = w
    /\ conversation_groups s ⊆ conversation_groups (fst (snd (m (s, w)))).

(** A consumer method that returns, leaves the world as it is and keeps
    the session's groups. *)
Definition steady {A} (m : CM A) : Prop :=
  forall s w, exists a s',
    m (s, w) = (Ok a, (s', w)) /\ conversation_groups s' = conversation_groups s.

(** A database call that sends nothing to a group, stores no
    notification and leaves the users and the channel layer alone,
    whatever its outcome. *)
Definition silent {A} (m : M World A) : Prop :=
  forall w,
    trace (snd (m w)) = trace w
    /\ channel_layer (snd (m w)) = channel_layer w
    /\ notifications (snd (m w)) = notifications w
    /\ users (snd (m w)) = users w.


(** * Properties *)

(** ** Conversations are keyed by the unordered participant pair *)

Lemma sort_asc_pair (a b : oid) :
  a ≠ b ->
  sort_asc Z.of_N [a; b] = sort_asc Z.of_N [b; a]
  /\ (sort_asc Z.of_N [a; b] = [a; b] \/ sort_asc Z.of_N [a; b] = [b; a]).
Proof.
  intros Hab. cbn.
  destruct (Z.leb_spec (Z.of_N a) (Z.of_N b)), (Z.leb_spec (Z.of_N b) (Z.of_N a));
    try (split; [reflexivity | auto]); lia.
Qed.

Lemma participant_oids_of_pair (A B : string) (a b : oid) (w : World) :
  parse_oid A = Some a -> parse_oid B = Some b -> a ≠ b ->
  participant_oids_of [A; B] [] w = (Ok [a; b], w).
Proof.
  intros HA HB Hab. cbn. unfold try_except, bind, ObjectId. rewrite HA, HB. cbn.
  unfold ret.
  destruct (decide (a ∈ [])) as [Hin | _]; [now apply elem_of_nil in Hin |]. cbn.
  destruct (decide (b ∈ [a])) as [Hin | _]; [| reflexivity].
  apply list_elem_of_singleton in Hin. congruence.
Qed.

Lemma find_one_app_new {D} (p : D -> bool) (l : list D) (d : D) :
  find_one p l = None -> p d = true -> find_one p (l ++ [d]) = Some d.
Proof.
  unfold find_one. induction l as [| x l IH]; cbn; intros Hn Hd.
  - now rewrite Hd.
  - destruct (p x); [discriminate | auto].
Qed.

Lemma find_one_split {D} (p : D -> bool) (l : list D) (d : D) :
  find_one p l = Some d ->
  exists l1 l2, l = l1 ++ d :: l2 /\ (forall x, x ∈ l1 -> p x = false) /\ p d = true.
Proof.
  unfold find_one. induction l as [| x l IH]; cbn; [discriminate |].
  destruct (p x) eqn:Hx; intros Hfind.
  - injection Hfind as ->. exists [], l. repeat split; auto.
    intros y Hy. now apply elem_of_nil in Hy.
  - destruct (IH Hfind) as (l1 & l2 & -> & Hl1 & Hd).
    exists (x :: l1), l2. repeat split; auto.
    intros y Hy. apply elem_of_cons in Hy as [-> | Hy]; auto.
Qed.

Lemma pair_counters_lookup (x y k : string) :
  (<[y := 0]> (<[x := 0]> ∅) : gmap string Z) !! k
  = if bool_decide (k = x \/ k = y) then Some 0 else None.
Proof.
  destruct (decide (k = y)) as [-> | Hy].
  - rewrite lookup_insert_eq, bool_decide_eq_true_2 by auto. reflexivity.
  - rewrite lookup_insert_ne by congruence.
    destruct (decide (k = x)) as [-> | Hx].
    + rewrite lookup_insert_eq, bool_decide_eq_true_2 by auto. reflexivity.
    + rewrite lookup_insert_ne by congruence.
      rewrite lookup_empty, bool_decide_eq_false_2 by tauto. reflexivity.
Qed.

(** C2. For two distinct valid user ids, [get_or_create_conversation] with
    [A, B] and with [B, A] is the same computation: the pair is sorted
    before the lookup and before the insertion.  The call succeeds with a
    conversation whose participants are the sorted pair and which is in
    the store afterwards.  When the store holds a conversation of the
    pair, the first such is returned and nothing is written; when it
    holds none, one record is appended: the returned one, with a fresh
    id, no last message and a counter 0 for each of the two users.  So a
    store with at most one conversation per participant list stays so,
    and calling again in either order returns that same record and adds
    nothing. *)
Theorem get_or_create_conversation_unordered
    (A B : string) (a b : oid) (w : World) :
  parse_oid A = Some a -> parse_oid B = Some b -> a ≠ b ->
  get_or_create_conversation [A; B] w = get_or_create_conversation [B; A] w
  /\ exists c w1,
       get_or_create_conversation [A; B] w = (Ok c, w1)
       /\ Conv.participants c = sort_asc Z.of_N [a; b]
       /\ c ∈ conversations w1
       /\ ((exists c0, c0 ∈ conversations w
                       /\ Conv.participants c0 = sort_asc Z.of_N [a; b]) ->
           w1 = w
           /\ exists l1 l2,
                conversations w = l1 ++ c :: l2
                /\ forall x, x ∈ l1 -> Conv.participants x <> sort_asc Z.of_N [a; b])
       /\ ((forall c0, c0 ∈ conversations w ->
                       Conv.participants c0 <> sort_asc Z.of_N [a; b]) ->
           conversations w1 = conversations w ++ [c]
           /\ Conv._id c = next_oid w
           /\ Conv.last_message c = ""
           /\ Conv.last_message_timestamp c = None
           /\ (forall k, Conv.unread_counts c !! k
                         = if bool_decide (k = str a \/ k = str b) then Some 0 else None)
           /\ Conv.created_at c = clock w (ticks w)
           /\ Conv.updated_at c = clock w (S (ticks w))
           /\ messages w1 = messages w
           /\ notifications w1 = notifications w
           /\ users w1 = users w
           /\ trace w1 = trace w)
       /\ (w1 = w
           \/ (find_one (fun c' => bool_decide (Conv.participants c' = Conv.participants c))
                        (conversations w) = None
               /\ conversations w1 = conversations w ++ [c]))
       /\ (NoDup (Conv.participants <$> conversations w) ->
           NoDup (Conv.participants <$> conversations w1))
       /\ get_or_create_conversation [B; A] w1 = (Ok c, w1)
       /\ get_or_create_conversation [A; B] w1 = (Ok c, w1).
Proof.
  intros HA HB Hab.
  assert (Hba : b ≠ a) by congruence.
  destruct (sort_asc_pair a b Hab) as [Hsym Hshape].
  assert (Hstep : forall w0,
    get_or_create_conversation [A; B] w0 = get_or_create_conversation [B; A] w0).
  { intros w0. unfold get_or_create_conversation. cbn [length Nat.eqb negb].
    unfold bind at 1. unfold bind at 6.
    rewrite (participant_oids_of_pair A B a b w0 HA HB Hab).
    rewrite (participant_oids_of_pair B A b a w0 HB HA Hba).
    rewrite Hsym. reflexivity. }
  split; [apply Hstep |].
  assert (Hrun : forall w0,
    get_or_create_conversation [A; B] w0 =
    match sort_asc Z.of_N [a; b] with
    | [p0; p1] =>
        match find_one (fun c => bool_decide (Conv.participants c = [p0; p1])) (conversations w0) with
        | Some c => (Ok c, w0)
        | None =>
            let c := Conv.mk (next_oid w0) [p0; p1] "" None
                       (<[str p1 := 0]> (<[str p0 := 0]> ∅))
                       (clock w0 (ticks w0)) (clock w0 (S (ticks w0))) in
            (Ok c, set_conversations (conversations w0 ++ [c])
                     (set_next_oid (N.succ (next_oid w0))
                        (set_ticks (S (S (ticks w0))) w0)))
        end
    | _ => (Raise (ValueError "participants must be unique" []), w0)
    end).
  { intros w0. unfold get_or_create_conversation. cbn [length Nat.eqb negb].
    unfold bind at 1.
    rewrite (participant_oids_of_pair A B a b w0 HA HB Hab).
    destruct Hshape as [-> | ->]; cbn;
      unfold bind, gets; cbn;
      match goal with |- context [find_one ?p ?l] => destruct (find_one p l) end;
      reflexivity. }
  set (ps := sort_asc Z.of_N [a; b]) in *.
  assert (Hps : exists p0 p1, ps = [p0; p1] /\ ((p0 = a /\ p1 = b) \/ (p0 = b /\ p1 = a))).
  { destruct Hshape as [-> | ->]; eexists _, _; split; [reflexivity | tauto | reflexivity | tauto]. }
  destruct Hps as (p0 & p1 & Hps & Hp01).
  destruct (find_one (fun c => bool_decide (Conv.participants c = [p0; p1]))
                     (conversations w)) as [c |] eqn:Hfind.
  - exists c, w. rewrite <- Hstep, Hrun, Hps, Hfind.
    destruct (find_one_split _ _ _ Hfind) as (l1 & l2 & Hl & Hl1 & _).
    pose proof Hfind as Hfind'.
    apply find_some in Hfind as [Hin Hp]. apply bool_decide_eq_true in Hp.
    apply list_elem_of_In in Hin.
    split; [reflexivity |]. split; [exact Hp |]. split; [exact Hin |].
    split; [| split].
    + intros _. split; [reflexivity |]. exists l1, l2. split; [exact Hl |].
      intros x Hx. specialize (Hl1 x Hx). now apply bool_decide_eq_false in Hl1.
    + intros Hnone. destruct (Hnone c Hin Hp).
    + repeat split; auto.
  - eexists. eexists. rewrite <- Hstep, !Hrun, Hps, Hfind. cbn zeta.
    split; [reflexivity |]. split; [reflexivity |].
    cbn [conversations set_conversations].
    split; [apply elem_of_app; right; apply list_elem_of_here |].
    split; [| split; [| split; [| split]]].
    + intros (c0 & Hin & Hp). apply list_elem_of_In in Hin.
      pose proof (find_none _ _ Hfind c0 Hin) as Hfalse.
      apply bool_decide_eq_false in Hfalse. contradiction.
    + intros _. cbn. repeat (split; [reflexivity |]). split; [| auto 10].
      intros k. rewrite pair_counters_lookup.
      destruct Hp01 as [[-> ->] | [-> ->]]; repeat case_bool_decide;
        try reflexivity; tauto.
    + right. split; [exact Hfind | reflexivity].
    + intros Hnodup.
      rewrite fmap_app. apply NoDup_app. repeat split; [exact Hnodup | | apply NoDup_singleton].
      intros ps' Hin Hnew. cbn in Hnew. apply list_elem_of_singleton in Hnew. subst ps'.
      apply list_elem_of_fmap in Hin as (c' & Hc' & Hin).
      apply list_elem_of_In in Hin.
      pose proof (find_none _ _ Hfind c' Hin) as Hfalse.
      apply bool_decide_eq_false in Hfalse. cbn in Hc'. congruence.
    + cbn [conversations set_conversations Conv.participants].
      erewrite find_one_app_new; [auto | exact Hfind |].
      apply bool_decide_eq_true. reflexivity.
Qed.

Lemma get_or_create_conversation_unordered_witness :
  get_or_create_conversation [str 1; str 2] empty_world
    = get_or_create_conversation [str 2; str 1] empty_world
  /\ exists c w1,
       get_or_create_conversation [str 1; str 2] empty_world = (Ok c, w1)
       /\ Conv.participants c = sort_asc Z.of_N [1%N; 2%N]
       /\ c ∈ conversations w1
       /\ ((exists c0, c0 ∈ conversations empty_world
                       /\ Conv.participants c0 = sort_asc Z.of_N [1%N; 2%N]) ->
           w1 = empty_world
           /\ exists l1 l2,
                conversations empty_world = l1 ++ c :: l2
                /\ forall x, x ∈ l1 -> Conv.participants x <> sort_asc Z.of_N [1%N; 2%N])
       /\ ((forall c0, c0 ∈ conversations empty_world ->
                       Conv.participants c0 <> sort_asc Z.of_N [1%N; 2%N]) ->
           conversations w1 = conversations empty_world ++ [c]
           /\ Conv._id c = next_oid empty_world
           /\ Conv.last_message c = ""
           /\ Conv.last_message_timestamp c = None
           /\ (forall k, Conv.unread_counts c !! k
                         = if bool_decide (k = str 1 \/ k = str 2) then Some 0 else None)
           /\ Conv.created_at c = clock empty_world (ticks empty_world)
           /\ Conv.updated_at c = clock empty_world (S (ticks empty_world))
           /\ messages w1 = messages empty_world
           /\ notifications w1 = notifications empty_world
           /\ users w1 = users empty_world
           /\ trace w1 = trace empty_world)
       /\ (w1 = empty_world
           \/ (find_one (fun c' => bool_decide (Conv.participants c' = Conv.participants c))
                        (conversations empty_world) = None
               /\ conversations w1 = conversations empty_world ++ [c]))
       /\ (NoDup (Conv.participants <$> conversations empty_world) ->
           NoDup (Conv.participants <$> conversations w1))
       /\ get_or_create_conversation [str 2; str 1] w1 = (Ok c, w1)
       /\ get_or_create_conversation [str 1; str 2] w1 = (Ok c, w1).
Proof.
  apply (get_or_create_conversation_unordered (str 1) (str 2) 1%N 2%N empty_world);
    [reflexivity | reflexivity | discriminate].
Defined.

(** ** Only the sender edits or deletes a message *)

Ltac unfold_monad :=
  unfold ObjectId in *; unfold bind, ret, raise, gets, modify, try_except in *.

Lemma strip_truthy (t : string) :
  str_truthy (strip t) = true -> str_truthy t = true.
Proof. destruct t; [intros H; exact H | reflexivity]. Qed.

Lemma truthy_length (t : string) :
  str_truthy t = true -> Nat.ltb (String.length t) 1 = false.
Proof. destruct t; [discriminate | reflexivity]. Qed.

(** C3, as stated, fails for [update_message] with a blank text: the text
    is validated before the sender, so a caller who is not the sender gets
    the validation error, not the authorization error. *)
Lemma update_message_blank_text_not_authorization :
  find_one (fun m => bool_decide (Msg._id m = 20%N)) (messages world_one_message)
    = Some (Msg.mk 20 10 1 "hi" [] 100 false None false None false None)
  /\ parse_oid (str 2) = Some 2%N
  /\ update_message (str 20) (str 2) "  " world_one_message
     = (Raise (ValueError "message text cannot be empty" []), world_one_message)
  /\ update_message (str 20) (str 2) "  " world_one_message
     <> (Raise (ValueError "Only the message sender can update the message" []),
         world_one_message).
Proof.
  split; [reflexivity |]. split; [reflexivity |].
  assert (H : update_message (str 20) (str 2) "  " world_one_message
              = (Raise (ValueError "message text cannot be empty" []), world_one_message))
    by reflexivity.
  split; [exact H |]. rewrite H. intros Heq. inversion Heq.
Qed.

(** C3 (amended). For an existing message and a valid caller id that is
    not the message's sender: [delete_message] raises the authorization
    error; [update_message] raises it when the new text is not blank, and
    raises the text-validation error ("message text cannot be empty")
    when the text is empty or only white space; none of these calls
    changes anything in the store. *)
Theorem only_sender_may_edit_or_delete
    (message_id caller_id : string) (mid c : oid) (m : Msg.t) (w : World) :
  parse_oid message_id = Some mid ->
  parse_oid caller_id = Some c ->
  find_one (fun m' => bool_decide (Msg._id m' = mid)) (messages w) = Some m ->
  Msg.sender_id m <> c ->
  delete_message message_id caller_id w
    = (Raise (ValueError "Only the message sender can delete the message" []), w)
  /\ (forall new_text,
        str_truthy (strip new_text) = true ->
        update_message message_id caller_id new_text w
          = (Raise (ValueError "Only the message sender can update the message" []), w))
  /\ (forall new_text,
        str_truthy (strip new_text) = false ->
        update_message message_id caller_id new_text w
          = (Raise (ValueError "message text cannot be empty" []), w))
  /\ (forall new_text,
        update_message message_id caller_id new_text w
          = (Raise (ValueError
                      (if str_truthy (strip new_text)
                       then "Only the message sender can update the message"
                       else "message text cannot be empty") []), w)).
Proof.
  intros Hmid Hc Hfind Hne.
  assert (Hdec : bool_decide (Msg.sender_id m = c) = false)
    by (apply bool_decide_eq_false; exact Hne).
  assert (Hupd : forall new_text,
    str_truthy (strip new_text) = true ->
    update_message message_id caller_id new_text w
      = (Raise (ValueError "Only the message sender can update the message" []), w)).
  { intros new_text Hstrip. unfold update_message.
    rewrite (strip_truthy _ Hstrip), Hstrip, (truthy_length _ Hstrip). cbn [negb orb].
    unfold_monad. rewrite Hmid, Hc. cbn. rewrite Hfind, Hdec. reflexivity. }
  assert (Hblank : forall new_text,
    str_truthy (strip new_text) = false ->
    update_message message_id caller_id new_text w
      = (Raise (ValueError "message text cannot be empty" []), w)).
  { intros new_text Hstrip. unfold update_message.
    rewrite Hstrip, orb_true_r. reflexivity. }
  split; [| split; [| split]].
  - unfold delete_message. unfold_monad. rewrite Hmid, Hc. cbn.
    rewrite Hfind, Hdec. reflexivity.
  - exact Hupd.
  - exact Hblank.
  - intros new_text. destruct (str_truthy (strip new_text)) eqn:Hstrip.
    + apply Hupd, Hstrip.
    + apply Hblank, Hstrip.
Qed.

Lemma only_sender_may_edit_or_delete_witness :
  delete_message (str 20) (str 2) world_one_message
    = (Raise (ValueError "Only the message sender can delete the message" []),
       world_one_message)
  /\ (forall new_text,
        str_truthy (strip new_text) = true ->
        update_message (str 20) (str 2) new_text world_one_message
          = (Raise (ValueError "Only the message sender can update the message" []),
             world_one_message))
  /\ (forall new_text,
        str_truthy (strip new_text) = false ->
        update_message (str 20) (str 2) new_text world_one_message
          = (Raise (ValueError "message text cannot be empty" []), world_one_message))
  /\ (forall new_text,
        update_message (str 20) (str 2) new_text world_one_message
          = (Raise (ValueError
                      (if str_truthy (strip new_text)
                       then "Only the message sender can update the message"
                       else "message text cannot be empty") []), world_one_message)).
Proof.
  apply (only_sender_may_edit_or_delete (str 20) (str 2) 20%N 2%N
           (Msg.mk 20 10 1 "hi" [] 100 false None false None false None)
           world_one_message);
    [reflexivity | reflexivity | reflexivity | discriminate].
Defined.

(** ** Deleting a message *)

Lemma bind_eq {S A B} (m : M S A) (k : A -> M S B) (s : S) :
  bind m k s = match m s with
               | (Ok a, s') => k a s'
               | (Raise e, s') => (Raise e, s')
               end.
Proof. reflexivity. Qed.

Lemma update_one_found {D} `{EqDecision D} (p : D -> bool) (f : D -> D) (l : list D) (m : D) :
  find_one p l = Some m ->
  exists l1 l2,
    l = l1 ++ m :: l2
    /\ (forall x, x ∈ l1 -> p x = false)
    /\ update_one p f l = (l1 ++ f m :: l2, if decide (f m = m) then 0%nat else 1%nat).
Proof.
  unfold find_one. induction l as [| x l IH]; cbn; [discriminate |].
  destruct (p x) eqn:Hpx; intros Hfind.
  - injection Hfind as ->. exists [], l. repeat split; auto.
    intros y Hy. now apply elem_of_nil in Hy.
  - destruct (IH Hfind) as (l1 & l2 & -> & Hl1 & Hupd).
    exists (x :: l1), l2. rewrite Hupd. repeat split; auto.
    intros y Hy. apply elem_of_cons in Hy as [-> | Hy]; auto.
Qed.

Lemma get_conversation_by_id_reads (conversation_id : string) (w : World) :
  exists r, get_conversation_by_id conversation_id w = (Ok r, w).
Proof.
  unfold get_conversation_by_id. unfold_monad.
  destruct (parse_oid conversation_id); eauto.
Qed.

Lemma get_messages_by_conversation_reads (conversation_id : string) (n k : nat) (w : World) :
  exists r, get_messages_by_conversation conversation_id n k w = (Ok r, w).
Proof.
  unfold get_messages_by_conversation. unfold_monad.
  destruct (parse_oid conversation_id); eauto.
Qed.

Lemma update_conversation_last_message_messages
    (conversation_id text : string) (ts : option datetime) (w w' : World) (r : result bool) :
  update_conversation_last_message conversation_id text ts w = (r, w') ->
  messages w' = messages w.
Proof.
  unfold update_conversation_last_message. unfold_monad. unfold utcnow.
  destruct (parse_oid conversation_id); [| now intros [= _ <-]].
  cbn. match goal with |- context [update_one ?p ?f ?l] => destruct (update_one p f l) end.
  now intros [= _ <-].
Qed.

(** The part of [delete_message] that follows the update of the message
    leaves the messages alone. *)
Lemma refresh_last_message_messages
    (conversation_id : string) (message : Msg.t) (w w' : World) (r : result bool) :
  (conversation <- get_conversation_by_id conversation_id ;;
   match conversation with
   | Some conversation =>
       if bool_decide (Conv.last_message_timestamp conversation
                       = Some (Msg.timestamp message))
       then
         recent_messages <- get_messages_by_conversation conversation_id 1 0 ;;
         match recent_messages with
         | last_msg :: _ =>
             if negb (Msg.is_deleted last_msg)
             then update_conversation_last_message conversation_id
                    (Msg.text last_msg) (Some (Msg.timestamp last_msg)) ;;; ret tt
             else update_conversation_last_message conversation_id "" None ;;; ret tt
         | [] => update_conversation_last_message conversation_id "" None ;;; ret tt
         end
       else ret tt
   | None => ret tt
   end ;;;
   ret true) w = (r, w') ->
  messages w' = messages w.
Proof.
  unfold bind at 1 2.
  destruct (get_conversation_by_id_reads conversation_id w) as [c ->].
  destruct c as [c |]; [| now intros [= _ <-]].
  destruct (bool_decide _); [| now intros [= _ <-]].
  unfold bind at 1.
  destruct (get_messages_by_conversation_reads conversation_id 1 0 w) as [ms ->].
  assert (Hupd : forall text ts,
    ((update_conversation_last_message conversation_id text ts ;;; ret tt) ;;; ret true) w
      = (r, w') -> messages w' = messages w).
  { intros text ts. unfold bind, ret.
    destruct (update_conversation_last_message conversation_id text ts w) as [[b | e] w1] eqn:Hu;
      intros [= _ <-]; eapply update_conversation_last_message_messages; eauto. }
  destruct ms as [| last_msg ms]; [apply Hupd |].
  destruct (negb (Msg.is_deleted last_msg)); apply Hupd.
Qed.

(** C7, as stated, fails on one field: besides the text, the attachments
    and the flag, a successful [delete_message] also stamps
    [deleted_at]. *)
Lemma delete_message_stamps_deleted_at :
  exists m m' w',
    find_one (fun x => bool_decide (Msg._id x = 20%N)) (messages world_one_message) = Some m
    /\ delete_message (str 20) (str 1) world_one_message = (Ok true, w')
    /\ find_one (fun x => bool_decide (Msg._id x = 20%N)) (messages w') = Some m'
    /\ Msg.deleted_at m = None
    /\ Msg.deleted_at m' = Some 200
    /\ Msg.deleted_at m' <> Msg.deleted_at m.
Proof.
  eexists. eexists. eexists.
  split; [reflexivity |]. split; [vm_compute; reflexivity |].
  split; [reflexivity |]. split; [reflexivity |]. split; [reflexivity | discriminate].
Qed.

(** C7 (amended). A successful [delete_message] keeps the record in its
    place in the collection: its text becomes ['[Message deleted]'], its
    attachments the empty list, [is_deleted] true and [deleted_at] the
    time of the call; its id, conversation, sender, timestamp, read and
    edit fields are unchanged, and so is every other message. *)
Theorem delete_message_is_soft (message_id sender_id : string) (w w' : World) :
  delete_message message_id sender_id w = (Ok true, w') ->
  exists l1 m l2,
    messages w = l1 ++ m :: l2
    /\ parse_oid message_id = Some (Msg._id m)
    /\ parse_oid sender_id = Some (Msg.sender_id m)
    /\ (forall x, x ∈ l1 -> Msg._id x <> Msg._id m)
    /\ exists m',
         messages w' = l1 ++ m' :: l2
         /\ Msg.text m' = "[Message deleted]"
         /\ Msg.attachments m' = []
         /\ Msg.is_deleted m' = true
         /\ Msg.deleted_at m' = Some (clock w (ticks w))
         /\ Msg._id m' = Msg._id m
         /\ Msg.conversation_id m' = Msg.conversation_id m
         /\ Msg.sender_id m' = Msg.sender_id m
         /\ Msg.timestamp m' = Msg.timestamp m
         /\ Msg.is_read m' = Msg.is_read m
         /\ Msg.read_at m' = Msg.read_at m
         /\ Msg.is_edited m' = Msg.is_edited m
         /\ Msg.edited_at m' = Msg.edited_at m.
Proof.
  unfold delete_message. rewrite bind_eq. unfold try_except. rewrite bind_eq.
  unfold ObjectId at 1.
  destruct (parse_oid message_id) as [mid |] eqn:Hmid; [| discriminate].
  unfold ret at 1. rewrite bind_eq. unfold ObjectId at 1.
  destruct (parse_oid sender_id) as [sid |] eqn:Hsid; [| discriminate].
  unfold ret at 1 2. cbn iota beta. rewrite bind_eq. unfold gets at 1.
  destruct (find_one (fun m => bool_decide (Msg._id m = mid)) (messages w)) as [m |] eqn:Hfind;
    [| discriminate].
  destruct (bool_decide (Msg.sender_id m = sid)) eqn:Hsender; [| discriminate].
  apply bool_decide_eq_true in Hsender. cbn [negb].
  rewrite bind_eq. unfold utcnow at 1. rewrite bind_eq.
  destruct (update_one_found _ (Msg.set_deleted (clock w (ticks w))) _ _ Hfind)
    as (l1 & l2 & Hsplit & Hl1 & Hupd).
  cbn [messages set_ticks]. rewrite Hupd.
  pose proof (find_some _ _ Hfind) as [_ Hid]. apply bool_decide_eq_true in Hid.
  destruct (decide (Msg.set_deleted (clock w (ticks w)) m = m)); cbn [Nat.ltb Nat.leb];
    [discriminate |].
  intros Htail. apply refresh_last_message_messages in Htail. cbn in Htail.
  exists l1, m, l2. subst mid sid. repeat split; auto.
  - intros x Hx Heq. apply Hl1 in Hx. apply bool_decide_eq_false in Hx. auto.
  - exists (Msg.set_deleted (clock w (ticks w)) m). repeat split; auto.
Qed.

Lemma delete_message_is_soft_witness :
  exists l1 m l2,
    messages world_one_message = l1 ++ m :: l2
    /\ parse_oid (str 20) = Some (Msg._id m)
    /\ parse_oid (str 1) = Some (Msg.sender_id m)
    /\ (forall x, x ∈ l1 -> Msg._id x <> Msg._id m)
    /\ exists m',
         messages (snd (delete_message (str 20) (str 1) world_one_message)) = l1 ++ m' :: l2
         /\ Msg.text m' = "[Message deleted]"
         /\ Msg.attachments m' = []
         /\ Msg.is_deleted m' = true
         /\ Msg.deleted_at m' = Some (clock world_one_message (ticks world_one_message))
         /\ Msg._id m' = Msg._id m
         /\ Msg.conversation_id m' = Msg.conversation_id m
         /\ Msg.sender_id m' = Msg.sender_id m
         /\ Msg.timestamp m' = Msg.timestamp m
         /\ Msg.is_read m' = Msg.is_read m
         /\ Msg.read_at m' = Msg.read_at m
         /\ Msg.is_edited m' = Msg.is_edited m
         /\ Msg.edited_at m' = Msg.edited_at m.
Proof.
  apply (delete_message_is_soft (str 20) (str 1) world_one_message
           (snd (delete_message (str 20) (str 1) world_one_message))).
  vm_compute. reflexivity.
Defined.

(** ** The conversation's last message after a delete *)

(** C5. Deleting the conversation's last message while an older,
    undeleted message remains: [delete_message] looks at the newest
    message of the conversation, which is the one just deleted, and clears
    [last_message] instead of showing the older message. *)
Theorem delete_last_message_clears_display :
  let run := delete_message (str 21) (str 1) world_two_messages in
  fst run = Ok true
  /\ List.filter (fun m => negb (Msg.is_deleted m)) (messages (snd run))
     = [Msg.mk 20 10 1 "first" [] 100 false None false None false None]
  /\ (fun c => (Conv.last_message c, Conv.last_message_timestamp c))
       <$> find_one (fun c => bool_decide (Conv._id c = 10%N)) (conversations (snd run))
     = Some ("", None).
Proof. vm_compute. repeat split; reflexivity. Qed.

(** The parts of C5 that hold.  Deleting a message whose timestamp is not
    the conversation's [last_message_timestamp] leaves every conversation
    as it is. *)
Lemma delete_message_not_last_keeps_display
    (message_id sender_id : string) (mid : oid) (m : Msg.t) (w w' : World) :
  parse_oid message_id = Some mid ->
  find_one (fun x => bool_decide (Msg._id x = mid)) (messages w) = Some m ->
  (forall c, c ∈ conversations w ->
             Conv.last_message_timestamp c <> Some (Msg.timestamp m)) ->
  delete_message message_id sender_id w = (Ok true, w') ->
  conversations w' = conversations w.
Proof.
  intros Hmid Hfind Hlast.
  unfold delete_message. rewrite bind_eq. unfold try_except. rewrite bind_eq.
  unfold ObjectId at 1. rewrite Hmid.
  unfold ret at 1. rewrite bind_eq. unfold ObjectId at 1.
  destruct (parse_oid sender_id) as [sid |]; [| discriminate].
  unfold ret at 1 2. cbn iota beta. rewrite bind_eq. unfold gets at 1. rewrite Hfind.
  destruct (bool_decide (Msg.sender_id m = sid)); [| discriminate]. cbn [negb].
  rewrite bind_eq. unfold utcnow at 1. rewrite bind_eq.
  cbn [messages set_ticks].
  match goal with |- context [update_one ?p ?f ?l] => destruct (update_one p f l) as [ms n] end.
  destruct (Nat.ltb 0 n); [| discriminate].
  rewrite bind_eq.
  match goal with |- context [get_conversation_by_id ?c ?w1] =>
    pose proof (get_conversation_by_id_reads c w1) as [r Hr];
    assert (Hc : forall c', r = Some c' -> c' ∈ conversations w);
    [| rewrite Hr]
  end.
  { intros c' ->. unfold get_conversation_by_id, try_except in Hr.
    rewrite bind_eq in Hr. unfold ObjectId in Hr.
    destruct (parse_oid (str (Msg.conversation_id m))); [| discriminate].
    unfold ret, gets in Hr. injection Hr as Hr.
    apply find_some in Hr as [Hin _]. now apply list_elem_of_In. }
  destruct r as [c' |]; rewrite bind_eq; [| now intros [= <-]].
  rewrite bool_decide_eq_false_2 by (apply Hlast, Hc; reflexivity).
  now intros [= <-].
Qed.

(** Deleting the only message of a conversation clears the display. *)
Example delete_only_message_clears_display :
  let run := delete_message (str 20) (str 1) world_one_message in
  fst run = Ok true
  /\ (fun c => (Conv.last_message c, Conv.last_message_timestamp c))
       <$> find_one (fun c => bool_decide (Conv._id c = 10%N)) (conversations (snd run))
     = Some ("", None).
Proof. vm_compute. split; reflexivity. Qed.

(** ** Unread counters *)

(** C6. After user 1's message, user 2's counter is 1 and user 1's is 0.
    A [read_receipt] of user 2 that names the message marks it read but
    leaves the counter at 1: this path of [mark_messages_read] only calls
    [mark_message_as_read], and never [reset_unread_count] as the path
    without ids does.  A later [read_receipt] without ids finds nothing
    left to mark and leaves the counter at 1 as well. *)
Theorem read_receipt_with_ids_keeps_unread_count :
  let data := [("type", JStr "read_receipt"); ("message_ids", JList [JStr (str 101)])] in
  let st1 := snd (handle_read_receipt data (session_of_user_2, world_after_hi)) in
  let st2 := snd (handle_read_receipt [("type", JStr "read_receipt")] st1) in
  (Msg._id <$> messages world_after_hi) = [101%N]
  /\ (Msg.text <$> messages world_after_hi) = ["hi"]
  /\ (Conv.participants <$> conversations world_after_hi) = [[1%N; 2%N]]
  /\ ((fun n => (Notif.user_id n, Notif.type n)) <$> notifications world_after_hi)
     = [(2%N, "new_message")]
  /\ unread_of (str 2) world_after_hi = Some 1
  /\ unread_of (str 1) world_after_hi = Some 0
  /\ (Msg.is_read <$> messages (snd st1)) = [true]
  /\ transport (fst st1) = [F_read_receipt_sent 1]
  /\ unread_of (str 2) (snd st1) = Some 1
  /\ transport (fst st2) = [F_read_receipt_sent 1; F_read_receipt_sent 0]
  /\ unread_of (str 2) (snd st2) = Some 1.
Proof. vm_compute. repeat split; reflexivity. Qed.

(** The parts of C6 that hold.  [$inc] adds exactly one to the counter it
    names and leaves the other counters alone. *)
Lemma inc_unread_lookup (user_id other : string) (c : Conv.t) :
  Conv.unread_counts (inc_unread user_id c) !! user_id
    = Some (default 0 (Conv.unread_counts c !! user_id) + 1)
  /\ (other <> user_id ->
      Conv.unread_counts (inc_unread user_id c) !! other = Conv.unread_counts c !! other).
Proof.
  unfold inc_unread. cbn. split.
  - apply lookup_insert_eq.
  - intros Hne. now apply lookup_insert_ne.
Qed.

(** A second message of user 1 brings user 2's counter to 2; a
    [read_receipt] without ids then marks both messages and resets it. *)
Example read_receipt_without_ids_resets_unread_count :
  let w2 := snd (create_message (Some (str 100)) (Some (str 1)) None "again" JNull
                                world_after_hi) in
  let st := snd (handle_read_receipt [("type", JStr "read_receipt")]
                                     (session_of_user_2, w2)) in
  unread_of (str 2) w2 = Some 2
  /\ unread_of (str 1) w2 = Some 0
  /\ transport (fst st) = [F_read_receipt_sent 2]
  /\ (Msg.is_read <$> messages (snd st)) = [true; true]
  /\ unread_of (str 2) (snd st) = Some 0.
Proof. vm_compute. repeat split; reflexivity. Qed.

(** ** Notifications: persist, then best-effort delivery *)

Lemma create_notification_ok
    (user_id notification_type title body : string) (related_id : option string)
    (w w1 : World) (n : Notif.t) :
  create_notification user_id notification_type title body related_id w = (Ok n, w1) ->
  notifications w1 = notifications w ++ [n]
  /\ trace w1 = trace w ++ [Persisted n]
  /\ channel_layer w1 = channel_layer w.
Proof.
  unfold create_notification.
  repeat match goal with
         | |- context [if ?b then raise _ else _] => destruct b; [discriminate |]
         end.
  rewrite bind_eq. unfold ObjectId at 1.
  destruct (parse_oid user_id) as [user_oid |]; [| discriminate].
  unfold ret at 1. rewrite bind_eq.
  assert (Hrel : exists r,
    match related_id with
    | Some r => if str_truthy r then o <- ObjectId r ;; ret (Some o) else ret None
    | None => ret None
    end w = (r, w)).
  { destruct related_id as [r |]; [| eexists; reflexivity].
    destruct (str_truthy r); [| eexists; reflexivity].
    rewrite bind_eq. unfold ObjectId. destruct (parse_oid r); eexists; reflexivity. }
  destruct Hrel as [r ->]. destruct r as [related_oid | e]; [| discriminate].
  intros [= <- <-]. cbn. auto.
Qed.

Lemma create_notification_raise
    (user_id notification_type title body : string) (related_id : option string)
    (w w1 : World) (e : exn) :
  create_notification user_id notification_type title body related_id w = (Raise e, w1) ->
  w1 = w.
Proof.
  unfold create_notification.
  repeat match goal with
         | |- context [if ?b then raise _ else _] => destruct b; [now intros [= _ <-] |]
         end.
  rewrite bind_eq. unfold ObjectId at 1.
  destruct (parse_oid user_id) as [user_oid |]; [| now intros [= _ <-]].
  unfold ret at 1. rewrite bind_eq.
  destruct related_id as [r |]; [destruct (str_truthy r) |];
    try (rewrite bind_eq; unfold ObjectId; destruct (parse_oid r));
    cbn; try discriminate; now intros [= _ <-].
Qed.

(** The delivery step never raises; it leaves the stored notifications
    alone and makes at most one [group_send], to the recipient's group. *)
Lemma send_notification_websocket_swallows (user_id : string) (n : Notif.t) (w : World) :
  exists w',
    send_notification_websocket user_id n w = (Ok tt, w')
    /\ notifications w' = notifications w
    /\ (trace w' = trace w
        \/ exists delivered,
             trace w' = trace w ++
               [GroupSend (Named (notifications_ user_id))
                          (Ev_notification_received (format_notification n)) delivered]).
Proof.
  unfold send_notification_websocket, try_except. rewrite bind_eq.
  unfold get_channel_layer, gets.
  destruct (channel_layer w) as [layer |]; [| exists w; auto].
  unfold group_send.
  destruct (layer (Named (notifications_ user_id))); cbn; eexists;
    (split; [reflexivity |]); (split; [reflexivity |]); right; eauto.
Qed.

(** C4. [send_notification] first stores the notification and only then
    attempts the delivery.  When [create_notification] succeeds the call
    returns the stored document, whatever the channel layer does: the
    record is in the store, the trace shows the insertion followed by at
    most one delivery attempt.  When [create_notification] raises, that
    error is raised and no delivery is attempted. *)
Theorem send_notification_persists_first
    (user_id notification_type title body : string) (related_id : option string)
    (w : World) :
  match create_notification user_id notification_type title body related_id w with
  | (Ok n, w1) =>
      exists w2,
        send_notification user_id notification_type title body related_id w = (Ok n, w2)
        /\ notifications w2 = notifications w ++ [n]
        /\ (trace w2 = trace w ++ [Persisted n]
            \/ exists delivered,
                 trace w2 = trace w ++
                   [Persisted n;
                    GroupSend (Named (notifications_ user_id))
                              (Ev_notification_received (format_notification n)) delivered])
  | (Raise e, w1) =>
      send_notification user_id notification_type title body related_id w = (Raise e, w)
  end.
Proof.
  destruct (create_notification _ _ _ _ _ w) as [[n | e] w1] eqn:Hcreate.
  - destruct (create_notification_ok _ _ _ _ _ _ _ _ Hcreate) as (Hn & Ht & _).
    destruct (send_notification_websocket_swallows user_id n w1) as (w2 & Hws & Hn2 & Ht2).
    exists w2. unfold send_notification, try_except. rewrite bind_eq, Hcreate.
    cbn iota beta. rewrite bind_eq, Hws.
    split; [reflexivity |]. split; [congruence |].
    destruct Ht2 as [Ht2 | [d Ht2]]; rewrite Ht2, Ht; [left; reflexivity |].
    right. exists d. now rewrite <- app_assoc.
  - unfold send_notification, try_except. rewrite bind_eq, Hcreate.
    now rewrite (create_notification_raise _ _ _ _ _ _ _ _ Hcreate).
Qed.

(** A delivery that fails is swallowed: the notification is returned and
    stays stored. *)
Example send_notification_failed_delivery :
  let w := mkWorld [] [] [] [] 1 (fun n => 100 + Z.of_nat n) 0 (Some (fun _ => false)) [] in
  let n := Notif.mk 1 2 "new_message" "New message" "hi" None false 100 in
  send_notification (str 2) "new_message" " New message " "hi" None w
  = (Ok n,
     mkWorld [] [] [n] [] 2 (clock w) 1 (channel_layer w)
       [Persisted n;
        GroupSend (Named (notifications_ (str 2)))
                  (Ev_notification_received (format_notification n)) false]).
Proof. reflexivity. Qed.

(** ** Group events *)

(** C8, as stated, fails for edit and delete events: they are forwarded
    also when the message id is in the session's set of delivered ids (as
    it is for every message the session has shown). *)
Lemma message_edited_ignores_delivered_ids :
  let s := set_sent_message_ids {[str 7]} init_session in
  let m := mkWsMessage (Some (str 7)) (Some (str 1)) (Some (str 2)) "edited" []
                       (Some 100) false None in
  str 7 ∈ sent_message_ids s
  /\ dispatch_group_event (Ev_message_edited m) (s, empty_world)
     = (Ok tt, (set_transport [F_message_edited m] s, empty_world))
  /\ dispatch_group_event (Ev_message_deleted m) (s, empty_world)
     = (Ok tt, (set_transport [F_message_deleted m] s, empty_world))
  /\ dispatch_group_event (Ev_chat_message m) (s, empty_world) = (Ok tt, (s, empty_world)).
Proof.
  cbv zeta. split; [cbn; set_solver |].
  split; [reflexivity |]. split; [reflexivity |].
  vm_compute. reflexivity.
Qed.

(** C8 (amended). A group event never fails and never touches the world.
    A [chat_message] event is forwarded when its message id is present,
    non-empty and not yet in the session's set of delivered ids; the id is
    then added to the set (and the conversation's last-seen timestamp
    updated); otherwise the event is skipped and the session is unchanged.
    Edit and delete events are forwarded unconditionally and leave the set
    alone.  Typing, read-receipt and presence events are forwarded unless
    the originating user id equals the session's own; notification events
    are forwarded unconditionally. *)
Theorem group_event_forwarding (event : GroupEvent) (s : Session) (w : World) :
  exists s',
    dispatch_group_event event (s, w) = (Ok tt, (s', w))
    /\ match event with
       | Ev_chat_message message =>
           match ws_id message with
           | Some message_id =>
               if str_truthy message_id && bool_decide (message_id ∉ sent_message_ids s)
               then transport s' = transport s ++ [F_message message]
                    /\ sent_message_ids s' = sent_message_ids s ∪ {[message_id]}
               else s' = s
           | None => s' = s
           end
       | Ev_message_edited message =>
           s' = set_transport (transport s ++ [F_message_edited message]) s
       | Ev_message_deleted message =>
           s' = set_transport (transport s ++ [F_message_deleted message]) s
       | Ev_typing_indicator user_id is_typing =>
           s' = if bool_decide (user_id = mongo_user_id s) then s
                else set_transport (transport s ++ [F_typing user_id is_typing]) s
       | Ev_read_receipt user_id conversation_id message_count =>
           s' = if bool_decide (user_id = mongo_user_id s) then s
                else set_transport
                       (transport s ++ [F_read_receipt user_id conversation_id message_count]) s
       | Ev_presence_update user_id status =>
           s' = if bool_decide (user_id = mongo_user_id s) then s
                else set_transport (transport s ++ [F_presence user_id status]) s
       | Ev_notification_received notification =>
           s' = set_transport (transport s ++ [F_notification notification]) s
       end.
Proof.
  destruct event as [m | u t | u c n | u st | n | m | m]; cbn [dispatch_group_event].
  - unfold chat_message. rewrite bind_eq. cbn [self gets fst snd].
    destruct (ws_id m) as [id |]; [| eexists; split; reflexivity].
    destruct (str_truthy id && bool_decide (id ∉ sent_message_ids s));
      [| eexists; split; reflexivity].
    destruct (ws_conversation_id m) as [c |], (ws_timestamp m) as [t |];
      try destruct (str_truthy c); eexists; (split; [reflexivity |]); cbn; auto.
  - unfold typing_indicator. rewrite bind_eq. cbn [self gets fst snd].
    destruct (decide (u = mongo_user_id s)) as [Hu | Hu].
    + rewrite (bool_decide_eq_false_2 (u ≠ mongo_user_id s)) by auto.
      rewrite bool_decide_eq_true_2 by auto. eexists; split; reflexivity.
    + rewrite (bool_decide_eq_true_2 (u ≠ mongo_user_id s)) by auto.
      rewrite bool_decide_eq_false_2 by auto. eexists; split; reflexivity.
  - unfold read_receipt. rewrite bind_eq. cbn [self gets fst snd].
    destruct (decide (u = mongo_user_id s)) as [Hu | Hu].
    + rewrite (bool_decide_eq_false_2 (u ≠ mongo_user_id s)) by auto.
      rewrite bool_decide_eq_true_2 by auto. eexists; split; reflexivity.
    + rewrite (bool_decide_eq_true_2 (u ≠ mongo_user_id s)) by auto.
      rewrite bool_decide_eq_false_2 by auto. eexists; split; reflexivity.
  - unfold presence_update. rewrite bind_eq. cbn [self gets fst snd].
    destruct (decide (u = mongo_user_id s)) as [Hu | Hu].
    + rewrite (bool_decide_eq_false_2 (u ≠ mongo_user_id s)) by auto.
      rewrite bool_decide_eq_true_2 by auto. eexists; split; reflexivity.
    + rewrite (bool_decide_eq_true_2 (u ≠ mongo_user_id s)) by auto.
      rewrite bool_decide_eq_false_2 by auto. eexists; split; reflexivity.
  - eexists; split; reflexivity.
  - eexists; split; reflexivity.
  - eexists; split; reflexivity.
Qed.

(** ** Dispatch of client events *)

Section Dispatch.

Variable authenticate_user : json -> CM unit.
Variables handle_send_message handle_get_missed_messages handle_notifications_sync
          handle_edit_message handle_delete_message : list (string * json) -> CM unit.

(** C9. For a decoded event whose type is not ['authenticate']: a session
    that is not authenticated answers with the [AUTH_REQUIRED] error and
    does nothing else (no handler runs, the world and the rest of the
    session are unchanged); an authenticated session answers an event
    whose type is none of the routed ones with the [UNKNOWN_EVENT]
    error. *)
Theorem receive_auth_required_unknown_event
    (data : list (string * json)) (s : Session) (w : World) :
  is_str (dict_get "type" data) "authenticate" = false ->
  (authenticated s = true ->
   Forall (fun t => is_str (dict_get "type" data) t = false) event_types) ->
  receive authenticate_user handle_send_message handle_get_missed_messages
          handle_notifications_sync handle_edit_message handle_delete_message
          (Decoded (JObj data)) (s, w)
  = (Ok tt,
     (set_transport
        (transport s ++
           [if authenticated s
            then F_error "UNKNOWN_EVENT" "Unknown event type: {event_type}"
                         [dict_get "type" data]
            else F_error "AUTH_REQUIRED"
                         "Authentication required. Please send an authenticate event first."
                         []]) s,
      w)).
Proof.
  intros Hauth Hunknown. unfold receive, try_except.
  rewrite Hauth, bind_eq. cbn [self gets fst snd].
  destruct (authenticated s); cbn [negb]; [| reflexivity].
  specialize (Hunknown eq_refl). unfold event_types in Hunknown.
  repeat match goal with
         | H : Forall _ (_ :: _) |- _ =>
             let Hhd := fresh "Hhd" in
             apply Forall_cons in H as [Hhd H]; try rewrite Hhd
         end.
  reflexivity.
Qed.

End Dispatch.

Lemma receive_auth_required_unknown_event_witness :
  let idle := fun _ : list (string * json) => @ret (Session * World) unit tt in
  let receive_ := receive (fun _ => ret tt) idle idle idle idle idle in
  receive_ (Decoded (JObj [("type", JStr "send_message"); ("text", JStr "hi")]))
           (init_session, empty_world)
  = (Ok tt,
     (set_transport
        [F_error "AUTH_REQUIRED"
                 "Authentication required. Please send an authenticate event first." []]
        init_session,
      empty_world))
  /\ receive_ (Decoded (JObj [("type", JStr "subscribe")])) (session_of_user_2, empty_world)
     = (Ok tt,
        (set_transport
           [F_error "UNKNOWN_EVENT" "Unknown event type: {event_type}" [JStr "subscribe"]]
           session_of_user_2,
         empty_world)).
Proof.
  intros idle receive_. split.
  - apply (receive_auth_required_unknown_event (fun _ => ret tt) idle idle idle idle idle
             [("type", JStr "send_message"); ("text", JStr "hi")] init_session empty_world).
    + reflexivity.
    + intros H. discriminate H.
  - apply (receive_auth_required_unknown_event (fun _ => ret tt) idle idle idle idle idle
             [("type", JStr "subscribe")] session_of_user_2 empty_world).
    + reflexivity.
    + intros _. repeat constructor.
Defined.

(** ** Read receipts that name their messages *)

Lemma is_str_true (j : json) (lit : string) : is_str j lit = true -> j = JStr lit.
Proof.
  destruct j; cbn; try discriminate. intros H. apply String.eqb_eq in H. now subst.
Qed.

Lemma find_one_updated {D} (p : D -> bool) (l1 l2 : list D) (d : D) :
  (forall x, x ∈ l1 -> p x = false) -> p d = true ->
  find_one p (l1 ++ d :: l2) = Some d.
Proof.
  unfold find_one. intros Hl1 Hd. induction l1 as [| x l1 IH]; cbn.
  - now rewrite Hd.
  - rewrite (Hl1 x) by apply list_elem_of_here.
    apply IH. intros y Hy. apply Hl1. now apply list_elem_of_further.
Qed.

(** Marking by id: the first message with that id becomes read, whoever
    asks. *)
Lemma mark_message_as_read_found (message_id : string) (mid : oid) (m : Msg.t) (w : World) :
  parse_oid message_id = Some mid ->
  find_one (fun x => bool_decide (Msg._id x = mid)) (messages w) = Some m ->
  exists marked w',
    mark_message_as_read (JStr message_id) w = (Ok marked, w')
    /\ find_one (fun x => bool_decide (Msg._id x = mid)) (messages w')
       = Some (Msg.set_read (clock w (ticks w)) m).
Proof.
  intros Hmid Hfind. unfold mark_message_as_read. rewrite bind_eq.
  unfold ObjectId_of, ObjectId. rewrite Hmid. unfold ret at 1. rewrite bind_eq.
  unfold utcnow at 1.
  destruct (update_one_found _ (Msg.set_read (clock w (ticks w))) _ _ Hfind)
    as (l1 & l2 & Hsplit & Hl1 & Hupd).
  cbn [messages set_ticks]. rewrite Hupd.
  eexists. eexists. split; [reflexivity |]. cbn [messages set_messages].
  apply find_one_updated; [exact Hl1 |].
  apply find_some in Hfind as [_ Hid]. exact Hid.
Qed.

(** A [group_send] from a consumer may raise, but leaves the session and
    the stored messages as they are. *)
Lemma self_group_send_frame (target : group_target) (event : GroupEvent)
    (s : Session) (w : World) :
  exists r w',
    self_group_send target event (s, w) = (r, (s, w')) /\ messages w' = messages w.
Proof.
  unfold self_group_send, self_channel_layer. rewrite !bind_eq.
  unfold liftW, get_channel_layer, gets. cbn [fst snd].
  destruct (channel_layer w) as [layer |]; [| eexists; eexists; split; reflexivity].
  unfold ret at 1. unfold group_send.
  destruct (layer target); eexists; eexists; split; reflexivity.
Qed.

Section ReadReceipt.

Variable authenticate_user : json -> CM unit.
Variables handle_send_message handle_get_missed_messages handle_notifications_sync
          handle_edit_message handle_delete_message : list (string * json) -> CM unit.

(** C10. A [read_receipt] event that names an existing message marks it
    read and stamps [read_at], for every authenticated session: nothing
    relates the caller to the message's conversation or to its sender. *)
Theorem read_receipt_with_ids_needs_no_membership
    (data : list (string * json)) (s : Session) (w : World)
    (message_id : string) (mid : oid) (m : Msg.t) :
  authenticated s = true ->
  is_str (dict_get "type" data) "read_receipt" = true ->
  truthy (py_or (dict_get "conversation_id" data) (opt_json (conversation_id s))) = true ->
  dict_get_default "message_ids" (JList []) data = JList [JStr message_id] ->
  parse_oid message_id = Some mid ->
  find_one (fun x => bool_decide (Msg._id x = mid)) (messages w) = Some m ->
  exists s' w',
    receive authenticate_user handle_send_message handle_get_missed_messages
            handle_notifications_sync handle_edit_message handle_delete_message
            (Decoded (JObj data)) (s, w) = (Ok tt, (s', w'))
    /\ find_one (fun x => bool_decide (Msg._id x = mid)) (messages w')
       = Some (Msg.set_read (clock w (ticks w)) m)
    /\ Msg.is_read (Msg.set_read (clock w (ticks w)) m) = true
    /\ Msg.read_at (Msg.set_read (clock w (ticks w)) m) = Some (clock w (ticks w)).
Proof.
  intros Hauth Htype Hconv Hids Hmid Hfind.
  apply is_str_true in Htype.
  unfold receive, try_except. rewrite Htype. cbn [is_str String.eqb Ascii.eqb Bool.eqb].
  rewrite bind_eq. cbn [self gets fst snd]. rewrite Hauth. cbn [negb].
  unfold handle_read_receipt, try_except. rewrite bind_eq. cbn [self gets fst snd].
  rewrite Hconv, Hids. cbn [negb truthy length Nat.eqb].
  rewrite bind_eq. cbn [self gets fst snd]. rewrite bind_eq.
  destruct (mark_message_as_read_found message_id mid m w Hmid Hfind)
    as (marked & w1 & Hmark & Hfind1).
  unfold liftW at 1. cbn [fst snd].
  unfold mark_messages_read, try_except. cbn [truthy length Nat.eqb negb py_iter mark_each_read].
  rewrite bind_eq, Hmark. unfold ret at 1. rewrite bind_eq.
  destruct (self_group_send_frame
              (chat_target (py_or (dict_get "conversation_id" data)
                                  (opt_json (conversation_id s))))
              (Ev_read_receipt (mongo_user_id s)
                 (py_or (dict_get "conversation_id" data) (opt_json (conversation_id s)))
                 (Z.of_nat (if marked then 1%nat else 0%nat))) s w1)
    as (r & w2 & Hsend & Hmsgs).
  rewrite Hsend.
  destruct r as [[] | e]; eexists; eexists;
    (split; [reflexivity |]); cbn [snd]; rewrite Hmsgs, Hfind1; auto.
Qed.

End ReadReceipt.

Lemma read_receipt_with_ids_needs_no_membership_witness :
  let idle := fun _ : list (string * json) => @ret (Session * World) unit tt in
  let outsider :=
    mkSession true (Some 3) (Some (str 3)) (Some "notifications") None
              {[notifications_ (str 3)]} ∅ ∅ [] in
  let m := Msg.mk 20 10 1 "hi" [] 100 false None false None false None in
  exists s' w',
    receive (fun _ => ret tt) idle idle idle idle idle
            (Decoded (JObj [("type", JStr "read_receipt");
                            ("message_ids", JList [JStr (str 20)])]))
            (outsider, world_one_message) = (Ok tt, (s', w'))
    /\ find_one (fun x => bool_decide (Msg._id x = 20%N)) (messages w')
       = Some (Msg.set_read 200 m)
    /\ Msg.is_read (Msg.set_read 200 m) = true
    /\ Msg.read_at (Msg.set_read 200 m) = Some 200.
Proof.
  intros idle outsider m.
  apply (read_receipt_with_ids_needs_no_membership (fun _ => ret tt) idle idle idle idle idle
           [("type", JStr "read_receipt"); ("message_ids", JList [JStr (str 20)])]
           outsider world_one_message (str 20) 20%N m);
    reflexivity.
Defined.

(** ** Replay of missed messages *)

Section Sorting.
Context {D : Type} (key : D -> Z).

Let le (a b : D) : Prop := key a <= key b.

Lemma insert_asc_perm (d : D) (l : list D) : insert_asc key d l ≡ₚ d :: l.
Proof.
  induction l as [| x l IH]; cbn; [reflexivity |].
  destruct (key d <=? key x); [reflexivity |].
  rewrite IH. apply Permutation_swap.
Qed.

Lemma sort_asc_perm (l : list D) : sort_asc key l ≡ₚ l.
Proof.
  induction l as [| x l IH]; cbn; [reflexivity |].
  now rewrite insert_asc_perm, IH.
Qed.

Lemma insert_asc_sorted (d : D) (l : list D) :
  StronglySorted le l -> StronglySorted le (insert_asc key d l).
Proof.
  induction l as [| x l IH]; cbn; intros Hl.
  - repeat constructor.
  - apply StronglySorted_cons in Hl as [Hx Hl].
    destruct (Z.leb_spec (key d) (key x)) as [Hle | Hgt].
    + apply StronglySorted_cons. split.
      * constructor; [unfold le; lia |].
        eapply Forall_impl; [exact Hx |]. unfold le. intros; cbn in *; lia.
      * apply StronglySorted_cons. auto.
    + apply StronglySorted_cons. split; [| auto].
      rewrite insert_asc_perm. constructor; [unfold le; lia | exact Hx].
Qed.

Lemma sort_asc_sorted (l : list D) : StronglySorted le (sort_asc key l).
Proof.
  induction l as [| x l IH]; cbn; [constructor |]. now apply insert_asc_sorted.
Qed.




End Sorting.



(** *** The replay never repeats a delivered id *)

Lemma replayed_nil (s s' : Session) :
  transport s' = transport s -> sent_message_ids s' = sent_message_ids s ->
  replayed s s' [].
Proof.
  intros Ht Hs. unfold replayed. cbn. rewrite Ht, Hs, app_nil_r.
  repeat split; [constructor | constructor | set_solver | set_solver].
Qed.

Lemma replayed_trans (s s1 s2 : Session) (fs1 fs2 : list Frame) :
  replayed s s1 fs1 -> replayed s1 s2 fs2 -> replayed s s2 (fs1 ++ fs2).
Proof.
  intros (Ht1 & Hf1 & Hd1 & Hn1 & Hs1) (Ht2 & Hf2 & Hd2 & Hn2 & Hs2).
  unfold replayed. rewrite omap_app. repeat split.
  - now rewrite Ht2, Ht1, app_assoc.
  - now apply Forall_app.
  - apply NoDup_app. repeat split; [exact Hd1 | | exact Hd2].
    intros id Hid1 Hid2. apply (Hn2 id Hid2). rewrite Hs1. set_solver.
  - intros id Hid. apply elem_of_app in Hid as [Hid | Hid]; [now apply Hn1 |].
    intros Hin. apply (Hn2 id Hid). rewrite Hs1. set_solver.
  - rewrite Hs2, Hs1, list_to_set_app_L. set_solver.
Qed.

Lemma replays_same {A} (m : CM A) :
  (forall s w, transport (fst (snd (m (s, w)))) = transport s
               /\ sent_message_ids (fst (snd (m (s, w)))) = sent_message_ids s) ->
  replays m.
Proof. intros H s w. exists []. apply replayed_nil; apply H. Qed.

Lemma replays_ret {A} (a : A) : replays (ret a).
Proof. apply replays_same. auto. Qed.

Lemma replays_self {A} (f : Session -> A) : replays (self f).
Proof. apply replays_same. auto. Qed.

Lemma replays_liftW {A} (m : M World A) : replays (liftW m).
Proof.
  apply replays_same. intros s w. unfold liftW. cbn. destruct (m w). auto.
Qed.

Lemma replays_bind {A B} (m : CM A) (k : A -> CM B) :
  replays m -> (forall a, replays (k a)) -> replays (bind m k).
Proof.
  intros Hm Hk s w. rewrite bind_eq. destruct (Hm s w) as [fs1 H1].
  destruct (m (s, w)) as [[a | e] [s1 w1]]; cbn [fst snd] in *; [| eauto].
  destruct (Hk a s1 w1) as [fs2 H2]. exists (fs1 ++ fs2). eapply replayed_trans; eauto.
Qed.

Lemma replays_try_except {A} (m : CM A) (h : exn -> CM A) :
  replays m -> (forall e, replays (h e)) -> replays (try_except m h).
Proof.
  intros Hm Hh s w. unfold try_except. destruct (Hm s w) as [fs1 H1].
  destruct (m (s, w)) as [[a | e] [s1 w1]]; cbn [fst snd] in *; [eauto |].
  destruct (Hh e s1 w1) as [fs2 H2]. exists (fs1 ++ fs2). eapply replayed_trans; eauto.
Qed.

Lemma replays_for_each {A} (xs : list A) (body : A -> CM unit) :
  (forall x, replays (body x)) -> replays (for_each xs body).
Proof.
  intros Hbody. induction xs as [| x xs IH]; cbn [for_each].
  - apply replays_ret.
  - apply replays_bind; auto.
Qed.

Lemma replays_self_group_add (group_name : string) : replays (self_group_add group_name).
Proof.
  apply replays_same. intros s w. unfold self_group_add, self_channel_layer.
  rewrite !bind_eq. unfold liftW, get_channel_layer, gets. cbn.
  destruct (channel_layer w) as [layer |]; cbn; [| auto].
  destruct (layer (Named group_name)); cbn; auto.
Qed.

(** The one step that writes: a missed message whose id has not been
    delivered is sent, and its id recorded. *)
Lemma replays_missed_message (conv_id : string) (msg : Msg.t) :
  replays
    (sent <- self sent_message_ids ;;
     if bool_decide (str (Msg._id msg) ∉ sent) then
       send (F_missed_message conv_id (format_message_response msg)) ;;;
       update_self (fun s =>
         set_sent_message_ids (sent_message_ids s ∪ {[str (Msg._id msg)]}) s)
     else ret tt).
Proof.
  intros s w. rewrite bind_eq. cbn [self gets fst snd].
  destruct (decide (str (Msg._id msg) ∉ sent_message_ids s)) as [Hfresh | Hseen].
  - rewrite bool_decide_eq_true_2 by exact Hfresh.
    exists [F_missed_message conv_id (format_message_response msg)].
    cbn. unfold replayed. cbn. repeat split.
    + repeat constructor. eexists; reflexivity.
    + apply NoDup_singleton.
    + intros id Hid. apply list_elem_of_singleton in Hid. now subst.
    + set_solver.
  - rewrite bool_decide_eq_false_2 by exact Hseen. exists []. now apply replayed_nil.
Qed.

Lemma replays_replay_missed (conv_id : string) (missed_messages : list Msg.t) :
  replays (replay_missed conv_id missed_messages).
Proof. apply replays_for_each. intros msg. apply replays_missed_message. Qed.

Lemma replays_update_groups (group_name : string) :
  replays (update_self (fun s =>
             set_conversation_groups (conversation_groups s ∪ {[group_name]}) s)).
Proof. apply replays_same. auto. Qed.

Lemma replays_update_last_seen (conv_id : string) (t : option datetime) :
  replays (update_self (fun s =>
             set_last_seen_timestamps (<[conv_id := t]> (last_seen_timestamps s)) s)).
Proof. apply replays_same. auto. Qed.

Lemma replays_reconnect_to_conversation (conversation : Conv.t) :
  replays (reconnect_to_conversation conversation).
Proof.
  unfold reconnect_to_conversation.
  apply replays_bind; [apply replays_self | intros groups].
  apply replays_bind.
  { destruct (bool_decide _); [| apply replays_ret].
    apply replays_bind; [apply replays_self_group_add | intros _].
    apply replays_update_groups. }
  intros _. apply replays_bind; [apply replays_self | intros last_seen].
  apply replays_bind.
  { destruct last_seen; [apply replays_ret |].
    destruct (Conv.last_message_timestamp conversation); [apply replays_ret |].
    apply replays_bind; [apply replays_self | intros [user_id |]]; [| apply replays_ret].
    apply replays_bind; [apply replays_liftW | intros [mongo_user |]]; apply replays_ret. }
  intros last_seen'. apply replays_bind; [| intros _; apply replays_update_last_seen].
  destruct last_seen'; [| apply replays_ret].
  apply replays_bind; [apply replays_liftW | intros missed].
  apply replays_replay_missed.
Qed.

Lemma replays_reconnect_to_conversations : replays reconnect_to_conversations.
Proof.
  unfold reconnect_to_conversations.
  apply replays_bind; [apply replays_self | intros a].
  apply replays_bind; [apply replays_self | intros u].
  destruct (negb a || negb (opt_truthy u)); [apply replays_ret |].
  apply replays_try_except; [| intros _; apply replays_ret].
  apply replays_bind; [apply replays_liftW | intros cs].
  apply replays_for_each. intros c. apply replays_reconnect_to_conversation.
Qed.

Lemma try_except_unit_returns {S} (m : M S unit) (st : S) :
  fst (try_except m (fun _ => ret tt) st) = Ok tt.
Proof. unfold try_except. destruct (m st) as [[[] | e] st']; reflexivity. Qed.

Lemma reconnect_to_conversations_returns (st : Session * World) :
  fst (reconnect_to_conversations st) = Ok tt.
Proof.
  unfold reconnect_to_conversations, self, gets.
  rewrite bind_eq. cbn beta iota. rewrite bind_eq. cbn beta iota.
  destruct (negb (authenticated (fst st)) || negb (opt_truthy (mongo_user_id (fst st))));
    [reflexivity | apply try_except_unit_returns].
Qed.



(** The replay at work: user 2 last saw the conversation at time 100 and
    gets the one newer message, once. *)
Example replay_once :
  let s := set_last_seen_timestamps {[str 10 := Some 100]} session_of_user_2 in
  let st1 := snd (reconnect_to_conversations (s, world_two_messages)) in
  let st2 := snd (reconnect_to_conversations st1) in
  (missed_id <$> transport (fst st1)) = [Some (str 21)]
  /\ transport (fst st2) = transport (fst st1).
Proof. vm_compute. split; reflexivity. Qed.

(** ** ObjectId strings *)

Lemma hex_digit_hex_char (d : N) : (d < 16)%N -> hex_digit (hex_char d) = Some d.
Proof.
  intros Hd.
  assert (Hcases : In d (N.of_nat <$> seq 0 16)).
  { apply in_map_iff. exists (N.to_nat d). split; [lia |]. apply in_seq. lia. }
  cbn in Hcases. repeat destruct Hcases as [<- | Hcases]; try reflexivity. contradiction.
Qed.

Lemma parse_hex_render_hex (k : nat) (n acc : N) :
  parse_hex (render_hex k n) acc = Some (acc * 16 ^ N.of_nat k + n mod 16 ^ N.of_nat k)%N.
Proof.
  revert acc. induction k as [| k IH]; intros acc.
  - cbn. f_equal. rewrite N.mod_1_r. lia.
  - cbn [render_hex parse_hex].
    rewrite hex_digit_hex_char by (apply N.mod_upper_bound; lia).
    rewrite IH. f_equal.
    replace (N.of_nat (S k)) with (N.succ (N.of_nat k)) by lia.
    rewrite N.pow_succ_r'.
    rewrite (N.mul_comm 16 (16 ^ N.of_nat k)).
    rewrite (N.Div0.mod_mul_r n (16 ^ N.of_nat k) 16). lia.
Qed.

Lemma length_render_hex (k : nat) (n : N) : String.length (render_hex k n) = k.
Proof. induction k as [| k IH]; cbn; [reflexivity | now rewrite IH]. Qed.

(** [ObjectId(str(o)) == o] for a twelve-byte id. *)
Lemma parse_oid_str (o : oid) : (o < 2 ^ 96)%N -> parse_oid (str o) = Some o.
Proof.
  intros Ho. unfold parse_oid, str. rewrite length_render_hex. cbn [Nat.eqb].
  rewrite parse_hex_render_hex. f_equal.
  change (16 ^ N.of_nat 24)%N with (2 ^ 96)%N.
  rewrite N.mod_small by exact Ho. lia.
Qed.

(** * Further properties of the store, the notification service and the
      consumer *)

(** ** Tools *)


Lemma find_one_update_one {D} `{EqDecision D} (p : D -> bool) (f : D -> D) (l : list D) :
  (forall d, p (f d) = p d) ->
  find_one p (update_one p f l).1 = f <$> find_one p l.
Proof.
  intros Hp. unfold find_one. induction l as [| x l IH]; cbn; [reflexivity |].
  destruct (p x) eqn:Hx; cbn.
  - now rewrite Hp, Hx.
  - destruct (update_one p f l) as [l' n]. cbn in *. now rewrite Hx.
Qed.

Lemma same_chat_refl (w : World) : same_chat w w.
Proof. repeat split. Qed.

Lemma same_chat_trans (w1 w2 w3 : World) :
  same_chat w1 w2 -> same_chat w2 w3 -> same_chat w1 w3.
Proof. unfold same_chat. intros (-> & -> & ->) (-> & -> & ->). auto. Qed.

Lemma create_notification_same_chat
    (user_id notification_type title body : string) (related_id : option string)
    (w w1 : World) (r : result Notif.t) :
  create_notification user_id notification_type title body related_id w = (r, w1) ->
  same_chat w w1.
Proof.
  destruct r as [n | e].
  - unfold create_notification.
    repeat match goal with
           | |- context [if ?b then raise _ else _] => destruct b; [discriminate |]
           end.
    rewrite bind_eq. unfold ObjectId at 1.
    destruct (parse_oid user_id) as [user_oid |]; [| discriminate].
    unfold ret at 1. rewrite bind_eq.
    destruct related_id as [r |]; [destruct (str_truthy r) |];
      try (rewrite bind_eq; unfold ObjectId; destruct (parse_oid r));
      cbn; try discriminate; intros [= <- <-]; repeat split.
  - intros H. apply create_notification_raise in H. subst. apply same_chat_refl.
Qed.

Lemma send_notification_websocket_same_chat (user_id : string) (n : Notif.t) (w : World) :
  same_chat w (send_notification_websocket user_id n w).2.
Proof.
  unfold send_notification_websocket, try_except. rewrite bind_eq.
  unfold get_channel_layer, gets.
  destruct (channel_layer w) as [layer |]; [| apply same_chat_refl].
  unfold group_send. destruct (layer (Named (notifications_ user_id))); cbn; repeat split.
Qed.

Lemma send_notification_same_chat
    (user_id notification_type title body : string) (related_id : option string)
    (w : World) :
  same_chat w (send_notification user_id notification_type title body related_id w).2.
Proof.
  unfold send_notification, try_except. rewrite bind_eq.
  destruct (create_notification _ _ _ _ _ w) as [[n | e] w1] eqn:Hc;
    apply create_notification_same_chat in Hc.
  - rewrite bind_eq.
    pose proof (send_notification_websocket_same_chat user_id n w1) as Hws.
    destruct (send_notification_websocket_swallows user_id n w1) as (w2 & Hrun & _).
    rewrite Hrun in *. cbn in *. eapply same_chat_trans; eauto.
  - cbn. exact Hc.
Qed.

(** ** create_message *)

Lemma parse_oid_truthy (s : string) (o : oid) : parse_oid s = Some o -> str_truthy s = true.
Proof. destruct s; [discriminate | reflexivity]. Qed.

Lemma get_conversation_by_id_found (conversation_id : string) (c : oid) (w : World) :
  parse_oid conversation_id = Some c ->
  get_conversation_by_id conversation_id w
  = (Ok (find_one (fun x => bool_decide (Conv._id x = c)) (conversations w)), w).
Proof.
  intros Hc. unfold get_conversation_by_id, try_except. rewrite bind_eq.
  unfold ObjectId. now rewrite Hc.
Qed.

Lemma attachment_urls_valid (urls : list string) (w : World) :
  Forall (fun u => str_truthy (strip u) = true) urls ->
  attachment_urls (JStr <$> urls) w = (Ok urls, w).
Proof.
  induction 1 as [| u urls Hu _ IH]; cbn; [reflexivity |].
  rewrite Hu, bind_eq. fold (@fmap list _ string json JStr urls). now rewrite IH.
Qed.

Lemma notify_swallowed (user_id title body conversation_id : string) (w : World) :
  exists w',
    try_except
      (send_notification user_id "new_message" title body (Some conversation_id) ;;; ret tt)
      (fun _ => ret tt) w = (Ok tt, w')
    /\ same_chat w w'.
Proof.
  unfold try_except. rewrite bind_eq.
  pose proof (send_notification_same_chat user_id "new_message" title body
                (Some conversation_id) w) as Hsame.
  destruct (send_notification _ _ _ _ _ w) as [[n | e] w1]; cbn in *; eauto.
Qed.

Lemma increment_unread_count_found (conversation_id user_id : string) (c : oid)
    (c1 : Conv.t) (w : World) :
  parse_oid conversation_id = Some c ->
  find_one (fun x => bool_decide (Conv._id x = c)) (conversations w) = Some c1 ->
  exists b w',
    increment_unread_count conversation_id user_id w = (Ok b, w')
    /\ messages w' = messages w /\ users w' = users w
    /\ find_one (fun x => bool_decide (Conv._id x = c)) (conversations w')
       = Some (inc_unread user_id c1).
Proof.
  intros Hc Hfind. unfold increment_unread_count. rewrite bind_eq.
  unfold ObjectId. rewrite Hc. unfold ret at 1.
  pose proof (find_one_update_one (fun x => bool_decide (Conv._id x = c))
                (inc_unread user_id) (conversations w) (fun d => eq_refl)) as Hupd.
  destruct (update_one _ (inc_unread user_id) (conversations w)) as [cs n].
  eexists. eexists. split; [reflexivity |]. cbn in *. now rewrite Hupd, Hfind.
Qed.

Lemma unread_and_notify_loop
    (conversation_id sender_id text sender_name : string) (c : oid)
    (participants : list oid) (c1 : Conv.t) (w : World) :
  parse_oid conversation_id = Some c ->
  find_one (fun x => bool_decide (Conv._id x = c)) (conversations w) = Some c1 ->
  exists w',
    for_each participants (unread_and_notify conversation_id sender_id text sender_name) w
      = (Ok tt, w')
    /\ messages w' = messages w /\ users w' = users w
    /\ find_one (fun x => bool_decide (Conv._id x = c)) (conversations w')
       = Some (Conv.set_unread
                 (foldl bump (Conv.unread_counts c1) (recipients sender_id participants)) c1).
Proof.
  intros Hc. revert c1 w.
  induction participants as [| p ps IH]; intros c1 w Hfind; cbn [for_each].
  - exists w. cbn. split; [reflexivity |]. split; [reflexivity |]. split; [reflexivity |].
    rewrite Hfind. now destruct c1.
  - rewrite bind_eq. unfold unread_and_notify at 1. unfold recipients. cbn [fmap list_fmap List.filter].
    fold (@fmap list _ oid string str ps). fold (recipients sender_id ps).
    destruct (String.eqb (str p) sender_id); cbn [negb].
    + unfold ret at 1. apply IH, Hfind.
    + rewrite bind_eq.
      destruct (increment_unread_count_found conversation_id (str p) c c1 w Hc Hfind)
        as (b & w1 & -> & Hm1 & Hu1 & Hf1).
      match goal with |- context [try_except ?m ?h w1] =>
        destruct (notify_swallowed (str p) ("New message from " +:+ sender_name)
                    (prefix 100 (strip text)
                     +:+ (if Nat.ltb 100 (String.length (strip text)) then "..." else ""))
                    conversation_id w1) as (w2 & Hrun & Hc2 & Hm2 & Hu2)
      end.
      cbv zeta. rewrite Hrun. rewrite <- Hc2 in Hf1.
      destruct (IH _ w2 Hf1) as (w' & Hloop & Hm' & Hu' & Hf').
      exists w'. split; [exact Hloop |]. split; [congruence |]. split; [congruence |].
      rewrite Hf'. cbn [foldl]. reflexivity.
Qed.

Lemma update_conversation_last_message_found
    (conversation_id text : string) (ts : option datetime) (c : oid) (c1 : Conv.t)
    (w : World) :
  parse_oid conversation_id = Some c ->
  find_one (fun x => bool_decide (Conv._id x = c)) (conversations w) = Some c1 ->
  exists b w',
    update_conversation_last_message conversation_id text ts w = (Ok b, w')
    /\ messages w' = messages w /\ users w' = users w
    /\ find_one (fun x => bool_decide (Conv._id x = c)) (conversations w')
       = Some (Conv.set_last text ts (clock w (ticks w)) c1).
Proof.
  intros Hc Hfind. unfold update_conversation_last_message. rewrite bind_eq.
  unfold ObjectId. rewrite Hc. unfold ret at 1. rewrite bind_eq. unfold utcnow at 1.
  cbn [conversations set_ticks].
  pose proof (find_one_update_one (fun x => bool_decide (Conv._id x = c))
                (Conv.set_last text ts (clock w (ticks w))) (conversations w)
                (fun d => eq_refl)) as Hupd.
  destruct (update_one _ (Conv.set_last text ts (clock w (ticks w))) (conversations w))
    as [cs n].
  eexists. eexists. split; [reflexivity |]. cbn in *. now rewrite Hupd, Hfind.
Qed.

Lemma ObjectId_ok {S} (s : string) (o : oid) (st : S) :
  parse_oid s = Some o -> ObjectId s st = (Ok o, st).
Proof. intros H. unfold ObjectId. now rewrite H. Qed.

Lemma try_except_ok {S A} (m : M S A) (h : exn -> M S A) (st st' : S) (a : A) :
  m st = (Ok a, st') -> try_except m h st = (Ok a, st').
Proof. intros H. unfold try_except. now rewrite H. Qed.

(** What a successful [create_message] in an existing conversation
    does. *)
Lemma create_message_in_conversation
    (conversation_id sender_id text : string) (recipient_id : option string)
    (attachments : json) (urls : list string)
    (c sender_oid : oid) (conv : Conv.t) (w : World) :
  parse_oid conversation_id = Some c ->
  parse_oid sender_id = Some sender_oid ->
  find_one (fun x => bool_decide (Conv._id x = c)) (conversations w) = Some conv ->
  sender_id ∈ str <$> Conv.participants conv ->
  str_truthy (strip text) = true ->
  validate_attachments attachments w = (Ok urls, w) ->
  exists w',
    create_message (Some conversation_id) (Some sender_id) recipient_id text attachments w
    = (Ok (Msg.mk (next_oid w) c sender_oid (strip text) urls (clock w (ticks w))
                  false None false None false None), w')
    /\ messages w'
       = messages w ++ [Msg.mk (next_oid w) c sender_oid (strip text) urls
                               (clock w (ticks w)) false None false None false None]
    /\ users w' = users w
    /\ find_one (fun x => bool_decide (Conv._id x = c)) (conversations w')
       = Some (Conv.set_unread
                 (foldl bump (Conv.unread_counts conv)
                        (recipients sender_id (Conv.participants conv)))
                 (Conv.set_last (strip text) (Some (clock w (ticks w)))
                                (clock w (S (ticks w))) conv)).
Proof.
  intros Hc Hs Hfind Hmember Htext Hatt.
  unfold create_message.
  rewrite (strip_truthy _ Htext), Htext, (truthy_length _ Htext). cbn [negb orb opt_truthy].
  rewrite (parse_oid_truthy _ _ Hs). cbn [negb default].
  rewrite bind_eq, (try_except_ok _ _ _ _ _ (ObjectId_ok sender_id sender_oid w Hs)).
  rewrite bind_eq, bind_eq, (get_conversation_by_id_found _ _ _ Hc), Hfind.
  rewrite bool_decide_eq_true_2 by exact Hmember. unfold ret at 1.
  rewrite bind_eq. unfold validate_attachments in Hatt.
  rewrite Hatt. rewrite bind_eq, (ObjectId_ok conversation_id c w Hc).
  rewrite bind_eq. unfold utcnow at 1. rewrite bind_eq. unfold new_oid at 1.
  rewrite bind_eq. unfold modify at 1. rewrite bind_eq.
  set (m := Msg.mk (next_oid w) c sender_oid (strip text) urls (clock w (ticks w))
                   false None false None false None).
  cbn [next_oid set_ticks messages set_next_oid].
  set (wa := set_messages _ _).
  assert (Hfa : find_one (fun x => bool_decide (Conv._id x = c)) (conversations wa) = Some conv)
    by exact Hfind.
  destruct (update_conversation_last_message_found conversation_id (strip text)
              (Some (clock w (ticks w))) c conv wa Hc Hfa)
    as (b & wb & -> & Hmb & Hub & Hfb).
  rewrite bind_eq, (get_conversation_by_id_found _ _ _ Hc), Hfb.
  rewrite bind_eq. unfold get_user_by_django_id at 1. unfold gets at 1.
  rewrite bind_eq. unfold gets at 1. rewrite bind_eq. cbn beta iota.
  match goal with |- context [for_each _ ?body wb] =>
    change body with (unread_and_notify conversation_id sender_id text
      match find_one (fun u => bool_decide (Usr._id u = sender_oid)) (users wb) with
      | Some sender_mongo => default "Someone" (Usr.name sender_mongo)
      | None => "Someone"
      end)
  end.
  match goal with |- context [for_each _ (unread_and_notify _ _ _ ?name) wb] =>
    destruct (unread_and_notify_loop conversation_id sender_id text name c
                (Conv.participants (Conv.set_last (strip text) (Some (clock w (ticks w)))
                                                  (clock wa (ticks wa)) conv))
                _ wb Hc Hfb) as (w' & Hloop & Hm' & Hu' & Hf')
  end.
  cbn [Conv.participants Conv.set_last] in Hloop |- *. rewrite Hloop.
  exists w'. split; [reflexivity |]. split; [now rewrite Hm', Hmb |].
  split; [now rewrite Hu', Hub |]. rewrite Hf'. reflexivity.
Qed.

Lemma validate_attachments_urls (urls : list string) (w : World) :
  Forall (fun u => str_truthy (strip u) = true) urls ->
  validate_attachments (JList (JStr <$> urls)) w = (Ok urls, w).
Proof.
  intros Hurls. unfold validate_attachments.
  destruct urls as [| u urls]; [reflexivity |]. unfold truthy. rewrite length_fmap.
  cbn [length Nat.eqb negb]. now apply attachment_urls_valid.
Qed.

Lemma attachment_urls_reads (l : list json) (w w' : World) (r : result (list string)) :
  attachment_urls l w = (r, w') ->
  w' = w /\ match r with Raise (ValueError _ _) | Ok _ => True | Raise _ => False end.
Proof.
  revert r w'. induction l as [| x l IH]; cbn; intros r w'.
  - now intros [= <- <-].
  - destruct x; try (now intros [= <- <-]).
    destruct (str_truthy (strip s)); [| now intros [= <- <-]].
    rewrite bind_eq. destruct (attachment_urls l w) as [[urls | e] w1] eqn:Hl;
      destruct (IH _ _ eq_refl) as [-> He]; intros [= <- <-]; auto.
Qed.

Lemma validate_attachments_reads (attachments : json) (w w' : World)
    (r : result (list string)) :
  validate_attachments attachments w = (r, w') ->
  w' = w /\ match r with Raise (ValueError _ _) | Ok _ => True | Raise _ => False end.
Proof.
  unfold validate_attachments. destruct (truthy attachments); [| now intros [= <- <-]].
  destruct attachments; try (now intros [= <- <-]). apply attachment_urls_reads.
Qed.

Lemma foldl_bump_lookup (ks : list string) (u : gmap string Z) (k : string) :
  NoDup ks ->
  foldl bump u ks !! k
  = if bool_decide (k ∈ ks) then Some (default 0 (u !! k) + 1) else u !! k.
Proof.
  intros Hnodup. revert u. induction Hnodup as [| x ks Hx _ IH]; intros u; cbn [foldl].
  - rewrite bool_decide_eq_false_2; [reflexivity | apply not_elem_of_nil].
  - rewrite IH. unfold bump. destruct (decide (k = x)) as [-> | Hne].
    + rewrite (bool_decide_eq_false_2 (x ∈ ks)) by exact Hx.
      rewrite bool_decide_eq_true_2 by apply list_elem_of_here.
      apply lookup_insert_eq.
    + rewrite lookup_insert_ne by congruence.
      destruct (decide (k ∈ ks)) as [Hin | Hnin].
      * rewrite !bool_decide_eq_true_2; auto using list_elem_of_further.
      * rewrite !bool_decide_eq_false_2; auto.
        intros Hin. apply elem_of_cons in Hin as [? | ?]; auto.
Qed.

Lemma elem_of_recipients (sender_id k : string) (participants : list oid) :
  k ∈ recipients sender_id participants <-> k ∈ str <$> participants /\ k <> sender_id.
Proof.
  unfold recipients.
  rewrite list_elem_of_In, filter_In, <- list_elem_of_In, negb_true_iff, String.eqb_neq.
  reflexivity.
Qed.

(** X1. A message sent into an existing conversation by one of its
    participants is appended to the collection with the stripped text,
    unread, with a fresh id and the time of the call, and the conversation
    shows it: [last_message] and [last_message_timestamp] are the message's
    text and timestamp. *)
Theorem create_message_shows_in_conversation
    (conversation_id sender_id text : string) (urls : list string) (c sender_oid : oid)
    (conv : Conv.t) (w : World) :
  parse_oid conversation_id = Some c ->
  parse_oid sender_id = Some sender_oid ->
  find_one (fun x => bool_decide (Conv._id x = c)) (conversations w) = Some conv ->
  sender_id ∈ str <$> Conv.participants conv ->
  str_truthy (strip text) = true ->
  Forall (fun u => str_truthy (strip u) = true) urls ->
  exists m w' conv',
    create_message (Some conversation_id) (Some sender_id) None text
                   (JList (JStr <$> urls)) w = (Ok m, w')
    /\ messages w' = messages w ++ [m]
    /\ Msg._id m = next_oid w
    /\ Msg.conversation_id m = c
    /\ Msg.sender_id m = sender_oid
    /\ Msg.text m = strip text
    /\ Msg.attachments m = urls
    /\ Msg.timestamp m = clock w (ticks w)
    /\ Msg.is_read m = false
    /\ Msg.is_deleted m = false
    /\ find_one (fun x => bool_decide (Conv._id x = c)) (conversations w') = Some conv'
    /\ Conv.last_message conv' = Msg.text m
    /\ Conv.last_message_timestamp conv' = Some (Msg.timestamp m)
    /\ Conv.participants conv' = Conv.participants conv.
Proof.
  intros Hc Hs Hfind Hmember Htext Hurls.
  destruct (create_message_in_conversation conversation_id sender_id text None
              (JList (JStr <$> urls)) urls c sender_oid conv w Hc Hs Hfind Hmember Htext
              (validate_attachments_urls urls w Hurls))
    as (w' & Hrun & Hmsgs & _ & Hconv).
  eexists. exists w'. eexists. split; [exact Hrun |]. split; [exact Hmsgs |].
  cbn. repeat (split; [reflexivity |]). split; [exact Hconv |]. repeat split.
Qed.

Lemma create_message_shows_in_conversation_witness :
  let conv :=
    Conv.mk 10 [1%N; 2%N] "hi" (Some 100) (<[str 2 := 1]> (<[str 1 := 0]> ∅)) 100 100 in
  exists m w' conv',
    create_message (Some (str 10)) (Some (str 2)) None " hello " (JList (JStr <$> []))
                   world_one_message = (Ok m, w')
    /\ messages w' = messages world_one_message ++ [m]
    /\ Msg._id m = next_oid world_one_message
    /\ Msg.conversation_id m = 10%N
    /\ Msg.sender_id m = 2%N
    /\ Msg.text m = strip " hello "
    /\ Msg.attachments m = []
    /\ Msg.timestamp m = clock world_one_message (ticks world_one_message)
    /\ Msg.is_read m = false
    /\ Msg.is_deleted m = false
    /\ find_one (fun x => bool_decide (Conv._id x = 10%N)) (conversations w') = Some conv'
    /\ Conv.last_message conv' = Msg.text m
    /\ Conv.last_message_timestamp conv' = Some (Msg.timestamp m)
    /\ Conv.participants conv' = Conv.participants conv.
Proof.
  intros conv.
  apply (create_message_shows_in_conversation (str 10) (str 2) " hello " [] 10%N 2%N conv
           world_one_message);
    [reflexivity | reflexivity | reflexivity | | reflexivity | constructor].
  cbn. set_solver.
Defined.

(** X2. A message sent into an existing conversation whose participants
    are listed once each adds exactly one to the unread counter of every
    participant other than the sender (a missing counter counting as 0)
    and leaves the sender's counter, and every other counter, as it
    was. *)
Theorem create_message_counts_unread
    (conversation_id sender_id text : string) (urls : list string) (c sender_oid : oid)
    (conv : Conv.t) (w : World) :
  parse_oid conversation_id = Some c ->
  parse_oid sender_id = Some sender_oid ->
  find_one (fun x => bool_decide (Conv._id x = c)) (conversations w) = Some conv ->
  sender_id ∈ str <$> Conv.participants conv ->
  NoDup (str <$> Conv.participants conv) ->
  str_truthy (strip text) = true ->
  Forall (fun u => str_truthy (strip u) = true) urls ->
  exists m w' conv',
    create_message (Some conversation_id) (Some sender_id) None text
                   (JList (JStr <$> urls)) w = (Ok m, w')
    /\ find_one (fun x => bool_decide (Conv._id x = c)) (conversations w') = Some conv'
    /\ forall user_id,
         Conv.unread_counts conv' !! user_id
         = if bool_decide (user_id ∈ str <$> Conv.participants conv /\ user_id <> sender_id)
           then Some (default 0 (Conv.unread_counts conv !! user_id) + 1)
           else Conv.unread_counts conv !! user_id.
Proof.
  intros Hc Hs Hfind Hmember Hnodup Htext Hurls.
  destruct (create_message_in_conversation conversation_id sender_id text None
              (JList (JStr <$> urls)) urls c sender_oid conv w Hc Hs Hfind Hmember Htext
              (validate_attachments_urls urls w Hurls))
    as (w' & Hrun & _ & _ & Hconv).
  eexists. exists w'. eexists. split; [exact Hrun |]. split; [exact Hconv |].
  intros user_id. cbn [Conv.unread_counts Conv.set_unread Conv.set_last].
  rewrite foldl_bump_lookup
    by (unfold recipients; now apply NoDup_ListNoDup, List.NoDup_filter, NoDup_ListNoDup).
  pose proof (elem_of_recipients sender_id user_id (Conv.participants conv)) as Hiff.
  destruct (decide (user_id ∈ recipients sender_id (Conv.participants conv))) as [Hin | Hnin].
  - rewrite !bool_decide_eq_true_2; [reflexivity | now apply Hiff | exact Hin].
  - rewrite !bool_decide_eq_false_2; [reflexivity | | exact Hnin].
    intros H. now apply Hnin, Hiff.
Qed.

Lemma create_message_counts_unread_witness :
  let conv :=
    Conv.mk 10 [1%N; 2%N] "hi" (Some 100) (<[str 2 := 1]> (<[str 1 := 0]> ∅)) 100 100 in
  exists m w' conv',
    create_message (Some (str 10)) (Some (str 1)) None "again" (JList (JStr <$> []))
                   world_one_message = (Ok m, w')
    /\ find_one (fun x => bool_decide (Conv._id x = 10%N)) (conversations w') = Some conv'
    /\ forall user_id,
         Conv.unread_counts conv' !! user_id
         = if bool_decide (user_id ∈ str <$> Conv.participants conv /\ user_id <> str 1)
           then Some (default 0 (Conv.unread_counts conv !! user_id) + 1)
           else Conv.unread_counts conv !! user_id.
Proof.
  intros conv.
  apply (create_message_counts_unread (str 10) (str 1) "again" [] 10%N 1%N conv
           world_one_message);
    [reflexivity | reflexivity | reflexivity | | | reflexivity | constructor].
  - cbn. set_solver.
  - cbn. repeat constructor; set_solver.
Defined.

(** X3. [create_message] into a named conversation is all or nothing: when
    it raises, the error is a [ValueError] and nothing at all has been
    written (no message, no conversation update, no counter, no
    notification); every later step, the notification included, cannot
    make it fail. *)
Theorem create_message_rejected_writes_nothing
    (conversation_id text : string) (sender_id recipient_id : option string)
    (attachments : json) (w w' : World) (e : exn) :
  create_message (Some conversation_id) sender_id recipient_id text attachments w
    = (Raise e, w') ->
  w' = w /\ exists msg args, e = ValueError msg args.
Proof.
  intros Hrun.
  destruct (str_truthy (strip text)) eqn:Htext.
  2: { unfold create_message in Hrun. rewrite Htext, orb_true_r in Hrun.
       injection Hrun as <- <-. eauto. }
  destruct sender_id as [sender_id |].
  2: { unfold create_message in Hrun.
       rewrite (strip_truthy _ Htext), Htext, (truthy_length _ Htext) in Hrun.
       injection Hrun as <- <-. eauto. }
  destruct (str_truthy sender_id) eqn:Hsid.
  2: { unfold create_message in Hrun.
       rewrite (strip_truthy _ Htext), Htext, (truthy_length _ Htext) in Hrun.
       cbn [negb orb opt_truthy] in Hrun. rewrite Hsid in Hrun.
       injection Hrun as <- <-. eauto. }
  destruct (parse_oid sender_id) as [sender_oid |] eqn:Hs.
  2: { unfold create_message in Hrun.
       rewrite (strip_truthy _ Htext), Htext, (truthy_length _ Htext) in Hrun.
       cbn [negb orb opt_truthy default from_option id] in Hrun. rewrite Hsid in Hrun. cbn [negb] in Hrun.
       rewrite bind_eq in Hrun. unfold try_except, ObjectId in Hrun. rewrite Hs in Hrun.
       injection Hrun as <- <-. eauto. }
  assert (Hhead :
    create_message (Some conversation_id) (Some sender_id) recipient_id text attachments w
    = match get_conversation_by_id conversation_id w with
      | (Ok (Some conversation), w1) =>
          if bool_decide (sender_id ∈ str <$> Conv.participants conversation)
          then create_message (Some conversation_id) (Some sender_id) recipient_id text
                              attachments w
          else (Raise (ValueError "sender must be a participant in the conversation" []), w1)
      | (Ok None, w1) =>
          (Raise (ValueError "conversation {conversation_id} does not exist"
                             [conversation_id]), w1)
      | (Raise e, w1) => (Raise e, w1)
      end).
  { destruct (get_conversation_by_id_reads conversation_id w) as [r Hr]. rewrite Hr.
    destruct r as [conversation |].
    - destruct (bool_decide (sender_id ∈ str <$> Conv.participants conversation)) eqn:Hm;
        [reflexivity |].
      unfold create_message.
      rewrite (strip_truthy _ Htext), Htext, (truthy_length _ Htext).
      cbn [negb orb opt_truthy default from_option id]. rewrite Hsid. cbn [negb].
      rewrite bind_eq, (try_except_ok _ _ _ _ _ (ObjectId_ok sender_id sender_oid w Hs)).
      rewrite bind_eq, bind_eq, Hr. now rewrite Hm.
    - unfold create_message.
      rewrite (strip_truthy _ Htext), Htext, (truthy_length _ Htext).
      cbn [negb orb opt_truthy default from_option id]. rewrite Hsid. cbn [negb].
      rewrite bind_eq, (try_except_ok _ _ _ _ _ (ObjectId_ok sender_id sender_oid w Hs)).
      now rewrite bind_eq, bind_eq, Hr. }
  rewrite Hhead in Hrun.
  destruct (get_conversation_by_id_reads conversation_id w) as [r Hr]. rewrite Hr in Hrun.
  destruct r as [conv |]; [| injection Hrun as <- <-; eauto].
  destruct (bool_decide (sender_id ∈ str <$> Conv.participants conv)) eqn:Hmember;
    [| injection Hrun as <- <-; eauto].
  apply bool_decide_eq_true in Hmember.
  assert (Hc : exists c, parse_oid conversation_id = Some c
                         /\ find_one (fun x => bool_decide (Conv._id x = c)) (conversations w)
                            = Some conv).
  { unfold get_conversation_by_id, try_except in Hr. rewrite bind_eq in Hr.
    unfold ObjectId in Hr. destruct (parse_oid conversation_id) as [c |]; [| discriminate].
    exists c. split; [reflexivity |]. unfold ret, gets in Hr. congruence. }
  destruct Hc as (c & Hc & Hfind).
  destruct (validate_attachments attachments w) as [[urls | ea] wa] eqn:Hatt.
  - destruct (validate_attachments_reads _ _ _ _ Hatt) as [-> _].
    destruct (create_message_in_conversation conversation_id sender_id text recipient_id
                attachments urls c sender_oid conv w Hc Hs Hfind Hmember Htext Hatt)
      as (w'' & Hok & _).
    rewrite Hok in Hrun. discriminate.
  - destruct (validate_attachments_reads _ _ _ _ Hatt) as [-> Hea].
    unfold create_message in Hrun.
    rewrite (strip_truthy _ Htext), Htext, (truthy_length _ Htext) in Hrun.
    cbn [negb orb opt_truthy default from_option id] in Hrun. rewrite Hsid in Hrun. cbn [negb] in Hrun.
    rewrite bind_eq, (try_except_ok _ _ _ _ _ (ObjectId_ok sender_id sender_oid w Hs)) in Hrun.
    rewrite bind_eq, bind_eq, Hr in Hrun.
    rewrite bool_decide_eq_true_2 in Hrun by exact Hmember.
    unfold ret at 1 in Hrun. rewrite bind_eq in Hrun.
    unfold validate_attachments in Hatt. rewrite Hatt in Hrun.
    injection Hrun as <- <-. split; [reflexivity |].
    destruct ea; try contradiction. eauto.
Qed.

Lemma create_message_rejected_writes_nothing_witness :
  snd (create_message (Some (str 10)) (Some (str 3)) None "hello" JNull world_one_message)
    = world_one_message
  /\ exists msg args,
       ValueError "sender must be a participant in the conversation" []
       = ValueError msg args.
Proof.
  apply (create_message_rejected_writes_nothing (str 10) "hello" (Some (str 3)) None JNull
           world_one_message).
  reflexivity.
Defined.

(** ** update_message *)

Lemma get_conversation_by_id_str (c : oid) (w : World) :
  (c < 2 ^ 96)%N ->
  get_conversation_by_id (str c) w
  = (Ok (find_one (fun x => bool_decide (Conv._id x = c)) (conversations w)), w).
Proof. intros Hc. apply get_conversation_by_id_found, parse_oid_str, Hc. Qed.

(** The run of [update_message] for the sender of a stored message. *)
Lemma update_message_sender_run
    (message_id sender_id new_text : string) (mid : oid) (m : Msg.t) (w : World) :
  parse_oid message_id = Some mid ->
  parse_oid sender_id = Some (Msg.sender_id m) ->
  find_one (fun x => bool_decide (Msg._id x = mid)) (messages w) = Some m ->
  str_truthy (strip new_text) = true ->
  (Msg.conversation_id m < 2 ^ 96)%N ->
  exists w',
    let m' := Msg.set_edited (strip new_text) (clock w (ticks w)) m in
    update_message message_id sender_id new_text w
      = (Ok (if decide (m' = m) then None else Some m'), w')
    /\ find_one (fun x => bool_decide (Msg._id x = mid)) (messages w') = Some m'
    /\ Msg.text m' = strip new_text
    /\ Msg.is_edited m' = true
    /\ Msg.edited_at m' = Some (clock w (ticks w))
    /\ Msg._id m' = Msg._id m
    /\ Msg.conversation_id m' = Msg.conversation_id m
    /\ Msg.sender_id m' = Msg.sender_id m
    /\ Msg.attachments m' = Msg.attachments m
    /\ Msg.timestamp m' = Msg.timestamp m
    /\ Msg.is_read m' = Msg.is_read m
    /\ Msg.is_deleted m' = Msg.is_deleted m
    /\ find_one (fun x => bool_decide (Conv._id x = Msg.conversation_id m)) (conversations w')
       = (fun conv =>
            if bool_decide (m' <> m
                            /\ Conv.last_message_timestamp conv = Some (Msg.timestamp m))
            then Conv.set_last (strip new_text) (Some (Msg.timestamp m))
                               (clock w (S (ticks w))) conv
            else conv)
         <$> find_one (fun x => bool_decide (Conv._id x = Msg.conversation_id m))
                      (conversations w).
Proof.
  intros Hmid Hsid Hfind Htext Hbound. cbv zeta.
  set (m' := Msg.set_edited (strip new_text) (clock w (ticks w)) m).
  unfold update_message.
  rewrite (strip_truthy _ Htext), Htext, (truthy_length _ Htext). cbn [negb orb].
  rewrite bind_eq. unfold try_except at 1.
  rewrite bind_eq, (ObjectId_ok _ _ _ Hmid), bind_eq, (ObjectId_ok _ _ _ Hsid).
  unfold ret at 1. cbn iota beta. rewrite bind_eq. unfold gets at 1. rewrite Hfind.
  rewrite bool_decide_eq_true_2 by reflexivity. cbn [negb].
  rewrite bind_eq. unfold utcnow at 1. rewrite bind_eq.
  destruct (update_one_found _ (Msg.set_edited (strip new_text) (clock w (ticks w))) _ _ Hfind)
    as (l1 & l2 & Hsplit & Hl1 & Hupd).
  cbn [messages set_ticks]. rewrite Hupd. fold m'.
  pose proof (find_some _ _ Hfind) as [_ Hid].
  assert (Hfind' : find_one (fun x => bool_decide (Msg._id x = mid)) (l1 ++ m' :: l2) = Some m')
    by (apply find_one_updated; [exact Hl1 | exact Hid]).
  destruct (decide (m' = m)) as [Hsame | Hchanged]; cbn [Nat.ltb Nat.leb].
  - eexists. split; [reflexivity |]. cbn [messages set_messages conversations set_ticks].
    split; [exact Hfind' |]. repeat (split; [reflexivity |]).
    destruct (find_one _ (conversations w)) as [conv |]; [| reflexivity]. cbn.
    rewrite bool_decide_eq_false_2; [reflexivity | tauto].
  - rewrite bind_eq. unfold gets at 1. cbn [messages set_messages]. rewrite Hfind'.
    rewrite bind_eq, (get_conversation_by_id_str _ _ Hbound).
    cbn [conversations set_messages set_ticks].
    destruct (find_one (fun x => bool_decide (Conv._id x = Msg.conversation_id m))
                       (conversations w)) as [conv |] eqn:Hconv.
    + destruct (decide (Conv.last_message_timestamp conv = Some (Msg.timestamp m)))
        as [Hlast | Hnot].
      * rewrite (bool_decide_eq_true_2 _ Hlast).
        rewrite bind_eq, bind_eq.
        match goal with |- context [update_conversation_last_message ?a ?b ?c ?w1] =>
          destruct (update_conversation_last_message_found a b c (Msg.conversation_id m)
                      conv w1 (parse_oid_str _ Hbound) Hconv)
            as (b' & w2 & -> & Hm2 & _ & Hf2)
        end.
        eexists. split; [reflexivity |]. cbn [fmap option_fmap option_map].
        split; [rewrite Hm2; exact Hfind' |]. repeat (split; [reflexivity |]).
        rewrite Hf2. cbn. rewrite bool_decide_eq_true_2 by tauto. reflexivity.
      * rewrite (bool_decide_eq_false_2 _ Hnot). rewrite bind_eq.
        eexists. split; [reflexivity |]. cbn [messages set_messages conversations set_ticks].
        split; [exact Hfind' |]. repeat (split; [reflexivity |]).
        rewrite Hconv. cbn. rewrite bool_decide_eq_false_2; [reflexivity | tauto].
    + rewrite bind_eq. eexists. split; [reflexivity |].
      cbn [messages set_messages conversations set_ticks].
      split; [exact Hfind' |]. repeat (split; [reflexivity |]). now rewrite Hconv.
Qed.

(** X4. An edit by the message's sender with a text that is not blank
    writes the stripped text, sets [is_edited] and stamps [edited_at], and
    changes no other field: the id, the timestamp and also [is_deleted]
    stay, so a deleted message can be edited.  The conversation's
    [last_message] follows exactly when its [last_message_timestamp] is
    the message's timestamp.  When the edit changes nothing in the
    document, [None] is returned, as for a missing message. *)
Theorem update_message_by_sender
    (message_id sender_id new_text : string) (mid : oid) (m : Msg.t) (w : World) :
  parse_oid message_id = Some mid ->
  parse_oid sender_id = Some (Msg.sender_id m) ->
  find_one (fun x => bool_decide (Msg._id x = mid)) (messages w) = Some m ->
  str_truthy (strip new_text) = true ->
  (Msg.conversation_id m < 2 ^ 96)%N ->
  exists w',
    let m' := Msg.set_edited (strip new_text) (clock w (ticks w)) m in
    update_message message_id sender_id new_text w
      = (Ok (if decide (m' = m) then None else Some m'), w')
    /\ find_one (fun x => bool_decide (Msg._id x = mid)) (messages w') = Some m'
    /\ Msg.text m' = strip new_text
    /\ Msg.is_edited m' = true
    /\ Msg.edited_at m' = Some (clock w (ticks w))
    /\ Msg._id m' = Msg._id m
    /\ Msg.conversation_id m' = Msg.conversation_id m
    /\ Msg.sender_id m' = Msg.sender_id m
    /\ Msg.attachments m' = Msg.attachments m
    /\ Msg.timestamp m' = Msg.timestamp m
    /\ Msg.is_read m' = Msg.is_read m
    /\ Msg.is_deleted m' = Msg.is_deleted m
    /\ find_one (fun x => bool_decide (Conv._id x = Msg.conversation_id m)) (conversations w')
       = (fun conv =>
            if bool_decide (m' <> m
                            /\ Conv.last_message_timestamp conv = Some (Msg.timestamp m))
            then Conv.set_last (strip new_text) (Some (Msg.timestamp m))
                               (clock w (S (ticks w))) conv
            else conv)
         <$> find_one (fun x => bool_decide (Conv._id x = Msg.conversation_id m))
                      (conversations w).
Proof. apply update_message_sender_run. Qed.

Lemma update_message_by_sender_witness :
  let m := Msg.mk 20 10 1 "hi" [] 100 false None false None false None in
  exists w',
    update_message (str 20) (str 1) " edited " world_one_message
      = (Ok (Some (Msg.set_edited "edited" 200 m)), w')
    /\ find_one (fun x => bool_decide (Conv._id x = 10%N)) (conversations w')
       = Some (Conv.mk 10 [1%N; 2%N] "edited" (Some 100)
                 (<[str 2 := 1]> (<[str 1 := 0]> ∅)) 100 201).
Proof.
  intros m.
  destruct (update_message_by_sender (str 20) (str 1) " edited " 20 m world_one_message)
    as (w' & Hrun & _ & _ & _ & _ & _ & _ & _ & _ & _ & _ & _ & Hconv);
    [reflexivity | reflexivity | reflexivity | reflexivity | reflexivity |].
  exists w'. split; [exact Hrun | exact Hconv].
Defined.

(** ** mark_conversation_messages_as_read *)

Lemma update_many_spec {D} `{EqDecision D} (p : D -> bool) (f : D -> D) (l : list D) :
  (forall d, p d = true -> f d <> d) ->
  update_many p f l
  = ((fun d => if p d then f d else d) <$> l, length (List.filter p l)).
Proof.
  intros Hf. induction l as [| d l IH]; cbn; [reflexivity |].
  rewrite IH. destruct (p d) eqn:Hd; cbn; [| reflexivity].
  destruct (decide (f d = d)) as [Heq | _]; [| reflexivity].
  now destruct (Hf d Hd).
Qed.

Lemma filter_none {D} (p : D -> bool) (l : list D) :
  (forall d, d ∈ l -> p d = false) -> List.filter p l = [].
Proof.
  induction l as [| d l IH]; cbn; intros H; [reflexivity |].
  rewrite (H d) by apply list_elem_of_here.
  apply IH. intros x Hx. apply H. now apply list_elem_of_further.
Qed.

(** The filter of the [update_many] of [mark_conversation_messages_as_read]. *)
Lemma unread_for_changes (c u : oid) (now : datetime) (m : Msg.t) :
  unread_for c u m = true -> Msg.set_read now m <> m.
Proof.
  unfold unread_for. intros H Heq.
  apply andb_prop in H as [_ H]. apply negb_true_iff in H.
  apply (f_equal Msg.is_read) in Heq. cbn in Heq. congruence.
Qed.

Lemma mark_conversation_messages_as_read_run
    (conversation_id user_id : string) (c u : oid) (w : World) :
  parse_oid conversation_id = Some c ->
  parse_oid user_id = Some u ->
  let count := length (List.filter (unread_for c u) (messages w)) in
  let ms := (fun m => if unread_for c u m then Msg.set_read (clock w (ticks w)) m else m)
              <$> messages w in
  mark_conversation_messages_as_read (JStr conversation_id) (Some user_id) w
  = (Ok count,
     set_conversations
       (if Nat.ltb 0 count
        then (update_one (fun x => bool_decide (Conv._id x = c))
                (fun x => Conv.set_unread (<[user_id := 0]> (Conv.unread_counts x)) x)
                (conversations w)).1
        else conversations w)
       (set_messages ms (set_ticks (S (ticks w)) w))).
Proof.
  intros Hc Hu count ms. unfold mark_conversation_messages_as_read.
  cbn [ObjectId_of opt_json].
  rewrite bind_eq, (ObjectId_ok _ _ _ Hc), bind_eq, (ObjectId_ok _ _ _ Hu).
  rewrite bind_eq. unfold utcnow at 1. rewrite bind_eq.
  cbn [messages set_ticks].
  change (fun m : Msg.t =>
            bool_decide (Msg.conversation_id m = c)
            && negb (bool_decide (Msg.sender_id m = u)) && negb (Msg.is_read m))
    with (unread_for c u).
  rewrite (update_many_spec _ _ _ (fun d => unread_for_changes c u _ d)).
  fold count ms. rewrite bind_eq.
  destruct (Nat.ltb 0 count) eqn:Hcount.
  - rewrite bind_eq. unfold reset_unread_count. cbn [ObjectId_of fstr default].
    rewrite bind_eq, (ObjectId_ok _ _ _ Hc).
    cbn [conversations set_messages set_ticks].
    destruct (update_one _ _ (conversations w)) as [cs n]. reflexivity.
  - destruct w; reflexivity.
Qed.

(** X5. [mark_conversation_messages_as_read] returns the number of unread
    messages of the conversation that the user did not send, and marks
    exactly those: afterwards no message of the conversation from another
    sender is unread, and every other message is as before.  The user's
    unread counter is set to 0 only when at least one message was marked;
    when none was, the conversation document is not written and a
    counter that is not 0 stays.  A second call marks nothing and
    returns 0. *)
Theorem mark_conversation_messages_as_read_marks_all
    (conversation_id user_id : string) (c u : oid) (w : World) :
  parse_oid conversation_id = Some c ->
  parse_oid user_id = Some u ->
  exists w',
    let count := length (List.filter (unread_for c u) (messages w)) in
    mark_conversation_messages_as_read (JStr conversation_id) (Some user_id) w
      = (Ok count, w')
    /\ messages w'
       = (fun m => if unread_for c u m then Msg.set_read (clock w (ticks w)) m else m)
           <$> messages w
    /\ (forall m, m ∈ messages w' -> unread_for c u m = false)
    /\ find_one (fun x => bool_decide (Conv._id x = c)) (conversations w')
       = (fun conv => if Nat.ltb 0 count
                      then Conv.set_unread (<[user_id := 0]> (Conv.unread_counts conv)) conv
                      else conv)
         <$> find_one (fun x => bool_decide (Conv._id x = c)) (conversations w)
    /\ (count = 0%nat -> conversations w' = conversations w)
    /\ exists w'',
         mark_conversation_messages_as_read (JStr conversation_id) (Some user_id) w'
           = (Ok 0%nat, w'')
         /\ messages w'' = messages w' /\ conversations w'' = conversations w'.
Proof.
  intros Hc Hu. cbv zeta.
  rewrite (mark_conversation_messages_as_read_run _ _ _ _ w Hc Hu). cbv zeta.
  set (count := length (List.filter (unread_for c u) (messages w))).
  eexists. split; [reflexivity |].
  cbn [messages conversations set_conversations set_messages set_ticks].
  assert (Hnone : forall m,
    m ∈ (fun m => if unread_for c u m then Msg.set_read (clock w (ticks w)) m else m)
          <$> messages w -> unread_for c u m = false).
  { intros m Hm. apply list_elem_of_fmap in Hm as (m0 & -> & _).
    destruct (unread_for c u m0) eqn:H0; [| exact H0].
    unfold unread_for. cbn. now rewrite andb_false_r. }
  split; [reflexivity |]. split; [exact Hnone |]. split; [| split].
  - destruct (Nat.ltb 0 count).
    + apply find_one_update_one. intros d. reflexivity.
    + destruct (find_one _ (conversations w)); reflexivity.
  - intros ->. reflexivity.
  - match goal with |- context [mark_conversation_messages_as_read _ _ ?w1] =>
      rewrite (mark_conversation_messages_as_read_run _ _ _ _ w1 Hc Hu)
    end.
    cbv zeta. cbn [messages conversations set_conversations set_messages set_ticks ticks clock].
    rewrite (filter_none _ _ Hnone). cbn [length Nat.ltb Nat.leb].
    eexists. split; [reflexivity |].
    cbn [messages conversations set_conversations set_messages set_ticks].
    split; [| reflexivity].
    rewrite <- list_fmap_compose. apply list_fmap_ext. intros i m _. cbn.
    destruct (unread_for c u m) eqn:Hm.
    + unfold unread_for. cbn. now rewrite andb_false_r.
    + now rewrite Hm.
Qed.

Lemma mark_conversation_messages_as_read_marks_all_witness :
  exists w',
    mark_conversation_messages_as_read (JStr (str 10)) (Some (str 2)) world_one_message
      = (Ok 1%nat, w')
    /\ find_one (fun x => bool_decide (Conv._id x = 10%N)) (conversations w')
       = Some (Conv.mk 10 [1%N; 2%N] "hi" (Some 100)
                 (<[str 2 := 0]> (<[str 2 := 1]> (<[str 1 := 0]> ∅))) 100 100).
Proof.
  destruct (mark_conversation_messages_as_read_marks_all (str 10) (str 2) 10 2
              world_one_message) as (w' & Hrun & _ & _ & Hconv & _);
    [reflexivity | reflexivity |].
  exists w'. split; [exact Hrun | exact Hconv].
Defined.

(** ** get_messages_by_conversation *)


Lemma sort_desc_sorted {D} (key : D -> Z) (l : list D) :
  StronglySorted (fun a b => key b <= key a) (sort_desc key l).
Proof.
  unfold sort_desc.
  pose proof (sort_asc_sorted (fun d => - key d) l) as H.
  induction H as [| x l' _ IH Hx]; constructor; [exact IH |].
  eapply Forall_impl; [exact Hx |]. cbn. intros; lia.
Qed.



(** ** get_or_create_conversation *)

(** X7. Every failure of [get_or_create_conversation] is a [ValueError]
    raised before anything is written: the list does not hold two ids, or
    one of the ids is not an ObjectId, or the two ids denote the same
    ObjectId (also when they are spelled differently). *)
Theorem get_or_create_conversation_rejections
    (participant_ids : list string) (w w' : World) (e : exn) :
  get_or_create_conversation participant_ids w = (Raise e, w') ->
  w' = w
  /\ ((length participant_ids <> 2%nat
       /\ e = ValueError "conversation must have exactly 2 participants" [])
      \/ (exists pid, pid ∈ participant_ids /\ parse_oid pid = None
                      /\ e = ValueError "Invalid participant ID: {pid}" [pid])
      \/ (exists A B a, participant_ids = [A; B]
                        /\ parse_oid A = Some a /\ parse_oid B = Some a
                        /\ e = ValueError "participants must be unique" [])).
Proof.
  unfold get_or_create_conversation.
  destruct (Nat.eqb (length participant_ids) 2) eqn:Hlen; cbn [negb].
  - apply Nat.eqb_eq in Hlen.
    destruct participant_ids as [| A [| B [| ? ?]]]; try discriminate. clear Hlen.
    rewrite bind_eq. cbn [participant_oids_of].
    rewrite bind_eq. unfold try_except at 1, ObjectId at 1.
    destruct (parse_oid A) as [a |] eqn:HA.
    + unfold ret at 1. cbn iota beta.
      destruct (decide (a ∈ [])) as [Hin | _]; [now apply elem_of_nil in Hin |].
      cbn [app]. rewrite bind_eq. unfold try_except at 1, ObjectId at 1.
      destruct (parse_oid B) as [b |] eqn:HB.
      * unfold ret at 1. cbn iota beta. unfold ret at 1.
        destruct (decide (b ∈ [a])) as [Hin | Hnot].
        -- apply list_elem_of_singleton in Hin as ->. cbn.
           intros [= <- <-]. split; [reflexivity |].
           right. right. exists A, B, a. auto.
        -- assert (Hab : a <> b) by (intros ->; apply Hnot, list_elem_of_here).
           destruct (sort_asc_pair a b Hab) as [_ [-> | ->]]; cbn [app];
             rewrite bind_eq; unfold gets at 1;
             match goal with |- context [find_one ?p ?l] => destruct (find_one p l) end;
             discriminate.
      * unfold raise. cbn. intros [= <- <-]. split; [reflexivity |].
        right. left. exists B. split; [| auto].
        apply list_elem_of_further, list_elem_of_here.
    + unfold raise. cbn. intros [= <- <-]. split; [reflexivity |].
      right. left. exists A. split; [apply list_elem_of_here | auto].
  - intros [= <- <-]. split; [reflexivity |]. left. split; [| reflexivity].
    now apply Nat.eqb_neq in Hlen.
Qed.

Lemma get_or_create_conversation_rejections_witness :
  empty_world = empty_world
  /\ ((length ["00000000000000000000000A"; "00000000000000000000000a"] <> 2%nat
       /\ ValueError "participants must be unique" []
          = ValueError "conversation must have exactly 2 participants" [])
      \/ (exists pid,
            pid ∈ ["00000000000000000000000A"; "00000000000000000000000a"]
            /\ parse_oid pid = None
            /\ ValueError "participants must be unique" []
               = ValueError "Invalid participant ID: {pid}" [pid])
      \/ (exists A B a,
            ["00000000000000000000000A"; "00000000000000000000000a"] = [A; B]
            /\ parse_oid A = Some a /\ parse_oid B = Some a
            /\ ValueError "participants must be unique" []
               = ValueError "participants must be unique" [])).
Proof.
  apply (get_or_create_conversation_rejections
           ["00000000000000000000000A"; "00000000000000000000000a"] empty_world).
  reflexivity.
Defined.

(** ** Notifications: the unread count and the listing *)

Lemma create_notification_fields
    (user_id notification_type title body : string) (related_id : option string)
    (w w1 : World) (n : Notif.t) :
  create_notification user_id notification_type title body related_id w = (Ok n, w1) ->
  parse_oid user_id = Some (Notif.user_id n)
  /\ Notif._id n = next_oid w
  /\ Notif.type n = notification_type
  /\ notification_type ∈ valid_types
  /\ Notif.title n = strip title
  /\ Notif.body n = strip body
  /\ Notif.is_read n = false
  /\ Notif.created_at n = clock w (ticks w).
Proof.
  unfold create_notification.
  destruct (negb (str_truthy user_id)); [discriminate |].
  destruct (negb (str_truthy notification_type)); [discriminate |].
  destruct (negb (str_truthy title)); [discriminate |].
  destruct (negb (str_truthy body)); [discriminate |].
  destruct (bool_decide (notification_type ∈ valid_types)) eqn:Hty; [| discriminate].
  apply bool_decide_eq_true_1 in Hty. cbn [negb].
  rewrite bind_eq. unfold ObjectId at 1.
  destruct (parse_oid user_id) as [user_oid |]; [| discriminate].
  unfold ret at 1. rewrite bind_eq.
  destruct related_id as [r |]; [destruct (str_truthy r) |];
    try (rewrite bind_eq; unfold ObjectId; destruct (parse_oid r));
    cbn; try discriminate; intros [= <- <-]; cbn; auto 10.
Qed.

Lemma send_notification_ok
    (user_id notification_type title body : string) (related_id : option string)
    (w w2 : World) (n : Notif.t) :
  send_notification user_id notification_type title body related_id w = (Ok n, w2) ->
  exists w1,
    create_notification user_id notification_type title body related_id w = (Ok n, w1)
    /\ notifications w2 = notifications w ++ [n].
Proof.
  unfold send_notification, try_except. rewrite bind_eq.
  destruct (create_notification _ _ _ _ _ w) as [[n1 | e] w1] eqn:Hc; [| discriminate].
  rewrite bind_eq.
  destruct (send_notification_websocket_swallows user_id n1 w1) as (w' & -> & Hn & _).
  cbn. intros [= <- <-]. exists w1. split; [reflexivity |].
  rewrite Hn. now destruct (create_notification_ok _ _ _ _ _ _ _ _ Hc).
Qed.

Lemma get_unread_count_eq (user_id : string) (w : World) :
  get_unread_count user_id w
  = (Ok (match parse_oid user_id with
         | Some user_oid =>
             length (List.filter (fun n => bool_decide (Notif.user_id n = user_oid)
                                           && negb (Notif.is_read n)) (notifications w))
         | None => 0%nat
         end), w).
Proof.
  unfold get_unread_count, try_except. rewrite bind_eq. unfold ObjectId.
  now destruct (parse_oid user_id).
Qed.

(** X8. A notification that [send_notification] returns is unread and
    belongs to the user whose id was given: that user's
    [get_unread_count] is one more than before, the count of every other
    user is as before, and [get_user_notifications] with [unread_only]
    lists the notification.  Conversations, messages and users are not
    written. *)
Theorem send_notification_raises_unread_count
    (user_id notification_type title body : string) (related_id : option string)
    (w w1 : World) (n : Notif.t) :
  send_notification user_id notification_type title body related_id w = (Ok n, w1) ->
  parse_oid user_id = Some (Notif.user_id n)
  /\ Notif.is_read n = false
  /\ (exists k, get_unread_count user_id w = (Ok k, w)
                /\ get_unread_count user_id w1 = (Ok (S k), w1))
  /\ (forall other, parse_oid other <> parse_oid user_id ->
        exists k, get_unread_count other w = (Ok k, w)
                  /\ get_unread_count other w1 = (Ok k, w1))
  /\ (exists l, get_user_notifications user_id 0 0 true w1 = (Ok l, w1) /\ n ∈ l)
  /\ same_chat w w1.
Proof.
  intros Hsend.
  pose proof (send_notification_same_chat user_id notification_type title body related_id w)
    as Hsame. rewrite Hsend in Hsame. cbn in Hsame.
  destruct (send_notification_ok _ _ _ _ _ _ _ _ Hsend) as (w0 & Hc & Hn).
  destruct (create_notification_fields _ _ _ _ _ _ _ _ Hc)
    as (Hu & _ & _ & _ & _ & _ & Hread & _).
  split; [exact Hu |]. split; [exact Hread |]. split; [| split; [| split]].
  - eexists. split; [apply get_unread_count_eq |].
    rewrite get_unread_count_eq, Hu, Hn, List.filter_app, length_app. cbn.
    rewrite bool_decide_eq_true_2, Hread by reflexivity. cbn.
    do 2 f_equal. lia.
  - intros other Hother. eexists. split; [apply get_unread_count_eq |].
    rewrite get_unread_count_eq. destruct (parse_oid other) as [o |]; [| reflexivity].
    rewrite Hn, List.filter_app, length_app. cbn.
    rewrite bool_decide_eq_false_2 by congruence. cbn. do 2 f_equal. lia.
  - eexists. split.
    + unfold get_user_notifications. apply try_except_ok.
      rewrite bind_eq, (ObjectId_ok _ _ _ Hu). reflexivity.
    + unfold limit, skip. cbn [Nat.eqb drop].
      unfold sort_desc. rewrite sort_asc_perm.
      apply list_elem_of_In, filter_In. split.
      * apply list_elem_of_In. rewrite Hn. apply elem_of_app. right.
        apply list_elem_of_here.
      * rewrite bool_decide_eq_true_2, Hread by reflexivity. reflexivity.
  - exact Hsame.
Qed.

Lemma send_notification_raises_unread_count_witness :
  let n := Notif.mk 100 2 "new_message" "New message" "hi" None false 1000 in
  let w1 := snd (send_notification (str 2) "new_message" " New message " "hi" None
                   empty_world) in
  parse_oid (str 2) = Some (Notif.user_id n)
  /\ Notif.is_read n = false
  /\ (exists k, get_unread_count (str 2) empty_world = (Ok k, empty_world)
                /\ get_unread_count (str 2) w1 = (Ok (S k), w1))
  /\ (forall other, parse_oid other <> parse_oid (str 2) ->
        exists k, get_unread_count other empty_world = (Ok k, empty_world)
                  /\ get_unread_count other w1 = (Ok k, w1))
  /\ (exists l, get_user_notifications (str 2) 0 0 true w1 = (Ok l, w1) /\ n ∈ l)
  /\ same_chat empty_world w1.
Proof.
  intros n w1.
  apply (send_notification_raises_unread_count (str 2) "new_message" " New message " "hi"
           None empty_world w1 n).
  reflexivity.
Defined.

(** ** delete_notification *)

Lemma delete_one_found {D} (p : D -> bool) (l : list D) (d : D) :
  find_one p l = Some d ->
  exists l1 l2,
    l = l1 ++ d :: l2
    /\ (forall x, x ∈ l1 -> p x = false)
    /\ p d = true
    /\ delete_one p l = (l1 ++ l2, 1%nat).
Proof.
  unfold find_one. induction l as [| x l IH]; cbn; [discriminate |].
  destruct (p x) eqn:Hx; intros Hfind.
  - injection Hfind as ->. exists [], l. repeat split; auto.
    intros y Hy. now apply elem_of_nil in Hy.
  - destruct (IH Hfind) as (l1 & l2 & -> & Hl1 & Hd & ->).
    exists (x :: l1), l2. repeat split; auto.
    intros y Hy. apply elem_of_cons in Hy as [-> | Hy]; auto.
Qed.

Lemma delete_one_none {D} (p : D -> bool) (l : list D) :
  find_one p l = None -> delete_one p l = (l, 0%nat).
Proof.
  unfold find_one. induction l as [| x l IH]; cbn; [reflexivity |].
  destruct (p x); [discriminate |]. intros H. now rewrite (IH H).
Qed.

Lemma find_one_none {D} (p : D -> bool) (l : list D) :
  (forall x, x ∈ l -> p x = false) -> find_one p l = None.
Proof.
  unfold find_one. induction l as [| x l IH]; cbn; intros H; [reflexivity |].
  rewrite (H x) by apply list_elem_of_here.
  apply IH. intros y Hy. apply H. now apply list_elem_of_further.
Qed.

Lemma get_notification_by_id_eq (notification_id : string) (w : World) :
  get_notification_by_id notification_id w
  = (Ok (match parse_oid notification_id with
         | Some o => find_one (fun n => bool_decide (Notif._id n = o)) (notifications w)
         | None => None
         end), w).
Proof.
  unfold get_notification_by_id, try_except. rewrite bind_eq. unfold ObjectId.
  now destruct (parse_oid notification_id).
Qed.

(** The run of [delete_notification] on a stored notification, in a store
    whose notifications have distinct ids. *)
Lemma delete_notification_found (notification_id : string) (o : oid) (n : Notif.t)
    (w : World) :
  NoDup (Notif._id <$> notifications w) ->
  parse_oid notification_id = Some o ->
  find_one (fun x => bool_decide (Notif._id x = o)) (notifications w) = Some n ->
  exists w',
    delete_notification notification_id w = (Ok true, w')
    /\ get_notification_by_id notification_id w' = (Ok None, w')
    /\ (forall x, x ∈ notifications w' <-> x ∈ notifications w /\ x <> n)
    /\ same_chat w w'
    /\ forall user_id, exists k,
         get_unread_count user_id w' = (Ok k, w')
         /\ get_unread_count user_id w
            = (Ok (k + (if bool_decide (parse_oid user_id = Some (Notif.user_id n))
                           && negb (Notif.is_read n)
                        then 1 else 0))%nat, w).
Proof.
  intros Hnodup Ho Hfind.
  destruct (delete_one_found _ _ _ Hfind) as (l1 & l2 & Hl & Hl1 & Hn & Hdel).
  apply bool_decide_eq_true_1 in Hn.
  assert (Hrest : forall x, x ∈ l1 ++ l2 -> Notif._id x <> o).
  { rewrite Hl, fmap_app, fmap_cons in Hnodup.
    apply NoDup_app in Hnodup as (_ & H12 & H2).
    apply NoDup_cons in H2 as [H2 _].
    intros x Hx Hxo. apply elem_of_app in Hx as [Hx | Hx].
    - apply (H12 (Notif._id x)); [now apply list_elem_of_fmap_2 |].
      rewrite Hxo, <- Hn. apply list_elem_of_here.
    - apply H2. rewrite Hn, <- Hxo. now apply list_elem_of_fmap_2. }
  eexists. split; [| split; [| split; [| split]]].
  - unfold delete_notification. rewrite bind_eq, (ObjectId_ok _ _ _ Ho), Hdel.
    reflexivity.
  - rewrite get_notification_by_id_eq, Ho. cbn [notifications set_notifications].
    rewrite find_one_none; [reflexivity |].
    intros x Hx. apply bool_decide_eq_false_2. now apply Hrest.
  - cbn [notifications set_notifications]. intros x. rewrite Hl.
    rewrite !elem_of_app, elem_of_cons. split.
    + intros Hx. split; [tauto |]. intros ->.
      apply (Hrest n); [now apply elem_of_app | exact Hn].
    + intros [[Hx | [-> | Hx]] Hne]; tauto.
  - repeat split.
  - intros user_id. eexists. split; [apply get_unread_count_eq |].
    rewrite get_unread_count_eq. cbn [notifications set_notifications].
    destruct (parse_oid user_id) as [u |].
    + rewrite Hl, !List.filter_app, !length_app. cbn [List.filter].
      destruct (decide (Notif.user_id n = u)) as [Hu | Hu].
      * rewrite (bool_decide_eq_true_2 _ Hu).
        rewrite bool_decide_eq_true_2 by congruence. cbn [andb].
        destruct (Notif.is_read n); cbn; do 2 f_equal; lia.
      * rewrite (bool_decide_eq_false_2 _ Hu).
        rewrite bool_decide_eq_false_2 by congruence. cbn. do 2 f_equal. lia.
    + rewrite bool_decide_eq_false_2 by discriminate. cbn. do 2 f_equal.
Qed.

(** X9. [delete_notification] in a store whose notifications have distinct
    ids.  An id that is not an ObjectId raises [InvalidId] (where
    [get_notification_by_id] answers [None]).  When no notification has
    the id the result is [False] and nothing is written.  Otherwise the
    result is [True], exactly that notification is removed, a lookup of
    the id then finds nothing, and the owner's unread count drops by one
    when the notification was unread; every other count is as before. *)
Theorem delete_notification_removes (notification_id : string) (w : World) :
  NoDup (Notif._id <$> notifications w) ->
  match parse_oid notification_id with
  | None =>
      delete_notification notification_id w = (Raise InvalidId, w)
      /\ get_notification_by_id notification_id w = (Ok None, w)
  | Some o =>
      exists found,
        get_notification_by_id notification_id w = (Ok found, w)
        /\ match found with
           | None => delete_notification notification_id w = (Ok false, w)
           | Some n =>
               exists w',
                 delete_notification notification_id w = (Ok true, w')
                 /\ get_notification_by_id notification_id w' = (Ok None, w')
                 /\ (forall x, x ∈ notifications w' <-> x ∈ notifications w /\ x <> n)
                 /\ same_chat w w'
                 /\ forall user_id, exists k,
                      get_unread_count user_id w' = (Ok k, w')
                      /\ get_unread_count user_id w
                         = (Ok (k + (if bool_decide (parse_oid user_id = Some (Notif.user_id n))
                                        && negb (Notif.is_read n)
                                     then 1 else 0))%nat, w)
           end
  end.
Proof.
  intros Hnodup. destruct (parse_oid notification_id) as [o |] eqn:Ho.
  - eexists. split; [rewrite get_notification_by_id_eq, Ho; reflexivity |].
    destruct (find_one (fun n => bool_decide (Notif._id n = o)) (notifications w))
      as [n |] eqn:Hfind.
    + exact (delete_notification_found notification_id o n w Hnodup Ho Hfind).
    + unfold delete_notification. rewrite bind_eq, (ObjectId_ok _ _ _ Ho).
      rewrite (delete_one_none _ _ Hfind). now destruct w.
  - split.
    + unfold delete_notification. rewrite bind_eq. unfold ObjectId. now rewrite Ho.
    + now rewrite get_notification_by_id_eq, Ho.
Qed.

Lemma delete_notification_removes_witness :
  let w := snd (send_notification (str 2) "new_message" "New message" "hi" None
                  empty_world) in
  match parse_oid (str 100) with
  | None =>
      delete_notification (str 100) w = (Raise InvalidId, w)
      /\ get_notification_by_id (str 100) w = (Ok None, w)
  | Some o =>
      exists found,
        get_notification_by_id (str 100) w = (Ok found, w)
        /\ match found with
           | None => delete_notification (str 100) w = (Ok false, w)
           | Some n =>
               exists w',
                 delete_notification (str 100) w = (Ok true, w')
                 /\ get_notification_by_id (str 100) w' = (Ok None, w')
                 /\ (forall x, x ∈ notifications w' <-> x ∈ notifications w /\ x <> n)
                 /\ same_chat w w'
                 /\ forall user_id, exists k,
                      get_unread_count user_id w' = (Ok k, w')
                      /\ get_unread_count user_id w
                         = (Ok (k + (if bool_decide (parse_oid user_id = Some (Notif.user_id n))
                                        && negb (Notif.is_read n)
                                     then 1 else 0))%nat, w)
           end
  end.
Proof.
  intros w. apply (delete_notification_removes (str 100) w).
  vm_compute. apply NoDup_singleton.
Defined.

(** ** consumers.py: validate_conversation_access *)

Lemma parse_oid_str_is_Some (o : oid) : is_Some (parse_oid (str o)).
Proof.
  unfold parse_oid, str. rewrite length_render_hex. cbn [Nat.eqb].
  rewrite parse_hex_render_hex. eauto.
Qed.

Lemma elem_of_Some_fmap (u : string) (l : list string) :
  Some u ∈ Some <$> l <-> u ∈ l.
Proof.
  rewrite list_elem_of_fmap. split.
  - intros (y & [= ->] & Hy). exact Hy.
  - intros Hu. eauto.
Qed.

(** X10. [validate_conversation_access] never raises and writes no
    collection.  It grants access, returning the conversation, exactly
    when the conversation id is an ObjectId of a stored conversation and
    the user id is, as a string, the [str] of one of its participants: an
    absent user id, and a user id spelled otherwise than [str] spells it
    (in upper case), are refused. *)
Theorem validate_conversation_access_grants_iff
    (user_id : option string) (conversation_id : string) (w : World) :
  exists r w',
    validate_conversation_access user_id conversation_id w = (Ok r, w')
    /\ same_chat w w'
    /\ notifications w' = notifications w
    /\ forall conv,
         r = Some conv
         <-> exists c u,
               parse_oid conversation_id = Some c
               /\ find_one (fun x => bool_decide (Conv._id x = c)) (conversations w) = Some conv
               /\ user_id = Some u
               /\ u ∈ str <$> Conv.participants conv.
Proof.
  unfold validate_conversation_access, try_except. rewrite bind_eq.
  unfold get_conversation_by_id, try_except. rewrite bind_eq. unfold ObjectId at 1.
  destruct (parse_oid conversation_id) as [c |] eqn:Hc.
  - unfold ret at 1, gets at 1.
    destruct (find_one (fun x => bool_decide (Conv._id x = c)) (conversations w))
      as [conv |] eqn:Hfind.
    + rewrite bind_eq. destruct user_id as [u |]; cbn [opt_json ObjectId_of].
      * unfold ObjectId. destruct (parse_oid u) as [uo |] eqn:Hu.
        -- unfold ret at 1.
           destruct (decide (u ∈ str <$> Conv.participants conv)) as [Hin | Hnot].
           ++ rewrite bool_decide_eq_false_2
                by (intros H; apply H; now apply elem_of_Some_fmap).
              exists (Some conv), w. repeat split; try reflexivity.
              ** intros [= <-]. exists c, u. auto.
              ** intros (c' & u' & [= <-] & Hf & [= <-] & _). congruence.
           ++ rewrite bool_decide_eq_true_2
                by (intros H; now apply elem_of_Some_fmap in H).
              exists None, w. repeat split; try reflexivity; [discriminate |].
              intros (c' & u' & [= <-] & Hf & [= <-] & Hin).
              rewrite Hfind in Hf. injection Hf as <-. contradiction.
        -- exists None, w. repeat split; try reflexivity; [discriminate |].
           intros (c' & u' & _ & Hf & [= <-] & Hin).
           apply list_elem_of_fmap in Hin as (p & -> & _).
           destruct (parse_oid_str_is_Some p) as [x Hx]. congruence.
      * unfold new_oid. cbn.
        rewrite bool_decide_eq_true_2.
        -- eexists None, _. repeat split; try reflexivity; [discriminate |].
           intros (_ & _ & _ & _ & [=] & _).
        -- intros H. apply list_elem_of_fmap in H as (y & [=] & _).
    + exists None, w. repeat split; try reflexivity; [discriminate |].
      intros (c' & u' & [= <-] & Hf & _). congruence.
  - exists None, w. repeat split; try reflexivity; [discriminate |].
    intros (c' & u' & [=] & _).
Qed.

(** A participant's id in upper case is an ObjectId, and is refused. *)
Example validate_conversation_access_upper_case :
  let w := mkWorld [Conv.mk 1 [10%N; 11%N] "" None ∅ 0 0] [] [] [] 2
                   (fun n => Z.of_nat n) 0 None [] in
  parse_oid "00000000000000000000000A" = Some 10%N
  /\ validate_conversation_access (Some "00000000000000000000000A") (str 1) w = (Ok None, w)
  /\ validate_conversation_access (Some "00000000000000000000000a") (str 1) w
     = (Ok (Some (Conv.mk 1 [10%N; 11%N] "" None ∅ 0 0)), w).
Proof. vm_compute. repeat split; reflexivity. Qed.

(** ** consumers.py: sending to a group *)

Lemma self_group_send_run (target : group_target) (event : GroupEvent)
    (layer : group_target -> bool) (s : Session) (w : World) :
  channel_layer w = Some layer ->
  self_group_send target event (s, w)
  = (if layer target then Ok tt else Raise ChannelLayerError,
     (s, set_trace (trace w ++ [GroupSend target event (layer target)]) w)).
Proof.
  intros Hl. unfold self_group_send. rewrite bind_eq.
  unfold self_channel_layer. rewrite bind_eq.
  unfold liftW at 1, get_channel_layer, gets. cbn [snd fst]. rewrite Hl.
  unfold ret at 1. unfold liftW, group_send. cbn [snd fst].
  now destruct (layer target).
Qed.

Lemma send_after_send (f1 f2 : Frame) (s : Session) (w : World) :
  send f2 (set_transport (transport s ++ [f1]) s, w)
  = (Ok tt, (set_transport (transport s ++ [f1; f2]) s, w)).
Proof.
  unfold send, update_self, modify. cbn [fst snd]. unfold set_transport.
  cbn [authenticated user mongo_user_id conversation_id room_group_name
       conversation_groups sent_message_ids last_seen_timestamps transport].
  now rewrite <- app_assoc.
Qed.

(** ** consumers.py: handle_edit_message *)

Lemma rstrip_cons (c : ascii) (s : string) :
  rstrip (String c s)
  = match rstrip s with
    | EmptyString => if isspace c then EmptyString else String c EmptyString
    | r => String c r
    end.
Proof. reflexivity. Qed.

Lemma rstrip_idem (s : string) : rstrip (rstrip s) = rstrip s.
Proof.
  induction s as [| c s IH]; [reflexivity |].
  rewrite rstrip_cons. destruct (rstrip s) as [| d r] eqn:Hr.
  - destruct (isspace c) eqn:Hc; [reflexivity |]. cbn. now rewrite Hc.
  - rewrite rstrip_cons, IH. reflexivity.
Qed.

Lemma lstrip_head (s : string) :
  lstrip s = "" \/ exists c s', lstrip s = String c s' /\ isspace c = false.
Proof.
  induction s as [| c s IH]; [now left |].
  cbn. destruct (isspace c) eqn:Hc; [exact IH |]. right. eauto.
Qed.

Lemma strip_idem (s : string) : strip (strip s) = strip s.
Proof.
  unfold strip. destruct (lstrip_head s) as [-> | (c & s' & -> & Hc)]; [reflexivity |].
  assert (Hl : lstrip (rstrip (String c s')) = rstrip (String c s')).
  { rewrite rstrip_cons. destruct (rstrip s'); rewrite ?Hc; cbn; now rewrite Hc. }
  now rewrite Hl, rstrip_idem.
Qed.

Lemma validate_conversation_access_run
    (u conversation_id : string) (c : oid) (conv : Conv.t) (w : World) :
  parse_oid conversation_id = Some c ->
  find_one (fun x => bool_decide (Conv._id x = c)) (conversations w) = Some conv ->
  validate_conversation_access (Some u) conversation_id w
  = (Ok (if bool_decide (u ∈ str <$> Conv.participants conv) then Some conv else None), w).
Proof.
  intros Hc Hfind. unfold validate_conversation_access, try_except.
  rewrite bind_eq, (get_conversation_by_id_found _ _ _ Hc), Hfind.
  rewrite bind_eq. cbn [opt_json ObjectId_of]. unfold ObjectId.
  destruct (parse_oid u) as [uo |] eqn:Hu.
  - unfold ret at 1.
    destruct (decide (u ∈ str <$> Conv.participants conv)) as [Hin | Hnot].
    + rewrite (bool_decide_eq_true_2 _ Hin).
      rewrite bool_decide_eq_false_2
        by (intros H; apply H; now apply elem_of_Some_fmap). reflexivity.
    + rewrite (bool_decide_eq_false_2 _ Hnot).
      rewrite bool_decide_eq_true_2
        by (intros H; now apply elem_of_Some_fmap in H). reflexivity.
  - rewrite (bool_decide_eq_false_2 (u ∈ str <$> Conv.participants conv)); [reflexivity |].
    intros Hin. apply list_elem_of_fmap in Hin as (p & -> & _).
    destruct (parse_oid_str_is_Some p) as [x Hx]. congruence.
Qed.

Lemma get_message_by_id_found (message_id : string) (mid : oid) (w : World) :
  parse_oid message_id = Some mid ->
  get_message_by_id message_id w
  = (Ok (find_one (fun m => bool_decide (Msg._id m = mid)) (messages w)), w).
Proof.
  intros Hm. unfold get_message_by_id. apply try_except_ok.
  now rewrite bind_eq, (ObjectId_ok _ _ _ Hm).
Qed.

Lemma update_message_not_sender_run
    (message_id sender_id new_text : string) (mid : oid) (m : Msg.t) (w : World) :
  parse_oid message_id = Some mid ->
  find_one (fun x => bool_decide (Msg._id x = mid)) (messages w) = Some m ->
  str_truthy (strip new_text) = true ->
  parse_oid sender_id <> Some (Msg.sender_id m) ->
  exists msg,
    update_message message_id sender_id new_text w = (Raise (ValueError msg []), w)
    /\ (is_Some (parse_oid sender_id) ->
        msg = "Only the message sender can update the message").
Proof.
  intros Hmid Hfind Htext Hsid. unfold update_message.
  rewrite (strip_truthy _ Htext), Htext, (truthy_length _ Htext). cbn [negb orb].
  rewrite bind_eq. unfold try_except at 1.
  rewrite bind_eq, (ObjectId_ok _ _ _ Hmid), bind_eq. unfold ObjectId at 1.
  destruct (parse_oid sender_id) as [so |] eqn:Hso.
  - unfold ret at 1 2. cbn iota beta. rewrite bind_eq. unfold gets at 1. rewrite Hfind.
    rewrite bool_decide_eq_false_2 by congruence. cbn [negb].
    eexists. split; [reflexivity | auto].
  - eexists. split; [reflexivity |]. intros [x Hx]. discriminate.
Qed.

(** What the first checks of [handle_edit_message] come to for a request
    that names a stored message and carries a text that is not blank. *)
Lemma handle_edit_message_checked
    (data : list (string * json)) (message_id text u : string) (mid : oid)
    (m : Msg.t) (conv : Conv.t) (s : Session) (w : World) :
  dict_get "message_id" data = JStr message_id ->
  dict_get_default "text" (JStr "") data = JStr text ->
  str_truthy (strip text) = true ->
  parse_oid message_id = Some mid ->
  find_one (fun x => bool_decide (Msg._id x = mid)) (messages w) = Some m ->
  (Msg.conversation_id m < 2 ^ 96)%N ->
  find_one (fun x => bool_decide (Conv._id x = Msg.conversation_id m)) (conversations w)
    = Some conv ->
  mongo_user_id s = Some u ->
  handle_edit_message data (s, w)
  = try_except
      (if bool_decide (u ∈ str <$> Conv.participants conv)
       then
         try_except_ValueError
           (updated_message <- liftW (update_message message_id u (strip text)) ;;
            match updated_message with
            | None => send (F_error "INTERNAL_ERROR" "Failed to update message" [])
            | Some updated_message =>
                let message_data := format_message_response updated_message in
                self_group_send (Named (chat_ (str (Msg.conversation_id m))))
                                (Ev_message_edited message_data) ;;;
                send (F_message_edited message_data)
            end)
           (fun msg args => send (F_error "VALIDATION_ERROR" msg (JStr <$> args)))
       else send (F_error "FORBIDDEN" "Not authorized for this conversation" []))
      (fun _ => send (F_error "INTERNAL_ERROR" "Failed to edit message" []))
      (s, w).
Proof.
  intros Hid Htxt Htext Hmid Hfind Hbound Hconv Hu.
  unfold handle_edit_message. rewrite Hid, Htxt, Htext.
  cbn [truthy]. rewrite (parse_oid_truthy _ _ Hmid). cbn [negb].
  unfold try_except.
  rewrite bind_eq. unfold liftW at 1. cbn [snd fst].
  rewrite (get_message_by_id_found _ _ _ Hmid), Hfind.
  rewrite bind_eq. unfold self at 1, gets at 1. cbn [fst]. rewrite Hu.
  rewrite bind_eq. unfold liftW at 1. cbn [snd fst].
  rewrite (validate_conversation_access_run u _ _ conv w (parse_oid_str _ Hbound) Hconv).
  destruct (bool_decide (u ∈ str <$> Conv.participants conv)); reflexivity.
Qed.

(** X11. An edit request for a stored message, with a text that is not
    blank, by a session whose user is not the message's sender is
    answered with one error frame and changes nothing else: the store is
    as before and nothing is sent to the group.  The code is [FORBIDDEN]
    when the user is no participant of the message's conversation, and
    [VALIDATION_ERROR], with the text of [update_message]'s error, when
    the user is the other participant. *)
Theorem handle_edit_message_refuses_other_users
    (data : list (string * json)) (message_id text u : string) (mid : oid)
    (m : Msg.t) (conv : Conv.t) (s : Session) (w : World) :
  dict_get "message_id" data = JStr message_id ->
  dict_get_default "text" (JStr "") data = JStr text ->
  str_truthy (strip text) = true ->
  parse_oid message_id = Some mid ->
  find_one (fun x => bool_decide (Msg._id x = mid)) (messages w) = Some m ->
  (Msg.conversation_id m < 2 ^ 96)%N ->
  find_one (fun x => bool_decide (Conv._id x = Msg.conversation_id m)) (conversations w)
    = Some conv ->
  mongo_user_id s = Some u ->
  parse_oid u <> Some (Msg.sender_id m) ->
  handle_edit_message data (s, w)
  = (Ok tt,
     (set_transport
        (transport s ++
           [if bool_decide (u ∈ str <$> Conv.participants conv)
            then F_error "VALIDATION_ERROR"
                         "Only the message sender can update the message" []
            else F_error "FORBIDDEN" "Not authorized for this conversation" []]) s,
      w)).
Proof.
  intros Hid Htxt Htext Hmid Hfind Hbound Hconv Hu Hsender.
  rewrite (handle_edit_message_checked _ _ _ _ _ _ _ _ _
             Hid Htxt Htext Hmid Hfind Hbound Hconv Hu).
  destruct (decide (u ∈ str <$> Conv.participants conv)) as [Hin | Hnot].
  - rewrite (bool_decide_eq_true_2 _ Hin).
    assert (Hstrip : str_truthy (strip (strip text)) = true) by now rewrite strip_idem.
    destruct (update_message_not_sender_run message_id u (strip text) mid m w
                Hmid Hfind Hstrip Hsender) as (msg & Hrun & Hmsg).
    rewrite Hmsg in Hrun.
    + unfold try_except, try_except_ValueError. rewrite bind_eq. unfold liftW. cbn [snd fst].
      rewrite Hrun. reflexivity.
    + apply list_elem_of_fmap in Hin as (p & -> & _). apply parse_oid_str_is_Some.
  - rewrite (bool_decide_eq_false_2 _ Hnot). reflexivity.
Qed.

Lemma handle_edit_message_refuses_other_users_witness :
  handle_edit_message [("message_id", JStr (str 20)); ("text", JStr "edited")]
    (session_of_user_2, world_one_message)
  = (Ok tt,
     (set_transport
        (transport session_of_user_2 ++
           [if bool_decide (str 2 ∈ str <$>
                              Conv.participants
                                (Conv.mk 10 [1%N; 2%N] "hi" (Some 100)
                                   (<[str 2 := 1]> (<[str 1 := 0]> ∅)) 100 100))
            then F_error "VALIDATION_ERROR"
                         "Only the message sender can update the message" []
            else F_error "FORBIDDEN" "Not authorized for this conversation" []])
        session_of_user_2,
      world_one_message)).
Proof.
  apply (handle_edit_message_refuses_other_users _ (str 20) "edited" (str 2) 20
           (Msg.mk 20 10 1 "hi" [] 100 false None false None false None));
    try reflexivity.
  discriminate.
Defined.

Lemma update_conversation_last_message_wire
    (conversation_id text : string) (ts : option datetime) (w w' : World) (r : result bool) :
  update_conversation_last_message conversation_id text ts w = (r, w') ->
  trace w' = trace w /\ channel_layer w' = channel_layer w.
Proof.
  unfold update_conversation_last_message. rewrite bind_eq. unfold ObjectId.
  destruct (parse_oid conversation_id); [| now intros [= _ <-]].
  unfold ret at 1. rewrite bind_eq. unfold utcnow at 1.
  cbn [conversations set_ticks].
  destruct (update_one _ _ (conversations w)) as [cs n].
  intros [= _ <-]. split; reflexivity.
Qed.

(** [update_message] sends nothing and leaves the channel layer alone. *)
Lemma update_message_wire
    (message_id sender_id new_text : string) (w w' : World) (r : result (option Msg.t)) :
  update_message message_id sender_id new_text w = (r, w') ->
  trace w' = trace w /\ channel_layer w' = channel_layer w.
Proof.
  unfold update_message.
  destruct (negb (str_truthy new_text) || negb (str_truthy (strip new_text)));
    [now intros [= _ <-] |].
  destruct (Nat.ltb (String.length (strip new_text)) 1); [now intros [= _ <-] |].
  rewrite bind_eq. unfold try_except at 1. rewrite bind_eq. unfold ObjectId at 1.
  destruct (parse_oid message_id) as [mid |]; [| now intros [= _ <-]].
  unfold ret at 1. rewrite bind_eq. unfold ObjectId at 1.
  destruct (parse_oid sender_id) as [so |]; [| now intros [= _ <-]].
  unfold ret at 1 2. cbn iota beta. rewrite bind_eq. unfold gets at 1.
  destruct (find_one _ (messages w)) as [m |]; [| now intros [= _ <-]].
  destruct (negb (bool_decide (Msg.sender_id m = so))); [now intros [= _ <-] |].
  rewrite bind_eq. unfold utcnow at 1. rewrite bind_eq. cbn [messages set_ticks].
  destruct (update_one _ _ (messages w)) as [ms n].
  destruct (Nat.ltb 0 n); [| now intros [= _ <-]].
  rewrite bind_eq. unfold gets at 1. rewrite bind_eq.
  match goal with |- context [get_conversation_by_id ?c ?w1] =>
    destruct (get_conversation_by_id_reads c w1) as [oc ->]
  end.
  destruct oc as [conv |].
  - destruct (bool_decide _).
    + rewrite bind_eq, bind_eq.
      match goal with |- context [update_conversation_last_message ?a ?b ?c ?w1] =>
        destruct (update_conversation_last_message a b c w1) as [rb w2] eqn:Hupd
      end.
      apply update_conversation_last_message_wire in Hupd as [Ht Hl].
      destruct rb; intros [= _ <-]; rewrite Ht, Hl; split; reflexivity.
    + rewrite bind_eq. now intros [= _ <-].
  - rewrite bind_eq. now intros [= _ <-].
Qed.

(** X12. An edit request by the message's sender, a participant of the
    conversation, that changes the stored message: the message is stored
    with the stripped text, one [message_edited] event carrying the
    formatted message goes to the conversation's group, and the session
    gets one frame.  The frame is the [message_edited] confirmation when
    the channel layer took the event; when it refused it, the frame is an
    [INTERNAL_ERROR] although the edit has been stored.  The handler of
    that event forwards it to every session it reaches, so the editing
    session, when the event comes back to it from the group, has the
    edit on its socket twice. *)
Theorem handle_edit_message_by_sender
    (data : list (string * json)) (message_id text u : string) (mid : oid)
    (m : Msg.t) (conv : Conv.t) (layer : group_target -> bool) (s : Session) (w : World) :
  dict_get "message_id" data = JStr message_id ->
  dict_get_default "text" (JStr "") data = JStr text ->
  str_truthy (strip text) = true ->
  parse_oid message_id = Some mid ->
  find_one (fun x => bool_decide (Msg._id x = mid)) (messages w) = Some m ->
  (Msg.conversation_id m < 2 ^ 96)%N ->
  find_one (fun x => bool_decide (Conv._id x = Msg.conversation_id m)) (conversations w)
    = Some conv ->
  mongo_user_id s = Some u ->
  parse_oid u = Some (Msg.sender_id m) ->
  u ∈ str <$> Conv.participants conv ->
  Msg.set_edited (strip text) (clock w (ticks w)) m <> m ->
  channel_layer w = Some layer ->
  exists w',
    let m' := Msg.set_edited (strip text) (clock w (ticks w)) m in
    let group := Named (chat_ (str (Msg.conversation_id m))) in
    handle_edit_message data (s, w)
    = (Ok tt,
       (set_transport
          (transport s ++
             [if layer group then F_message_edited (format_message_response m')
              else F_error "INTERNAL_ERROR" "Failed to edit message" []]) s,
        w'))
    /\ find_one (fun x => bool_decide (Msg._id x = mid)) (messages w') = Some m'
    /\ trace w'
       = trace w ++ [GroupSend group (Ev_message_edited (format_message_response m'))
                               (layer group)]
    /\ (layer group = true ->
        (handle_edit_message data ;;;
         dispatch_group_event (Ev_message_edited (format_message_response m'))) (s, w)
        = (Ok tt,
           (set_transport
              (transport s ++ [F_message_edited (format_message_response m');
                               F_message_edited (format_message_response m')]) s,
            w'))).
Proof.
  intros Hid Htxt Htext Hmid Hfind Hbound Hconv Hu Hsender Hin Hchanged Hlayer.
  assert (Hstrip : str_truthy (strip (strip text)) = true) by now rewrite strip_idem.
  destruct (update_message_sender_run message_id u (strip text) mid m w
              Hmid Hsender Hfind Hstrip Hbound) as (w1 & Hrun & Hm1 & _).
  cbv zeta in Hrun, Hm1. rewrite strip_idem in Hrun, Hm1.
  rewrite decide_False in Hrun by exact Hchanged.
  destruct (update_message_wire _ _ _ _ _ _ Hrun) as [Ht Hl].
  cbv zeta.
  set (m' := Msg.set_edited (strip text) (clock w (ticks w)) m) in *.
  set (group := Named (chat_ (str (Msg.conversation_id m)))).
  set (event := Ev_message_edited (format_message_response m')).
  exists (set_trace (trace w1 ++ [GroupSend group event (layer group)]) w1).
  assert (Hhandle :
    handle_edit_message data (s, w)
    = (Ok tt,
       (set_transport
          (transport s ++
             [if layer group then F_message_edited (format_message_response m')
              else F_error "INTERNAL_ERROR" "Failed to edit message" []]) s,
        set_trace (trace w1 ++ [GroupSend group event (layer group)]) w1))).
  { rewrite (handle_edit_message_checked _ _ _ _ _ _ _ _ _
               Hid Htxt Htext Hmid Hfind Hbound Hconv Hu).
    rewrite (bool_decide_eq_true_2 _ Hin).
    unfold try_except, try_except_ValueError.
    rewrite bind_eq. unfold liftW at 1. cbn [snd fst]. rewrite Hrun. cbn iota beta zeta.
    fold m' group event.
    assert (Hl1 : channel_layer w1 = Some layer) by congruence.
    rewrite bind_eq, (self_group_send_run group event layer s w1 Hl1).
    now destruct (layer group). }
  split; [exact Hhandle |]. cbn [messages trace set_trace].
  split; [exact Hm1 |]. split; [now rewrite Ht |].
  intros Hg. rewrite bind_eq, Hhandle, Hg.
  subst event. cbn [dispatch_group_event]. unfold message_edited.
  apply send_after_send.
Qed.

Lemma handle_edit_message_by_sender_witness :
  let s := mkSession true (Some 1) (Some (str 1)) (Some (str 10)) (Some (chat_ (str 10)))
                     {[chat_ (str 10)]} ∅ ∅ [] in
  let m' := Msg.mk 21 10 1 "edited" [] 101 false None true (Some 200) false None in
  exists w',
    handle_edit_message [("message_id", JStr (str 21)); ("text", JStr " edited ")]
      (s, world_two_messages)
    = (Ok tt, (set_transport [F_message_edited (format_message_response m')] s, w'))
    /\ find_one (fun x => bool_decide (Msg._id x = 21%N)) (messages w') = Some m'.
Proof.
  intros s m'.
  destruct (handle_edit_message_by_sender
              [("message_id", JStr (str 21)); ("text", JStr " edited ")]
              (str 21) " edited " (str 1) 21
              (Msg.mk 21 10 1 "second" [] 101 false None false None false None)
              (Conv.mk 10 [1%N; 2%N] "second" (Some 101)
                 (<[str 2 := 2]> (<[str 1 := 0]> ∅)) 100 101)
              (fun _ => true) s world_two_messages)
    as (w' & Hrun & Hm & _);
    [reflexivity | reflexivity | reflexivity | reflexivity | reflexivity | reflexivity
    | reflexivity | reflexivity | reflexivity | | discriminate | reflexivity |].
  - cbn. set_solver.
  - exists w'. split; [exact Hrun | exact Hm].
Defined.

(** ** create_message for a recipient *)

Lemma get_or_create_conversation_pair_run (A B : string) (a b : oid) (w : World) :
  parse_oid A = Some a -> parse_oid B = Some b -> a <> b ->
  exists c w1,
    get_or_create_conversation [A; B] w = (Ok c, w1)
    /\ Conv.participants c = sort_asc Z.of_N [a; b]
    /\ messages w1 = messages w
    /\ ((forall x, x ∈ conversations w -> Conv.participants x <> sort_asc Z.of_N [a; b]) ->
        conversations w1 = conversations w ++ [c]
        /\ Conv.last_message c = "" /\ Conv._id c = next_oid w).
Proof.
  intros HA HB Hab. unfold get_or_create_conversation. cbn [length Nat.eqb negb].
  rewrite bind_eq, (participant_oids_of_pair A B a b w HA HB Hab).
  destruct (sort_asc_pair a b Hab) as [_ [-> | ->]];
    cbn iota; rewrite bind_eq; unfold gets at 1;
    match goal with |- context [find_one ?p ?l] => destruct (find_one p l) as [c |] eqn:Hf end.
  1, 3: (apply find_some in Hf as [Hin Hf]; apply bool_decide_eq_true_1 in Hf;
         exists c; exists w; split; [reflexivity |]; split; [exact Hf |];
         split; [reflexivity |]; intros H; apply list_elem_of_In in Hin;
         now destruct (H c Hin)).
  all: eexists _, _; split; [reflexivity |]; cbn; auto.
Qed.

Lemma attachment_urls_any_world (l : list json) (w w' : World) :
  fst (attachment_urls l w) = fst (attachment_urls l w').
Proof.
  induction l as [| x l IH]; [reflexivity |]. cbn.
  destruct x; try reflexivity. destruct (str_truthy (strip s)); [| reflexivity].
  rewrite !bind_eq.
  destruct (attachment_urls l w) as [r1 w1], (attachment_urls l w') as [r2 w2].
  cbn in IH. subst r2. now destruct r1.
Qed.

Lemma validate_attachments_any_world (attachments : json) (w w' : World)
    (r : result (list string)) :
  validate_attachments attachments w = (r, w) ->
  validate_attachments attachments w' = (r, w').
Proof.
  intros H.
  destruct (validate_attachments attachments w') as [r' w1] eqn:H'.
  destruct (validate_attachments_reads _ _ _ _ H') as [-> _].
  f_equal. unfold validate_attachments in *. unfold ret, raise in *.
  destruct (truthy attachments); [| congruence].
  destruct attachments; try congruence.
  pose proof (attachment_urls_any_world l w w') as Heq. rewrite H, H' in Heq.
  now cbn in Heq.
Qed.

(** X13. [create_message] for a recipient, without a conversation id, is
    not all or nothing: with two distinct well-formed user ids and a text
    that is not blank, a rejected attachment list raises the
    [ValueError] after [get_or_create_conversation] has run, so that for
    a pair that had no conversation an empty conversation stays in the
    store, and no message does. *)
Theorem create_message_for_recipient_keeps_new_conversation
    (A B text : string) (attachments : json) (a b : oid) (e : exn) (w : World) :
  parse_oid A = Some a -> parse_oid B = Some b -> a <> b ->
  str_truthy (strip text) = true ->
  validate_attachments attachments w = (Raise e, w) ->
  exists c w',
    get_or_create_conversation [A; B] w = (Ok c, w')
    /\ create_message None (Some A) (Some B) text attachments w = (Raise e, w')
    /\ messages w' = messages w
    /\ ((forall x, x ∈ conversations w -> Conv.participants x <> sort_asc Z.of_N [a; b]) ->
        conversations w' = conversations w ++ [c]
        /\ Conv.last_message c = "" /\ Conv._id c = next_oid w).
Proof.
  intros HA HB Hab Htext Hatt.
  destruct (get_or_create_conversation_pair_run A B a b w HA HB Hab)
    as (c & w1 & Hrun & _ & Hm & Hnew).
  exists c, w1. split; [exact Hrun |]. split; [| split; [exact Hm | exact Hnew]].
  unfold create_message.
  rewrite (strip_truthy _ Htext), Htext, (truthy_length _ Htext). cbn [negb orb opt_truthy].
  rewrite (parse_oid_truthy _ _ HA), (parse_oid_truthy _ _ HB).
  cbn [negb default from_option id].
  rewrite bind_eq, (try_except_ok _ _ _ _ _ (ObjectId_ok A a w HA)).
  rewrite bind_eq, bind_eq, (try_except_ok _ _ _ _ _ (ObjectId_ok B b w HB)).
  rewrite bind_eq, Hrun. unfold ret at 1.
  rewrite bind_eq.
  pose proof (validate_attachments_any_world _ _ w1 _ Hatt) as Hatt1.
  unfold validate_attachments in Hatt1. rewrite Hatt1. reflexivity.
Qed.

Lemma create_message_for_recipient_keeps_new_conversation_witness :
  exists c w',
    get_or_create_conversation [str 1; str 2] empty_world = (Ok c, w')
    /\ create_message None (Some (str 1)) (Some (str 2)) "hi" (JStr "a.png") empty_world
       = (Raise (ValueError "attachments must be a list" []), w')
    /\ messages w' = messages empty_world
    /\ ((forall x, x ∈ conversations empty_world ->
                    Conv.participants x <> sort_asc Z.of_N [1%N; 2%N]) ->
        conversations w' = conversations empty_world ++ [c]
        /\ Conv.last_message c = "" /\ Conv._id c = next_oid empty_world).
Proof.
  apply (create_message_for_recipient_keeps_new_conversation (str 1) (str 2) "hi"
           (JStr "a.png") 1 2 (ValueError "attachments must be a list" []) empty_world);
    [reflexivity | reflexivity | discriminate | reflexivity | reflexivity].
Defined.

(** ** consumers.py: mark_messages_read with explicit ids *)

Lemma find_one_update_one_other {D} `{EqDecision D} (p q : D -> bool) (f : D -> D)
    (l : list D) :
  (forall d, p d = true -> q d = false) ->
  (forall d, p d = true -> q (f d) = false) ->
  find_one q (update_one p f l).1 = find_one q l.
Proof.
  intros Hpq Hpf. unfold find_one. induction l as [| x l IH]; cbn; [reflexivity |].
  destruct (p x) eqn:Hx; cbn.
  - now rewrite (Hpq x Hx), (Hpf x Hx).
  - destruct (update_one p f l) as [l' n]. cbn in *. now rewrite IH.
Qed.

Lemma keeps_read_refl (w : World) : keeps_read w w.
Proof. intros o m H. eauto. Qed.

Lemma keeps_read_trans (w1 w2 w3 : World) :
  keeps_read w1 w2 -> keeps_read w2 w3 -> keeps_read w1 w3.
Proof.
  intros H12 H23 o m H. destruct (H12 o m H) as (m2 & H2 & Hr2).
  destruct (H23 o m2 H2) as (m3 & H3 & Hr3). eauto.
Qed.

Lemma mark_message_as_read_run (message_id : string) (mid : oid) (w : World) :
  parse_oid message_id = Some mid ->
  exists marked w',
    mark_message_as_read (JStr message_id) w = (Ok marked, w')
    /\ keeps_read w w'
    /\ forall m, find_one (fun x => bool_decide (Msg._id x = mid)) (messages w) = Some m ->
         exists m', find_one (fun x => bool_decide (Msg._id x = mid)) (messages w') = Some m'
                    /\ Msg.is_read m' = true.
Proof.
  intros Hmid. unfold mark_message_as_read. rewrite bind_eq.
  unfold ObjectId_of, ObjectId. rewrite Hmid. unfold ret at 1. rewrite bind_eq.
  unfold utcnow at 1. cbn [messages set_ticks].
  set (f := Msg.set_read (clock w (ticks w))).
  assert (Hsame : find_one (fun x => bool_decide (Msg._id x = mid))
                    (update_one (fun x => bool_decide (Msg._id x = mid)) f (messages w)).1
                  = f <$> find_one (fun x => bool_decide (Msg._id x = mid)) (messages w))
    by (apply find_one_update_one; intros d; reflexivity).
  assert (Hother : forall o, o <> mid ->
            find_one (fun x => bool_decide (Msg._id x = o))
              (update_one (fun x => bool_decide (Msg._id x = mid)) f (messages w)).1
            = find_one (fun x => bool_decide (Msg._id x = o)) (messages w)).
  { intros o Ho. apply find_one_update_one_other; intros d Hd;
      apply bool_decide_eq_true_1 in Hd; apply bool_decide_eq_false_2; cbn; congruence. }
  destruct (update_one _ f (messages w)) as [ms n]. cbn [fst] in *.
  eexists _, _. split; [reflexivity |]. cbn [messages set_messages]. split.
  - intros o m Hm. cbn [messages set_messages].
    destruct (decide (o = mid)) as [-> | Ho].
    + rewrite Hsame, Hm. cbn. eauto.
    + rewrite (Hother o Ho), Hm. eauto.
  - intros m Hm. rewrite Hsame, Hm. cbn. eauto.
Qed.

Lemma mark_each_read_bad_id (good : list string) (bad : string) (rest : list json)
    (count : nat) (w : World) :
  Forall (fun g => is_Some (parse_oid g)) good ->
  parse_oid bad = None ->
  exists w',
    mark_each_read ((JStr <$> good) ++ JStr bad :: rest) count w = (Raise InvalidId, w')
    /\ keeps_read w w'
    /\ forall g o m,
         g ∈ good -> parse_oid g = Some o ->
         find_one (fun x => bool_decide (Msg._id x = o)) (messages w) = Some m ->
         exists m', find_one (fun x => bool_decide (Msg._id x = o)) (messages w') = Some m'
                    /\ Msg.is_read m' = true.
Proof.
  intros Hgood Hbad. revert count w.
  induction Hgood as [| g good [o Hg] _ IH]; intros count w.
  - exists w. cbn [fmap list_fmap app mark_each_read]. split.
    + rewrite bind_eq. unfold mark_message_as_read. rewrite bind_eq.
      unfold ObjectId_of, ObjectId. now rewrite Hbad.
    + split; [apply keeps_read_refl |]. intros g o m Hin. now apply elem_of_nil in Hin.
  - destruct (mark_message_as_read_run g o w Hg) as (marked & w1 & Hrun & Hkeep & Hread).
    destruct (IH (if marked then S count else count) w1) as (w' & Hrest & Hkeep' & Hread').
    exists w'. split; [| split].
    + cbn [fmap list_fmap app mark_each_read]. rewrite bind_eq, Hrun. exact Hrest.
    + eapply keeps_read_trans; eauto.
    + intros g' o' m Hin Hg' Hm. apply elem_of_cons in Hin as [-> | Hin].
      * assert (o' = o) as -> by congruence.
        destruct (Hread m Hm) as (m1 & Hm1 & Hr1).
        destruct (Hkeep' o m1 Hm1) as (m' & Hm' & Hr'). eauto.
      * destruct (Hkeep o' m Hm) as (m1 & Hm1 & _).
        exact (Hread' g' o' m1 Hin Hg' Hm1).
Qed.

(** X14. [mark_messages_read] with explicit ids is not all or nothing,
    and its count is lost on an error: when the list holds an id that is
    not an ObjectId, the result is 0, yet every stored message named
    before that id has been marked read; no message that was read
    becomes unread. *)
Theorem mark_messages_read_bad_id_after_marking
    (conversation_id : json) (user_id : option string)
    (good : list string) (bad : string) (rest : list json) (w : World) :
  Forall (fun g => is_Some (parse_oid g)) good ->
  parse_oid bad = None ->
  exists w',
    mark_messages_read conversation_id user_id
      (JList ((JStr <$> good) ++ JStr bad :: rest)) w = (Ok 0%nat, w')
    /\ keeps_read w w'
    /\ forall g o m,
         g ∈ good -> parse_oid g = Some o ->
         find_one (fun x => bool_decide (Msg._id x = o)) (messages w) = Some m ->
         exists m', find_one (fun x => bool_decide (Msg._id x = o)) (messages w') = Some m'
                    /\ Msg.is_read m' = true.
Proof.
  intros Hgood Hbad.
  destruct (mark_each_read_bad_id good bad rest 0 w Hgood Hbad) as (w' & Hrun & Hkeep & Hread).
  exists w'. split; [| split; [exact Hkeep | exact Hread]].
  unfold mark_messages_read, try_except.
  assert (Htruthy : truthy (JList ((JStr <$> good) ++ JStr bad :: rest)) = true).
  { cbn. rewrite length_app. cbn. now rewrite Nat.add_succ_r. }
  rewrite Htruthy. cbn [py_iter]. now rewrite Hrun.
Qed.

Lemma mark_messages_read_bad_id_after_marking_witness :
  exists w',
    mark_messages_read (JStr (str 10)) (Some (str 2))
      (JList ((JStr <$> [str 20]) ++ JStr "x" :: [])) world_one_message = (Ok 0%nat, w')
    /\ exists m', find_one (fun x => bool_decide (Msg._id x = 20%N)) (messages w') = Some m'
                  /\ Msg.is_read m' = true.
Proof.
  destruct (mark_messages_read_bad_id_after_marking (JStr (str 10)) (Some (str 2))
              [str 20] "x" [] world_one_message) as (w' & Hrun & _ & Hread).
  - repeat constructor. exists 20%N. reflexivity.
  - reflexivity.
  - exists w'. split; [exact Hrun |].
    apply (Hread (str 20) 20%N (Msg.mk 20 10 1 "hi" [] 100 false None false None false None));
      [apply list_elem_of_here | reflexivity | reflexivity].
Defined.

(** ** get_user_conversations *)

Lemma get_user_conversations_eq (user_id : string) (u : oid) (w : World) :
  parse_oid user_id = Some u ->
  get_user_conversations user_id w
  = (Ok (sort_desc Conv.updated_at
           (List.filter (fun c => bool_decide (u ∈ Conv.participants c)) (conversations w))),
     w).
Proof.
  intros Hu. unfold get_user_conversations. apply try_except_ok.
  now rewrite bind_eq, (ObjectId_ok _ _ _ Hu).
Qed.

Lemma get_or_create_conversation_pair_stored (A B : string) (a b : oid) (w : World) :
  parse_oid A = Some a -> parse_oid B = Some b -> a <> b ->
  exists c w1,
    get_or_create_conversation [A; B] w = (Ok c, w1)
    /\ Conv.participants c = sort_asc Z.of_N [a; b]
    /\ c ∈ conversations w1.
Proof.
  intros HA HB Hab. unfold get_or_create_conversation. cbn [length Nat.eqb negb].
  rewrite bind_eq, (participant_oids_of_pair A B a b w HA HB Hab).
  destruct (sort_asc_pair a b Hab) as [_ [-> | ->]];
    cbn iota; rewrite bind_eq; unfold gets at 1;
    match goal with |- context [find_one ?p ?l] => destruct (find_one p l) as [c |] eqn:Hf end.
  1, 3: (apply find_some in Hf as [Hin Hf]; apply bool_decide_eq_true_1 in Hf;
         exists c; exists w; split; [reflexivity |]; split; [exact Hf |];
         now apply list_elem_of_In).
  all: eexists _, _; split; [reflexivity |]; cbn; split; [reflexivity |];
       apply elem_of_app; right; apply list_elem_of_here.
Qed.

(** X15. The conversation that [get_or_create_conversation] returns for
    two distinct users is listed by [get_user_conversations] for each of
    them.  For a well-formed user id the listing holds exactly the stored
    conversations the user takes part in, the most recently updated
    first; for an id that is not an ObjectId it is empty.  The listing
    writes nothing. *)
Theorem get_user_conversations_lists_created
    (A B : string) (a b : oid) (w : World) :
  parse_oid A = Some a -> parse_oid B = Some b -> a <> b ->
  exists c w',
    get_or_create_conversation [A; B] w = (Ok c, w')
    /\ (forall U u, (U = A /\ u = a) \/ (U = B /\ u = b) ->
          exists l,
            get_user_conversations U w' = (Ok l, w')
            /\ c ∈ l
            /\ StronglySorted (fun x y => Conv.updated_at y <= Conv.updated_at x) l
            /\ l ≡ₚ List.filter (fun x => bool_decide (u ∈ Conv.participants x))
                                (conversations w'))
    /\ (forall U, parse_oid U = None -> get_user_conversations U w' = (Ok [], w')).
Proof.
  intros HA HB Hab.
  destruct (get_or_create_conversation_pair_stored A B a b w HA HB Hab)
    as (c & w' & Hrun & Hpart & Hin).
  exists c, w'. split; [exact Hrun |]. split.
  - intros U u HU.
    assert (HUu : parse_oid U = Some u) by (destruct HU as [[-> ->] | [-> ->]]; assumption).
    assert (Hu : u ∈ Conv.participants c).
    { rewrite Hpart, sort_asc_perm.
      destruct HU as [[_ ->] | [_ ->]]; [apply list_elem_of_here |].
      apply list_elem_of_further, list_elem_of_here. }
    eexists. split; [apply (get_user_conversations_eq _ _ _ HUu) |].
    split; [| split].
    + unfold sort_desc. rewrite sort_asc_perm.
      apply list_elem_of_In, filter_In. split; [now apply list_elem_of_In |].
      now apply bool_decide_eq_true_2.
    + apply sort_desc_sorted.
    + apply sort_asc_perm.
  - intros U HU. unfold get_user_conversations, try_except. rewrite bind_eq.
    unfold ObjectId. now rewrite HU.
Qed.

Lemma get_user_conversations_lists_created_witness :
  exists c w',
    get_or_create_conversation [str 2; str 1] world_one_message = (Ok c, w')
    /\ exists l, get_user_conversations (str 1) w' = (Ok l, w') /\ c ∈ l.
Proof.
  destruct (get_user_conversations_lists_created (str 2) (str 1) 2 1 world_one_message)
    as (c & w' & Hrun & Hlist & _); [reflexivity | reflexivity | discriminate |].
  exists c, w'. split; [exact Hrun |].
  destruct (Hlist (str 1) 1%N) as (l & Hl & Hin & _); [right; split; reflexivity |].
  exists l. split; [exact Hl | exact Hin].
Defined.

(** ** consumers.py: broadcast_presence and disconnect *)

Lemma for_each_presence (groups : list string) (user_id : option string) (status : string)
    (layer : group_target -> bool) (s : Session) (w : World) :
  channel_layer w = Some layer ->
  exists w',
    for_each groups (fun group_name =>
      self_group_send (Named group_name) (Ev_presence_update user_id status)) (s, w)
    = (if forallb (fun g => layer (Named g)) groups then Ok tt else Raise ChannelLayerError,
       (s, w'))
    /\ same_chat w w'
    /\ notifications w' = notifications w
    /\ channel_layer w' = Some layer
    /\ (forallb (fun g => layer (Named g)) groups = true ->
        trace w'
        = trace w ++ ((fun g => GroupSend (Named g) (Ev_presence_update user_id status) true)
                        <$> groups)).
Proof.
  revert w. induction groups as [| g groups IH]; intros w Hl.
  - exists w. cbn. rewrite app_nil_r. repeat split; auto.
  - cbn [for_each forallb]. rewrite bind_eq, (self_group_send_run _ _ layer s w Hl).
    destruct (layer (Named g)) eqn:Hg; cbn [andb].
    + destruct (IH (set_trace (trace w ++
                      [GroupSend (Named g) (Ev_presence_update user_id status) true]) w) Hl)
        as (w' & Hrun & Hsame & Hn & Hl' & Ht).
      exists w'. split; [exact Hrun |]. split; [exact Hsame |]. split; [exact Hn |].
      split; [exact Hl' |]. intros Hall. rewrite (Ht Hall). cbn [trace set_trace fmap list_fmap].
      now rewrite <- app_assoc.
    + eexists. split; [reflexivity |]. repeat split; auto. discriminate.
Qed.

Lemma for_each_discard (groups : list string) (layer : group_target -> bool)
    (s : Session) (w : World) :
  channel_layer w = Some layer ->
  for_each groups self_group_discard (s, w)
  = (if forallb (fun g => layer (Named g)) groups then Ok tt else Raise ChannelLayerError,
     (s, w)).
Proof.
  intros Hl. induction groups as [| g groups IH]; [reflexivity |].
  cbn [for_each forallb]. rewrite bind_eq. unfold self_group_discard at 1.
  rewrite bind_eq. unfold self_channel_layer. rewrite bind_eq.
  unfold liftW at 1, get_channel_layer, gets. cbn [snd fst]. rewrite Hl.
  unfold ret at 1. destruct (layer (Named g)); [exact IH | reflexivity].
Qed.

(** X16. [disconnect] with a configured channel layer writes no
    collection.  For a session that is not authenticated, or whose groups
    the layer all serves, it returns with the joined groups, the
    delivered ids and the last-seen marks emptied; an authenticated
    session with a user id has told each joined group, once, that the
    user is offline (the groups of the set are visited in no particular
    order).  When the layer refuses one of the groups of an
    authenticated session, [disconnect] raises and none of the three is
    emptied. *)
Theorem disconnect_clears_session
    (close_code : Z) (layer : group_target -> bool) (s : Session) (w : World) :
  channel_layer w = Some layer ->
  exists w',
    let groups := elements (conversation_groups s) in
    let served := forallb (fun g => layer (Named g)) groups in
    disconnect close_code (s, w)
    = (if negb (authenticated s) || served
       then (Ok tt,
             (set_last_seen_timestamps ∅
                (set_sent_message_ids ∅ (set_conversation_groups ∅ s)), w'))
       else (Raise ChannelLayerError, (s, w')))
    /\ same_chat w w'
    /\ notifications w' = notifications w
    /\ (negb (authenticated s) || served = true ->
        exists sent,
          trace w' = trace w ++ sent
          /\ sent ≡ₚ
               (if authenticated s && opt_truthy (mongo_user_id s)
                then (fun g => GroupSend (Named g)
                                 (Ev_presence_update (mongo_user_id s) "offline") true)
                       <$> groups
                else [])).
Proof.
  intros Hl. cbv zeta.
  destruct (authenticated s) eqn:Hauth; cbn [negb orb andb].
  - destruct (opt_truthy (mongo_user_id s)) eqn:Hu.
    + destruct (for_each_presence (elements (conversation_groups s)) (mongo_user_id s)
                  "offline" layer s w Hl) as (w' & Hrun & Hsame & Hn & Hl' & Ht).
      exists w'.
      assert (Hb : broadcast_presence "offline" (s, w)
                   = (if forallb (fun g => layer (Named g))
                              (elements (conversation_groups s))
                      then Ok tt else Raise ChannelLayerError, (s, w'))).
      { unfold broadcast_presence.
        rewrite bind_eq. unfold self at 1, gets at 1. cbn [fst]. rewrite Hauth.
        rewrite bind_eq. unfold self at 1, gets at 1. cbn [fst negb orb]. rewrite Hu.
        cbn [negb]. rewrite bind_eq. unfold self at 1, gets at 1. cbn [fst].
        exact Hrun. }
      unfold disconnect. rewrite bind_eq. unfold self at 1, gets at 1. cbn [fst].
      rewrite Hauth. rewrite bind_eq, bind_eq, Hb.
      destruct (forallb _ (elements (conversation_groups s))) eqn:Hall.
      * rewrite bind_eq. unfold self at 1, gets at 1. cbn [fst].
        rewrite (for_each_discard _ layer s w' Hl'), Hall.
        split; [reflexivity |]. split; [exact Hsame |]. split; [exact Hn |].
        intros _. eexists. split; [apply Ht; reflexivity | reflexivity].
      * split; [reflexivity |]. split; [exact Hsame |]. split; [exact Hn |]. discriminate.
    + exists w.
      assert (Hb : broadcast_presence "offline" (s, w) = (Ok tt, (s, w))).
      { unfold broadcast_presence.
        rewrite bind_eq. unfold self at 1, gets at 1. cbn [fst]. rewrite Hauth.
        rewrite bind_eq. unfold self at 1, gets at 1. cbn [fst negb orb]. rewrite Hu.
        reflexivity. }
      unfold disconnect. rewrite bind_eq. unfold self at 1, gets at 1. cbn [fst].
      rewrite Hauth. rewrite bind_eq, bind_eq, Hb.
      rewrite bind_eq. unfold self at 1, gets at 1. cbn [fst].
      rewrite (for_each_discard _ layer s w Hl).
      destruct (forallb _ (elements (conversation_groups s)));
        (split; [reflexivity |]); (split; [apply same_chat_refl |]);
        (split; [reflexivity |]);
        [intros _; exists []; now rewrite app_nil_r | discriminate].
  - exists w. split.
    + unfold disconnect. rewrite bind_eq. unfold self at 1, gets at 1. cbn [fst].
      rewrite Hauth. reflexivity.
    + split; [apply same_chat_refl |]. split; [reflexivity |].
      intros _. exists []. now rewrite app_nil_r.
Qed.

Lemma disconnect_clears_session_witness :
  exists w',
    disconnect 1000 (session_of_user_2, empty_world)
    = (Ok tt,
       (set_last_seen_timestamps ∅
          (set_sent_message_ids ∅ (set_conversation_groups ∅ session_of_user_2)), w'))
    /\ same_chat empty_world w'.
Proof.
  destruct (disconnect_clears_session 1000 (fun _ => true) session_of_user_2 empty_world)
    as (w' & Hrun & Hsame & _); [reflexivity |].
  exists w'. split; [| exact Hsame].
  cbv zeta in Hrun. rewrite Hrun. reflexivity.
Defined.

(** ** consumers.py: handle_typing and typing_indicator *)

(** X17. A typing event with a conversation id (its own or the session's)
    writes nothing to the session's socket and nothing into the store: it
    makes one [group_send] of a [typing_indicator] event carrying the
    session's user id, and a refusal of the channel layer is swallowed.
    When that event comes back to the session from the group it is
    dropped; a session of any other user forwards it as one [typing]
    frame. *)
Theorem handle_typing_no_self_echo
    (data : list (string * json)) (layer : group_target -> bool) (s : Session) (w : World) :
  channel_layer w = Some layer ->
  truthy (py_or (dict_get "conversation_id" data) (opt_json (conversation_id s))) = true ->
  exists w',
    let target :=
      chat_target (py_or (dict_get "conversation_id" data) (opt_json (conversation_id s))) in
    let is_typing := dict_get_default "is_typing" (JBool true) data in
    let event := Ev_typing_indicator (mongo_user_id s) is_typing in
    handle_typing data (s, w) = (Ok tt, (s, w'))
    /\ trace w' = trace w ++ [GroupSend target event (layer target)]
    /\ same_chat w w'
    /\ notifications w' = notifications w
    /\ (handle_typing data ;;; dispatch_group_event event) (s, w) = (Ok tt, (s, w'))
    /\ forall s2 w2,
         mongo_user_id s2 <> mongo_user_id s ->
         dispatch_group_event event (s2, w2)
         = (Ok tt,
            (set_transport (transport s2 ++ [F_typing (mongo_user_id s) is_typing]) s2, w2)).
Proof.
  intros Hl Hcid. cbv zeta.
  set (cid := py_or (dict_get "conversation_id" data) (opt_json (conversation_id s))) in *.
  set (event := Ev_typing_indicator (mongo_user_id s)
                  (dict_get_default "is_typing" (JBool true) data)).
  exists (set_trace (trace w ++ [GroupSend (chat_target cid) event (layer (chat_target cid))]) w).
  assert (Hrun : handle_typing data (s, w)
                 = (Ok tt, (s, set_trace (trace w ++ [GroupSend (chat_target cid) event
                                                          (layer (chat_target cid))]) w))).
  { unfold handle_typing, try_except.
    rewrite bind_eq. unfold self at 1, gets at 1. cbn [fst]. fold cid. rewrite Hcid.
    cbn [negb]. rewrite bind_eq. unfold self at 1, gets at 1. cbn [fst]. fold event.
    rewrite (self_group_send_run _ _ layer s w Hl).
    now destruct (layer (chat_target cid)). }
  assert (Hself : forall w2, dispatch_group_event event (s, w2) = (Ok tt, (s, w2))).
  { intros w2. cbn [dispatch_group_event event]. unfold typing_indicator.
    rewrite bind_eq. unfold self at 1, gets at 1. cbn [fst].
    rewrite bool_decide_eq_false_2; [reflexivity | tauto]. }
  split; [exact Hrun |]. split; [reflexivity |]. split; [repeat split |].
  split; [reflexivity |]. split.
  - rewrite bind_eq, Hrun. apply Hself.
  - intros s2 w2 Hother. cbn [dispatch_group_event event]. unfold typing_indicator.
    rewrite bind_eq. unfold self at 1, gets at 1. cbn [fst].
    rewrite bool_decide_eq_true_2 by congruence. reflexivity.
Qed.

Lemma handle_typing_no_self_echo_witness :
  exists w',
    handle_typing [("is_typing", JBool true)] (session_of_user_2, empty_world)
    = (Ok tt, (session_of_user_2, w'))
    /\ (handle_typing [("is_typing", JBool true)] ;;;
        dispatch_group_event (Ev_typing_indicator (Some (str 2)) (JBool true)))
         (session_of_user_2, empty_world)
       = (Ok tt, (session_of_user_2, w')).
Proof.
  destruct (handle_typing_no_self_echo [("is_typing", JBool true)] (fun _ => true)
              session_of_user_2 empty_world) as (w' & Hrun & _ & _ & _ & Hecho & _);
    [reflexivity | reflexivity |].
  exists w'. split; [exact Hrun | exact Hecho].
Defined.

(** ** update_last_seen *)

Lemma update_one_count {D} `{EqDecision D} (p : D -> bool) (f : D -> D) (l : list D) :
  (update_one p f l).2
  = match find_one p l with
    | Some d => if decide (f d = d) then 0%nat else 1%nat
    | None => 0%nat
    end.
Proof.
  unfold find_one. induction l as [| x l IH]; cbn; [reflexivity |].
  destruct (p x); cbn; [reflexivity |].
  destruct (update_one p f l) as [l' n]. exact IH.
Qed.

(** X18. [update_user_last_seen_db] never raises and writes only the
    users: when no user has the Django id it answers [False]; otherwise
    it stamps [last_seen] of that user with the current time, so that
    [get_user_by_django_id] then returns the user with that [last_seen],
    and answers [True] unless the stored value already was that time.
    The lookup of every other Django id is as before. *)
Theorem update_last_seen_then_lookup (django_user_id : Z) (w : World) :
  exists found updated w',
    get_user_by_django_id (Some django_user_id) w = (Ok found, w)
    /\ update_user_last_seen_db django_user_id w = (Ok updated, w')
    /\ conversations w' = conversations w
    /\ messages w' = messages w
    /\ notifications w' = notifications w
    /\ get_user_by_django_id (Some django_user_id) w'
       = (Ok (set_last_seen (clock w (ticks w)) <$> found), w')
    /\ updated
       = match found with
         | Some u => negb (bool_decide (Usr.last_seen u = Some (clock w (ticks w))))
         | None => false
         end
    /\ forall other,
         other <> Some django_user_id ->
         get_user_by_django_id other w' = (fst (get_user_by_django_id other w), w').
Proof.
  set (p := fun u : Usr.t => bool_decide (Usr.django_user_id u = Some django_user_id)).
  set (f := set_last_seen (clock w (ticks w))).
  assert (Hsame : find_one p (update_one p f (users w)).1 = f <$> find_one p (users w))
    by (apply find_one_update_one; intros d; reflexivity).
  assert (Hother : forall other, other <> Some django_user_id ->
            find_one (fun u => bool_decide (Usr.django_user_id u = other))
                     (update_one p f (users w)).1
            = find_one (fun u => bool_decide (Usr.django_user_id u = other)) (users w)).
  { intros other Ho. apply find_one_update_one_other; intros d Hd;
      apply bool_decide_eq_true_1 in Hd; apply bool_decide_eq_false_2; cbn; congruence. }
  assert (Hcount : (update_one p f (users w)).2
                   = match find_one p (users w) with
                     | Some u => if decide (f u = u) then 0%nat else 1%nat
                     | None => 0%nat
                     end)
    by apply update_one_count.
  exists (find_one p (users w)).
  destruct (update_one p f (users w)) as [us n] eqn:Hupd. cbn [fst snd] in *.
  exists (Nat.ltb 0 n), (set_users us (set_ticks (S (ticks w)) w)).
  split; [reflexivity |]. split.
  { unfold update_user_last_seen_db, try_except, update_last_seen.
    rewrite bind_eq. unfold utcnow at 1. cbn [users set_ticks]. fold p f.
    now rewrite Hupd. }
  split; [reflexivity |]. split; [reflexivity |]. split; [reflexivity |]. split.
  { unfold get_user_by_django_id, gets. cbn [users set_users]. fold p.
    now rewrite Hsame. }
  split.
  { rewrite Hcount. destruct (find_one p (users w)) as [u |]; [| reflexivity].
    destruct (decide (f u = u)) as [Heq | Hne]; cbn.
    - apply (f_equal Usr.last_seen) in Heq. cbn in Heq.
      now rewrite bool_decide_eq_true_2.
    - rewrite bool_decide_eq_false_2; [reflexivity |].
      intros Hls. apply Hne. destruct u. cbn in *. unfold f, set_last_seen. cbn.
      now rewrite Hls. }
  intros other Ho. unfold get_user_by_django_id, gets. cbn [users set_users fst].
  now rewrite (Hother other Ho).
Qed.

(** ** consumers.py: handle_reconnect *)

Lemma quiet_ret {A} (a : A) : quiet (ret a).
Proof. intros s w. cbn. auto. Qed.

Lemma quiet_self {A} (f : Session -> A) : quiet (self f).
Proof. intros s w. cbn. auto. Qed.

Lemma quiet_liftW {A} (m : M World A) : (forall w, snd (m w) = w) -> quiet (liftW m).
Proof.
  intros Hm s w. unfold liftW. cbn [fst snd]. specialize (Hm w).
  destruct (m w) as [r w']. cbn in *. auto.
Qed.

Lemma quiet_update_self (f : Session -> Session) :
  (forall s, conversation_groups s ⊆ conversation_groups (f s)) -> quiet (update_self f).
Proof. intros Hf s w. cbn. auto. Qed.

Lemma quiet_bind {A B} (m : CM A) (k : A -> CM B) :
  quiet m -> (forall a, quiet (k a)) -> quiet (bind m k).
Proof.
  intros Hm Hk s w. rewrite bind_eq. destruct (Hm s w) as [Hw Hg].
  destruct (m (s, w)) as [[a | e] [s1 w1]]; cbn [fst snd] in *; [| auto].
  subst w1. destruct (Hk a s1 w) as [Hw' Hg']. split; [exact Hw' |].
  etransitivity; eauto.
Qed.

Lemma quiet_try_except {A} (m : CM A) (h : exn -> CM A) :
  quiet m -> (forall e, quiet (h e)) -> quiet (try_except m h).
Proof.
  intros Hm Hh s w. unfold try_except. destruct (Hm s w) as [Hw Hg].
  destruct (m (s, w)) as [[a | e] [s1 w1]]; cbn [fst snd] in *; [auto |].
  subst w1. destruct (Hh e s1 w) as [Hw' Hg']. split; [exact Hw' |].
  etransitivity; eauto.
Qed.

Lemma quiet_for_each {A} (xs : list A) (body : A -> CM unit) :
  (forall x, quiet (body x)) -> quiet (for_each xs body).
Proof.
  intros Hbody. induction xs as [| x xs IH]; cbn [for_each].
  - apply quiet_ret.
  - apply quiet_bind; auto.
Qed.

Lemma quiet_self_group_add (group_name : string) : quiet (self_group_add group_name).
Proof.
  intros s w. unfold self_group_add, self_channel_layer.
  rewrite !bind_eq. unfold liftW, get_channel_layer, gets. cbn.
  destruct (channel_layer w) as [layer |]; cbn; [| auto].
  destruct (layer (Named group_name)); cbn; auto.
Qed.

Lemma quiet_send (frame : Frame) : quiet (send frame).
Proof. apply quiet_update_self. reflexivity. Qed.

Lemma fetch_missed_messages_reads
    (conversation_id : string) (after_timestamp : timestamp_arg) (limit_ : nat) (w : World) :
  snd (fetch_missed_messages conversation_id after_timestamp limit_ w) = w.
Proof.
  unfold fetch_missed_messages, get_messages_after_timestamp, try_except.
  destruct after_timestamp as [t | [t |] |]; try reflexivity;
    rewrite bind_eq; unfold ObjectId; destruct (parse_oid conversation_id); reflexivity.
Qed.

Lemma fetch_user_conversations_reads (user_id : string) (w : World) :
  snd (fetch_user_conversations user_id w) = w.
Proof.
  unfold fetch_user_conversations, get_user_conversations, try_except.
  rewrite bind_eq. unfold ObjectId. destruct (parse_oid user_id); reflexivity.
Qed.

Lemma quiet_replay_missed (conv_id : string) (missed_messages : list Msg.t) :
  quiet (replay_missed conv_id missed_messages).
Proof.
  apply quiet_for_each. intros msg.
  apply quiet_bind; [apply quiet_self | intros sent].
  destruct (bool_decide _); [| apply quiet_ret].
  apply quiet_bind; [apply quiet_send | intros _].
  apply quiet_update_self. reflexivity.
Qed.

Lemma quiet_reconnect_to_conversation (conversation : Conv.t) :
  quiet (reconnect_to_conversation conversation).
Proof.
  unfold reconnect_to_conversation.
  apply quiet_bind; [apply quiet_self | intros groups].
  apply quiet_bind.
  { destruct (bool_decide _); [| apply quiet_ret].
    apply quiet_bind; [apply quiet_self_group_add | intros _].
    apply quiet_update_self. intros s. cbn. set_solver. }
  intros _. apply quiet_bind; [apply quiet_self | intros last_seen].
  apply quiet_bind.
  { destruct last_seen; [apply quiet_ret |].
    destruct (Conv.last_message_timestamp conversation); [apply quiet_ret |].
    apply quiet_bind; [apply quiet_self | intros [user_id |]]; [| apply quiet_ret].
    apply quiet_bind; [apply quiet_liftW; reflexivity | intros [mongo_user |]];
      apply quiet_ret. }
  intros last_seen'. apply quiet_bind.
  - destruct last_seen'; [| apply quiet_ret].
    apply quiet_bind; [apply quiet_liftW, fetch_missed_messages_reads | intros missed].
    apply quiet_replay_missed.
  - intros _. apply quiet_update_self. reflexivity.
Qed.

Lemma quiet_reconnect_to_conversations : quiet reconnect_to_conversations.
Proof.
  unfold reconnect_to_conversations.
  apply quiet_bind; [apply quiet_self | intros a].
  apply quiet_bind; [apply quiet_self | intros u].
  destruct (negb a || negb (opt_truthy u)); [apply quiet_ret |].
  apply quiet_try_except; [| intros _; apply quiet_ret].
  apply quiet_bind; [apply quiet_liftW, fetch_user_conversations_reads | intros cs].
  apply quiet_for_each. intros c. apply quiet_reconnect_to_conversation.
Qed.

(** X19. A [reconnect] request is always answered with [reconnected],
    never with [RECONNECT_FAILED]: [reconnect_to_conversations] swallows
    every error, also a channel layer that is missing or refuses a group.
    Before that frame the session gets only [missed_message] frames; it
    leaves none of its groups, and the world is exactly as before:
    nothing is stored, nothing is sent to a group.  (Writing a frame to
    the socket is taken to succeed.) *)
Theorem handle_reconnect_always_reconnected
    (data : list (string * json)) (s : Session) (w : World) :
  exists s' fs,
    handle_reconnect data (s, w) = (Ok tt, (s', w))
    /\ transport s' = transport s ++ fs ++ [F_reconnected]
    /\ Forall (fun f => is_Some (missed_id f)) fs
    /\ conversation_groups s ⊆ conversation_groups s'.
Proof.
  pose proof (reconnect_to_conversations_returns (s, w)) as Hret.
  destruct (quiet_reconnect_to_conversations s w) as [Hw Hg].
  destruct (replays_reconnect_to_conversations s w) as (fs & Ht & Hfs & _).
  destruct (reconnect_to_conversations (s, w)) as [r [s1 w1]] eqn:Hrun.
  cbn [fst snd] in *. subst r w1.
  exists (set_transport (transport s1 ++ [F_reconnected]) s1), fs.
  split; [| split; [| split; [exact Hfs | exact Hg]]].
  - unfold handle_reconnect, try_except. rewrite bind_eq, Hrun. reflexivity.
  - cbn. now rewrite Ht, app_assoc.
Qed.

(** ** consumers.py: reconnect_to_conversations *)

Lemma steady_ret {A} (a : A) : steady (ret a).
Proof. intros s w. exists a, s. auto. Qed.

Lemma steady_self {A} (f : Session -> A) : steady (self f).
Proof. intros s w. exists (f s), s. auto. Qed.

Lemma steady_liftW {A} (m : M World A) :
  (forall w, exists a, m w = (Ok a, w)) -> steady (liftW m).
Proof.
  intros Hm s w. destruct (Hm w) as [a Ha]. exists a, s.
  unfold liftW. cbn [fst snd]. rewrite Ha. auto.
Qed.

Lemma steady_update_self (f : Session -> Session) :
  (forall s, conversation_groups (f s) = conversation_groups s) -> steady (update_self f).
Proof. intros Hf s w. exists tt, (f s). auto. Qed.

Lemma steady_bind {A B} (m : CM A) (k : A -> CM B) :
  steady m -> (forall a, steady (k a)) -> steady (bind m k).
Proof.
  intros Hm Hk s w. rewrite bind_eq. destruct (Hm s w) as (a & s1 & -> & Hg1).
  destruct (Hk a s1 w) as (b & s2 & -> & Hg2). exists b, s2. split; [reflexivity | congruence].
Qed.

Lemma steady_for_each {A} (xs : list A) (body : A -> CM unit) :
  (forall x, steady (body x)) -> steady (for_each xs body).
Proof.
  intros Hbody. induction xs as [| x xs IH]; cbn [for_each].
  - apply steady_ret.
  - apply steady_bind; auto.
Qed.

Lemma steady_replay_missed (conv_id : string) (missed_messages : list Msg.t) :
  steady (replay_missed conv_id missed_messages).
Proof.
  apply steady_for_each. intros msg.
  apply steady_bind; [apply steady_self | intros sent].
  destruct (bool_decide _); [| apply steady_ret].
  apply steady_bind; [apply steady_update_self; reflexivity | intros _].
  apply steady_update_self. reflexivity.
Qed.

Lemma fetch_missed_messages_returns
    (conversation_id : string) (after_timestamp : timestamp_arg) (limit_ : nat) (w : World) :
  exists l, fetch_missed_messages conversation_id after_timestamp limit_ w = (Ok l, w).
Proof.
  unfold fetch_missed_messages, get_messages_after_timestamp, try_except.
  destruct after_timestamp as [t | [t |] |]; try (eexists; reflexivity);
    rewrite bind_eq; unfold ObjectId; destruct (parse_oid conversation_id);
    eexists; reflexivity.
Qed.

(** One turn of the loop of [reconnect_to_conversations], when the
    channel layer serves the conversation's group. *)
Lemma reconnect_to_conversation_joins (conversation : Conv.t)
    (layer : group_target -> bool) (s : Session) (w : World) :
  channel_layer w = Some layer ->
  layer (Named (chat_ (str (Conv._id conversation)))) = true ->
  exists s',
    reconnect_to_conversation conversation (s, w) = (Ok tt, (s', w))
    /\ conversation_groups s'
       = conversation_groups s ∪ {[chat_ (str (Conv._id conversation))]}.
Proof.
  intros Hl Hg. unfold reconnect_to_conversation.
  set (g := chat_ (str (Conv._id conversation))) in *.
  rewrite bind_eq. unfold self at 1, gets at 1. cbn [fst].
  match goal with |- context [bind ?j ?k] =>
    assert (Hjoin : exists s1, j (s, w) = (Ok tt, (s1, w))
                               /\ conversation_groups s1 = conversation_groups s ∪ {[g]});
    [| destruct Hjoin as (s1 & Hjoin & Hg1);
       assert (Hrest : steady (k tt)); [| rewrite bind_eq, Hjoin;
         destruct (Hrest s1 w) as ([] & s2 & -> & Hg2); exists s2;
         split; [reflexivity | congruence]]]
  end.
  - destruct (decide (g ∉ conversation_groups s)) as [Hnew | Hold].
    + rewrite (bool_decide_eq_true_2 _ Hnew). eexists. split.
      * rewrite bind_eq. unfold self_group_add. rewrite bind_eq.
        unfold self_channel_layer. rewrite bind_eq.
        unfold liftW at 1, get_channel_layer, gets. cbn [fst snd]. rewrite Hl.
        unfold ret at 1. rewrite Hg. reflexivity.
      * reflexivity.
    + rewrite (bool_decide_eq_false_2 _ Hold). exists s. split; [reflexivity |].
      apply dec_stable in Hold. set_solver.
  - apply steady_bind; [apply steady_self | intros last_seen].
    apply steady_bind.
    { destruct last_seen; [apply steady_ret |].
      destruct (Conv.last_message_timestamp conversation); [apply steady_ret |].
      apply steady_bind; [apply steady_self | intros [user_id |]]; [| apply steady_ret].
      apply steady_bind; [| intros [mongo_user |]; apply steady_ret].
      apply steady_liftW. intros w0. eexists. reflexivity. }
    intros last_seen'. apply steady_bind.
    + destruct last_seen'; [| apply steady_ret].
      apply steady_bind; [apply steady_liftW, fetch_missed_messages_returns | intros missed].
      apply steady_replay_missed.
    + intros _. apply steady_update_self. reflexivity.
Qed.

Lemma reconnect_loop_joins (cs : list Conv.t) (layer : group_target -> bool)
    (s : Session) (w : World) :
  channel_layer w = Some layer ->
  Forall (fun c => layer (Named (chat_ (str (Conv._id c)))) = true) cs ->
  exists s',
    for_each cs reconnect_to_conversation (s, w) = (Ok tt, (s', w))
    /\ conversation_groups s'
       = conversation_groups s ∪ list_to_set ((fun c => chat_ (str (Conv._id c))) <$> cs).
Proof.
  intros Hl Hcs. revert s. induction Hcs as [| c cs Hc _ IH]; intros s.
  - exists s. split; [reflexivity |]. cbn. set_solver.
  - destruct (reconnect_to_conversation_joins c layer s w Hl Hc) as (s1 & Hrun & Hg1).
    destruct (IH s1) as (s' & Hrest & Hg'). exists s'. split.
    + cbn [for_each]. now rewrite bind_eq, Hrun.
    + rewrite Hg', Hg1. cbn. set_solver.
Qed.

(** X20. After [reconnect_to_conversations], for an authenticated session
    whose user id is an ObjectId and a channel layer that serves the
    groups of the user's conversations, the session's groups are those
    it had together with the group of every stored conversation the user
    takes part in, and the world is as before. *)
Theorem reconnect_to_conversations_joins_all
    (u : string) (uo : oid) (layer : group_target -> bool) (s : Session) (w : World) :
  authenticated s = true ->
  mongo_user_id s = Some u ->
  parse_oid u = Some uo ->
  channel_layer w = Some layer ->
  (forall c, c ∈ conversations w -> uo ∈ Conv.participants c ->
             layer (Named (chat_ (str (Conv._id c)))) = true) ->
  exists s',
    reconnect_to_conversations (s, w) = (Ok tt, (s', w))
    /\ conversation_groups s'
       = conversation_groups s
         ∪ list_to_set ((fun c => chat_ (str (Conv._id c)))
                          <$> List.filter (fun c => bool_decide (uo ∈ Conv.participants c))
                                          (conversations w))
    /\ forall c, c ∈ conversations w -> uo ∈ Conv.participants c ->
                 chat_ (str (Conv._id c)) ∈ conversation_groups s'.
Proof.
  intros Hauth Hu Huo Hl Hserved.
  set (mine := List.filter (fun c => bool_decide (uo ∈ Conv.participants c))
                           (conversations w)).
  set (cs := sort_desc Conv.updated_at mine).
  assert (Hperm : cs ≡ₚ mine) by apply sort_asc_perm.
  assert (Hcs : Forall (fun c => layer (Named (chat_ (str (Conv._id c)))) = true) cs).
  { apply Forall_forall. intros c Hc. rewrite Hperm in Hc.
    apply list_elem_of_In, filter_In in Hc as [Hin Hpart].
    apply Hserved; [now apply list_elem_of_In | now apply bool_decide_eq_true_1 in Hpart]. }
  destruct (reconnect_loop_joins cs layer s w Hl Hcs) as (s' & Hrun & Hg).
  assert (Hgroups : conversation_groups s'
                    = conversation_groups s
                      ∪ list_to_set ((fun c => chat_ (str (Conv._id c))) <$> mine)).
  { rewrite Hg. f_equal. apply list_to_set_perm_L. now rewrite Hperm. }
  exists s'. split; [| split; [exact Hgroups |]].
  - unfold reconnect_to_conversations.
    rewrite bind_eq. unfold self at 1, gets at 1. cbn [fst]. rewrite Hauth.
    rewrite bind_eq. unfold self at 1, gets at 1. cbn [fst]. rewrite Hu.
    cbn [negb orb opt_truthy]. rewrite (parse_oid_truthy _ _ Huo). cbn [negb].
    unfold try_except. rewrite bind_eq. unfold liftW at 1. cbn [fst snd default from_option id].
    unfold fetch_user_conversations.
    rewrite (try_except_ok _ _ _ _ _ (get_user_conversations_eq u uo w Huo)).
    fold mine cs. now rewrite Hrun.
  - intros c Hin Hpart. rewrite Hgroups. apply elem_of_union_r, elem_of_list_to_set.
    apply list_elem_of_fmap. exists c. split; [reflexivity |].
    apply list_elem_of_In, filter_In. split; [now apply list_elem_of_In |].
    now apply bool_decide_eq_true_2.
Qed.

Lemma reconnect_to_conversations_joins_all_witness :
  exists s',
    reconnect_to_conversations (set_conversation_groups ∅ session_of_user_2, world_two_messages)
    = (Ok tt, (s', world_two_messages))
    /\ chat_ (str 10) ∈ conversation_groups s'.
Proof.
  destruct (reconnect_to_conversations_joins_all (str 2) 2 (fun _ => true)
              (set_conversation_groups ∅ session_of_user_2) world_two_messages)
    as (s' & Hrun & _ & Hall);
    [reflexivity | reflexivity | reflexivity | reflexivity | reflexivity |].
  exists s'. split; [exact Hrun |].
  apply (Hall (Conv.mk 10 [1%N; 2%N] "second" (Some 101)
                 (<[str 2 := 2]> (<[str 1 := 0]> ∅)) 100 101)).
  - apply list_elem_of_here.
  - cbn. set_solver.
Defined.

(** ** consumers.py: handle_read_receipt without message ids *)

(** X21. A [read_receipt] event without message ids, for a conversation
    id and a session user id that are ObjectIds: every unread message of
    the conversation that the user did not send is marked read, the
    number marked goes to the conversation's group in a [read_receipt]
    event and to the session in [read_receipt_sent] (an
    [INTERNAL_ERROR] instead when the channel layer refuses the event,
    the marking being kept).  Nothing requires the user to take part in
    the conversation: when a message was marked, the conversation gets
    a counter of 0 under the user's id also for a user who is no
    participant. *)
Theorem handle_read_receipt_marks_conversation
    (data : list (string * json)) (conv_id u : string) (c uo : oid)
    (layer : group_target -> bool) (s : Session) (w : World) :
  py_or (dict_get "conversation_id" data) (opt_json (conversation_id s))
    = JStr conv_id ->
  truthy (dict_get_default "message_ids" (JList []) data) = false ->
  parse_oid conv_id = Some c ->
  mongo_user_id s = Some u ->
  parse_oid u = Some uo ->
  channel_layer w = Some layer ->
  exists w',
    let count := length (List.filter (unread_for c uo) (messages w)) in
    let group := Named (chat_ conv_id) in
    handle_read_receipt data (s, w)
    = (Ok tt,
       (set_transport
          (transport s ++
             [if layer group then F_read_receipt_sent count
              else F_error "INTERNAL_ERROR" "Failed to process read receipt" []]) s,
        w'))
    /\ trace w'
       = trace w ++ [GroupSend group
                       (Ev_read_receipt (Some u) (JStr conv_id) (Z.of_nat count))
                       (layer group)]
    /\ messages w'
       = (fun m => if unread_for c uo m then Msg.set_read (clock w (ticks w)) m else m)
           <$> messages w
    /\ (forall m, m ∈ messages w' -> unread_for c uo m = false)
    /\ find_one (fun x => bool_decide (Conv._id x = c)) (conversations w')
       = (fun conv => if Nat.ltb 0 count
                      then Conv.set_unread (<[u := 0]> (Conv.unread_counts conv)) conv
                      else conv)
         <$> find_one (fun x => bool_decide (Conv._id x = c)) (conversations w).
Proof.
  intros Hcid Hids Hc Hu Huo Hl. cbv zeta.
  set (count := length (List.filter (unread_for c uo) (messages w))).
  set (group := Named (chat_ conv_id)).
  pose proof (mark_conversation_messages_as_read_run conv_id u c uo w Hc Huo) as Hmark.
  cbv zeta in Hmark. fold count in Hmark.
  match type of Hmark with _ = (_, ?x) => set (w1 := x) in * end.
  exists (set_trace (trace w1 ++ [GroupSend group
            (Ev_read_receipt (Some u) (JStr conv_id) (Z.of_nat count))
            (layer group)]) w1).
  split; [| split; [reflexivity | split; [reflexivity | split]]].
  - unfold handle_read_receipt, try_except.
    rewrite bind_eq. unfold self at 1, gets at 1. cbn [fst]. rewrite Hcid.
    cbn [truthy]. rewrite (parse_oid_truthy _ _ Hc). cbn [negb]. rewrite Hids.
    rewrite bind_eq. unfold self at 1, gets at 1. cbn [fst]. rewrite Hu.
    rewrite bind_eq. unfold liftW at 1. cbn [fst snd].
    unfold mark_messages_read at 1, try_except. cbn [truthy]. rewrite Hmark.
    rewrite bind_eq. cbn [chat_target]. fold group.
    assert (Hl1 : channel_layer w1 = Some layer) by exact Hl.
    rewrite (self_group_send_run group _ layer s w1 Hl1).
    now destruct (layer group).
  - intros m Hm. cbn [messages set_trace] in Hm. subst w1.
    cbn [messages set_conversations set_messages] in Hm.
    apply list_elem_of_fmap in Hm as (m0 & -> & _).
    destruct (unread_for c uo m0) eqn:H0; [| exact H0].
    unfold unread_for. cbn. now rewrite andb_false_r.
  - subst w1. cbn [conversations set_trace set_conversations].
    destruct (Nat.ltb 0 count).
    + apply find_one_update_one. intros d. reflexivity.
    + destruct (find_one _ (conversations w)); reflexivity.
Qed.

Lemma handle_read_receipt_marks_conversation_witness :
  let s := mkSession true (Some 3) (Some (str 3)) None None ∅ ∅ ∅ [] in
  exists w',
    handle_read_receipt [("conversation_id", JStr (str 10))] (s, world_two_messages)
    = (Ok tt, (set_transport [F_read_receipt_sent 2] s, w'))
    /\ find_one (fun x => bool_decide (Conv._id x = 10%N)) (conversations w')
       = Some (Conv.mk 10 [1%N; 2%N] "second" (Some 101)
                 (<[str 3 := 0]> (<[str 2 := 2]> (<[str 1 := 0]> ∅))) 100 101).
Proof.
  intros s.
  destruct (handle_read_receipt_marks_conversation [("conversation_id", JStr (str 10))]
              (str 10) (str 3) 10 3 (fun _ => true) s world_two_messages)
    as (w' & Hrun & _ & _ & _ & Hconv);
    [reflexivity | reflexivity | reflexivity | reflexivity | reflexivity | reflexivity |].
  exists w'. split; [exact Hrun | exact Hconv].
Defined.

(** ** REST views *)

Lemma invalid_id_str (s : string) (w : World) :
  invalid_id (JStr s) w = (Ok (negb (bool_decide (is_Some (parse_oid s)))), w).
Proof.
  unfold invalid_id, try_except_InvalidId. rewrite bind_eq. cbn [ObjectId_of].
  unfold ObjectId. destruct (parse_oid s) as [o |] eqn:Ho.
  - rewrite bool_decide_eq_true_2 by eauto. reflexivity.
  - rewrite bool_decide_eq_false_2 by (intros [x Hx]; discriminate). reflexivity.
Qed.

Lemma invalid_id_ok (s : string) (o : oid) (w : World) :
  parse_oid s = Some o -> invalid_id (JStr s) w = (Ok false, w).
Proof.
  intros Ho. rewrite invalid_id_str, bool_decide_eq_true_2 by eauto. reflexivity.
Qed.

Lemma invalid_id_bad (s : string) (w : World) :
  parse_oid s = None -> invalid_id (JStr s) w = (Ok true, w).
Proof.
  intros Ho. rewrite invalid_id_str, bool_decide_eq_false_2; [reflexivity |].
  intros [x Hx]. congruence.
Qed.

(** X22. [delete_notification_view], in a store whose notifications have
    distinct ids, always answers, with 200, 400, 403 or 404 and never
    500.  It answers 200 only for a stored notification whose [user_id]
    is, as a string, the id of the caller's user document; that
    notification is then gone and every other one stays.  With any other
    answer the store is as before; a stored notification of another user
    gives 403. *)
Theorem delete_notification_view_owner_only
    (request_user_id : Z) (notification_id : string) (w : World) :
  NoDup (Notif._id <$> notifications w) ->
  exists response w',
    delete_notification_view request_user_id notification_id w = (Ok response, w')
    /\ status response ∈ [HTTP_200_OK; HTTP_400_BAD_REQUEST; HTTP_403_FORBIDDEN;
                          HTTP_404_NOT_FOUND]
    /\ (status response <> HTTP_200_OK -> w' = w)
    /\ (status response = HTTP_200_OK ->
        exists mongo_user n,
          get_user_by_django_id (Some request_user_id) w = (Ok (Some mongo_user), w)
          /\ get_notification_by_id notification_id w = (Ok (Some n), w)
          /\ str (Notif.user_id n) = str (Usr._id mongo_user)
          /\ get_notification_by_id notification_id w' = (Ok None, w')
          /\ (forall x, x ∈ notifications w' <-> x ∈ notifications w /\ x <> n)
          /\ same_chat w w')
    /\ (forall mongo_user n,
          get_user_by_django_id (Some request_user_id) w = (Ok (Some mongo_user), w) ->
          get_notification_by_id notification_id w = (Ok (Some n), w) ->
          str (Notif.user_id n) <> str (Usr._id mongo_user) ->
          status response = HTTP_403_FORBIDDEN /\ n ∈ notifications w').
Proof.
  intros Hnodup. unfold delete_notification_view, try_except.
  rewrite bind_eq.
  destruct (parse_oid notification_id) as [o |] eqn:Ho.
  - rewrite (invalid_id_ok _ _ _ Ho). rewrite bind_eq.
    unfold get_user_by_django_id, gets.
    destruct (find_one _ (users w)) as [mu |] eqn:Hmu.
    + rewrite bind_eq, !(get_notification_by_id_eq notification_id w), Ho.
      destruct (find_one (fun x => bool_decide (Notif._id x = o)) (notifications w))
        as [n |] eqn:Hn.
      * destruct (String.eqb (str (Notif.user_id n)) (str (Usr._id mu))) eqn:Hown;
          cbn [negb].
        -- apply String.eqb_eq in Hown.
           destruct (delete_notification_found _ _ _ _ Hnodup Ho Hn)
             as (w' & Hdel & Hgone & Hrest & Hsame & _).
           rewrite bind_eq, Hdel. eexists _, w'. split; [reflexivity |].
           cbn [status]. split; [set_solver |]. split; [congruence |]. split.
           ++ intros _. exists mu, n. auto 10.
           ++ intros mu' n' [= <-] [= <-] Hne. contradiction.
        -- apply String.eqb_neq in Hown. eexists _, w. split; [reflexivity |].
           cbn [status]. split; [set_solver |]. split; [reflexivity |]. split.
           ++ discriminate.
           ++ intros mu' n' _ [= <-] _. split; [reflexivity |].
              apply find_some in Hn as [Hin _]. now apply list_elem_of_In.
      * eexists _, w. split; [reflexivity |]. cbn [status].
        split; [set_solver |]. split; [reflexivity |]. split; [discriminate |].
        intros mu' n' _. discriminate.
    + eexists _, w. split; [reflexivity |]. cbn [status].
      split; [set_solver |]. split; [reflexivity |]. split; [discriminate |].
      intros mu' n'. discriminate.
  - rewrite (invalid_id_bad _ _ Ho). eexists _, w. split; [reflexivity |]. cbn [status].
    split; [set_solver |]. split; [reflexivity |]. split; [discriminate |].
    intros mu' n' _. rewrite (get_notification_by_id_eq notification_id w), Ho. discriminate.
Qed.

Lemma delete_notification_view_owner_only_witness :
  let w := mkWorld [] [] [Notif.mk 7 2 "new_message" "t" "b" None false 5]
                   [Usr.mk 1 (Some 41) None None; Usr.mk 2 (Some 42) None None]
                   8 (fun n => Z.of_nat n) 0 None [] in
  delete_notification_view 41 (str 7) w
    = (Ok (mkResponse (B_error "Not authorized to delete this notification" [])
                      HTTP_403_FORBIDDEN), w)
  /\ exists response w',
       delete_notification_view 42 (str 7) w = (Ok response, w')
       /\ status response ∈ [HTTP_200_OK; HTTP_400_BAD_REQUEST; HTTP_403_FORBIDDEN;
                             HTTP_404_NOT_FOUND].
Proof.
  intros w. split; [reflexivity |].
  destruct (delete_notification_view_owner_only 42 (str 7) w)
    as (response & w' & Hrun & Hstatus & _).
  - vm_compute. apply NoDup_singleton.
  - exists response, w'. split; [exact Hrun | exact Hstatus].
Defined.

Lemma get_or_create_conversation_same (A B : string) (a : oid) (w : World) :
  parse_oid A = Some a -> parse_oid B = Some a ->
  get_or_create_conversation [A; B] w
  = (Raise (ValueError "participants must be unique" []), w).
Proof.
  intros HA HB. unfold get_or_create_conversation. cbn [length Nat.eqb negb].
  rewrite bind_eq. cbn [participant_oids_of].
  rewrite bind_eq, (try_except_ok _ _ _ _ _ (ObjectId_ok A a w HA)).
  destruct (decide (a ∈ [])) as [Hin | _]; [now apply elem_of_nil in Hin |].
  cbn [app]. rewrite bind_eq, (try_except_ok _ _ _ _ _ (ObjectId_ok B a w HB)).
  destruct (decide (a ∈ [a])) as [_ | Hnot]; [reflexivity |].
  destruct Hnot. apply list_elem_of_here.
Qed.

(** X23. [create_conversation_view] for a caller with a user document and
    a recipient id that is a string and not empty.  A string that is not
    an ObjectId, and the caller's own id as [str] spells it, are refused
    with 400 and nothing is written.  The caller's own id in another
    spelling (upper case) passes both checks, makes
    [get_or_create_conversation] raise, and is answered with 500.  Any
    other ObjectId gives 200 with the conversation of the two users,
    found or created by [get_or_create_conversation]. *)
Theorem create_conversation_view_outcomes
    (request_user_id : Z) (recipient_id : string) (mongo_user : Usr.t) (w : World) :
  get_user_by_django_id (Some request_user_id) w = (Ok (Some mongo_user), w) ->
  (Usr._id mongo_user < 2 ^ 96)%N ->
  recipient_id <> "" ->
  exists response w',
    create_conversation_view request_user_id (JStr recipient_id) w = (Ok response, w')
    /\ match parse_oid recipient_id with
       | None =>
           response = mkResponse (B_error "Invalid recipient_id format" [])
                                 HTTP_400_BAD_REQUEST
           /\ w' = w
       | Some b =>
           if String.eqb (str (Usr._id mongo_user)) recipient_id
           then response = mkResponse (B_error "Cannot create conversation with yourself" [])
                                      HTTP_400_BAD_REQUEST
                /\ w' = w
           else if decide (b = Usr._id mongo_user)
           then response = mkResponse (B_error "Internal server error" [])
                                      HTTP_500_INTERNAL_SERVER_ERROR
                /\ w' = w
           else exists c,
                  response = mkResponse (B_conversation c) HTTP_200_OK
                  /\ get_or_create_conversation [str (Usr._id mongo_user); recipient_id] w
                     = (Ok c, w')
                  /\ Conv.participants c = sort_asc Z.of_N [Usr._id mongo_user; b]
                  /\ c ∈ conversations w'
       end.
Proof.
  intros Huser Hbound Hr.
  assert (Htruthy : truthy (JStr recipient_id) = true).
  { cbn. unfold str_truthy. apply negb_true_iff, String.eqb_neq. exact Hr. }
  pose proof (parse_oid_str _ Hbound) as Hown.
  unfold create_conversation_view, try_except.
  rewrite bind_eq, Huser. rewrite Htruthy. cbn [negb].
  rewrite bind_eq, invalid_id_str.
  destruct (parse_oid recipient_id) as [b |] eqn:Hb.
  - rewrite bool_decide_eq_true_2 by eauto. cbn [negb].
    destruct (String.eqb (str (Usr._id mongo_user)) recipient_id) eqn:Hsame.
    + eexists _, w. split; [reflexivity |]. auto.
    + destruct (decide (b = Usr._id mongo_user)) as [-> | Hother].
      * rewrite bind_eq, (get_or_create_conversation_same _ _ _ w Hown Hb).
        eexists _, w. split; [reflexivity |]. auto.
      * destruct (get_or_create_conversation_pair_stored (str (Usr._id mongo_user))
                    recipient_id (Usr._id mongo_user) b w Hown Hb)
          as (c & w' & Hrun & Hpart & Hin); [congruence |].
        rewrite bind_eq, Hrun. eexists _, w'. split; [reflexivity |].
        exists c. auto.
  - rewrite bool_decide_eq_false_2 by (intros [x Hx]; discriminate). cbn [negb].
    eexists _, w. split; [reflexivity |]. auto.
Qed.

Lemma create_conversation_view_outcomes_witness :
  let w := mkWorld [] [] [] [Usr.mk 10 (Some 41) None None] 20 (fun n => Z.of_nat n) 0 None []
  in
  exists response w',
    create_conversation_view 41 (JStr "00000000000000000000000A") w = (Ok response, w')
    /\ response = mkResponse (B_error "Internal server error" [])
                             HTTP_500_INTERNAL_SERVER_ERROR
    /\ w' = w.
Proof.
  intros w.
  destruct (create_conversation_view_outcomes 41 "00000000000000000000000A"
              (Usr.mk 10 (Some 41) None None) w)
    as (response & w' & Hrun & Hcase); [reflexivity | reflexivity | discriminate |].
  exists response, w'. split; [exact Hrun |]. exact Hcase.
Defined.

(** ** message_views.py *)

Lemma delete_message_not_sender_run
    (message_id sender_id : string) (mid so : oid) (m : Msg.t) (w : World) :
  parse_oid message_id = Some mid ->
  find_one (fun x => bool_decide (Msg._id x = mid)) (messages w) = Some m ->
  parse_oid sender_id = Some so ->
  so <> Msg.sender_id m ->
  delete_message message_id sender_id w
  = (Raise (ValueError "Only the message sender can delete the message" []), w).
Proof.
  intros Hmid Hfind Hso Hne. unfold delete_message.
  rewrite bind_eq. unfold try_except at 1.
  rewrite bind_eq, (ObjectId_ok _ _ _ Hmid), bind_eq, (ObjectId_ok _ _ _ Hso).
  unfold ret at 1. cbn iota beta. rewrite bind_eq. unfold gets at 1. rewrite Hfind.
  rewrite bool_decide_eq_false_2 by congruence. reflexivity.
Qed.

(** X24. A caller who is not the sender of a stored message is refused by
    both message views, with the error of the database function and
    without any write, but not with the same status:
    [delete_message_view] answers 403 and [update_message_view], for a
    text that is not blank, answers 400. *)
Theorem message_views_refuse_other_users
    (request_user_id : Z) (message_id text : string) (mid : oid)
    (mongo_user : Usr.t) (m : Msg.t) (w : World) :
  get_user_by_django_id (Some request_user_id) w = (Ok (Some mongo_user), w) ->
  (Usr._id mongo_user < 2 ^ 96)%N ->
  parse_oid message_id = Some mid ->
  find_one (fun x => bool_decide (Msg._id x = mid)) (messages w) = Some m ->
  Usr._id mongo_user <> Msg.sender_id m ->
  str_truthy (strip text) = true ->
  delete_message_view request_user_id message_id w
    = (Ok (mkResponse (B_error "Only the message sender can delete the message" [])
                      HTTP_403_FORBIDDEN), w)
  /\ update_message_view request_user_id message_id (JStr text) w
     = (Ok (mkResponse (B_error "Only the message sender can update the message" [])
                       HTTP_400_BAD_REQUEST), w).
Proof.
  intros Huser Hbound Hmid Hfind Hne Htext.
  pose proof (parse_oid_str _ Hbound) as Hown. split.
  - unfold delete_message_view, try_except.
    rewrite bind_eq, (invalid_id_ok _ _ _ Hmid), bind_eq, Huser.
    rewrite bind_eq, (get_message_by_id_found _ _ _ Hmid), Hfind.
    unfold try_except_ValueError. rewrite bind_eq.
    rewrite (delete_message_not_sender_run _ _ _ _ _ _ Hmid Hfind Hown Hne). reflexivity.
  - unfold update_message_view, try_except.
    rewrite bind_eq, (invalid_id_ok _ _ _ Hmid), bind_eq, Huser.
    cbn [truthy]. rewrite (strip_truthy _ Htext). cbn [negb].
    unfold try_except_ValueError. rewrite bind_eq.
    destruct (update_message_not_sender_run message_id (str (Usr._id mongo_user)) text
                mid m w Hmid Hfind Htext) as (msg & Hrun & Hmsg); [congruence |].
    rewrite Hrun, Hmsg by eauto. reflexivity.
Qed.

Lemma message_views_refuse_other_users_witness :
  let w := mkWorld (conversations world_one_message) (messages world_one_message) []
                   [Usr.mk 2 (Some 42) None None] 21 (fun n => Z.of_nat n) 0 None [] in
  delete_message_view 42 (str 20) w
    = (Ok (mkResponse (B_error "Only the message sender can delete the message" [])
                      HTTP_403_FORBIDDEN), w)
  /\ update_message_view 42 (str 20) (JStr "edited") w
     = (Ok (mkResponse (B_error "Only the message sender can update the message" [])
                       HTTP_400_BAD_REQUEST), w).
Proof.
  intros w.
  apply (message_views_refuse_other_users 42 (str 20) "edited" 20
           (Usr.mk 2 (Some 42) None None)
           (Msg.mk 20 10 1 "hi" [] 100 false None false None false None) w);
    [reflexivity | reflexivity | reflexivity | reflexivity | discriminate | reflexivity].
Defined.

(** *** What the message views never do *)

Lemma silent_ret {A} (a : A) : silent (ret a).
Proof. intros w. cbn. auto. Qed.

Lemma silent_raise {A} (e : exn) : silent (@raise World A e).
Proof. intros w. cbn. auto. Qed.

Lemma silent_gets {A} (f : World -> A) : silent (gets f).
Proof. intros w. cbn. auto. Qed.

Lemma silent_ObjectId (s : string) : silent (@ObjectId World s).
Proof. intros w. unfold ObjectId. destruct (parse_oid s); cbn; auto. Qed.

Lemma silent_utcnow : silent utcnow.
Proof. intros w. cbn. auto. Qed.

Lemma silent_bind {A B} (m : M World A) (k : A -> M World B) :
  silent m -> (forall a, silent (k a)) -> silent (bind m k).
Proof.
  intros Hm Hk w. rewrite bind_eq. destruct (Hm w) as (H1 & H2 & H3 & H4).
  destruct (m w) as [[a | e] w1]; cbn [snd] in *; [| auto].
  destruct (Hk a w1) as (K1 & K2 & K3 & K4). repeat split; congruence.
Qed.

Lemma silent_try_except {A} (m : M World A) (h : exn -> M World A) :
  silent m -> (forall e, silent (h e)) -> silent (try_except m h).
Proof.
  intros Hm Hh w. unfold try_except. destruct (Hm w) as (H1 & H2 & H3 & H4).
  destruct (m w) as [[a | e] w1]; cbn [snd] in *; [auto |].
  destruct (Hh e w1) as (K1 & K2 & K3 & K4). repeat split; congruence.
Qed.

Lemma silent_try_except_ValueError {A} (m : M World A)
    (h : string -> list string -> M World A) :
  silent m -> (forall msg args, silent (h msg args)) -> silent (try_except_ValueError m h).
Proof.
  intros Hm Hh w. unfold try_except_ValueError. destruct (Hm w) as (H1 & H2 & H3 & H4).
  destruct (m w) as [[a | [msg args | | | |]] w1]; cbn [snd] in *; auto.
  destruct (Hh msg args w1) as (K1 & K2 & K3 & K4). repeat split; congruence.
Qed.

Lemma silent_try_except_InvalidId {A} (m h : M World A) :
  silent m -> silent h -> silent (try_except_InvalidId m h).
Proof.
  intros Hm Hh w. unfold try_except_InvalidId. destruct (Hm w) as (H1 & H2 & H3 & H4).
  destruct (m w) as [[a | [msg args | | | |]] w1]; cbn [snd] in *; auto.
  destruct (Hh w1) as (K1 & K2 & K3 & K4). repeat split; congruence.
Qed.

Lemma silent_update_messages {A} (p : Msg.t -> bool) (f : Msg.t -> Msg.t) (g : nat -> A) :
  silent (fun w => let '(ms, modified_count) := update_one p f (messages w) in
                   (Ok (g modified_count), set_messages ms w)).
Proof. intros w. destruct (update_one p f (messages w)). cbn. auto. Qed.

Lemma silent_update_conversations {A} (p : Conv.t -> bool) (f : Conv.t -> Conv.t)
    (g : nat -> A) :
  silent (fun w => let '(cs, modified_count) := update_one p f (conversations w) in
                   (Ok (g modified_count), set_conversations cs w)).
Proof. intros w. destruct (update_one p f (conversations w)). cbn. auto. Qed.

Lemma silent_new_oid : silent new_oid.
Proof. intros w. cbn. auto. Qed.

Lemma silent_get_conversation_by_id (conversation_id : string) :
  silent (get_conversation_by_id conversation_id).
Proof.
  apply silent_try_except; [| intros _; apply silent_ret].
  apply silent_bind; [apply silent_ObjectId | intros o; apply silent_gets].
Qed.

Lemma silent_get_messages_by_conversation (conversation_id : string) (n k : nat) :
  silent (get_messages_by_conversation conversation_id n k).
Proof.
  apply silent_try_except; [| intros _; apply silent_ret].
  apply silent_bind; [apply silent_ObjectId | intros o; apply silent_gets].
Qed.

Lemma silent_get_message_by_id (message_id : string) :
  silent (get_message_by_id message_id).
Proof.
  apply silent_try_except; [| intros _; apply silent_ret].
  apply silent_bind; [apply silent_ObjectId | intros o; apply silent_gets].
Qed.

Lemma silent_update_conversation_last_message
    (conversation_id text : string) (ts : option datetime) :
  silent (update_conversation_last_message conversation_id text ts).
Proof.
  apply silent_bind; [apply silent_ObjectId | intros o].
  apply silent_bind; [apply silent_utcnow | intros now].
  apply (silent_update_conversations _ _ (Nat.ltb 0)).
Qed.

Lemma silent_ids (message_id sender_id : string) :
  silent (try_except
            (message_oid <- ObjectId message_id ;;
             sender_oid <- ObjectId sender_id ;;
             ret (message_oid, sender_oid))
            (fun _ => raise (ValueError "Invalid message_id or sender_id format" []))).
Proof.
  apply silent_try_except; [| intros _; apply silent_raise].
  apply silent_bind; [apply silent_ObjectId | intros a].
  apply silent_bind; [apply silent_ObjectId | intros b; apply silent_ret].
Qed.

Lemma silent_update_message (message_id sender_id new_text : string) :
  silent (update_message message_id sender_id new_text).
Proof.
  unfold update_message.
  destruct (_ || _); [apply silent_raise |].
  destruct (Nat.ltb _ 1); [apply silent_raise |].
  apply silent_bind; [apply silent_ids | intros [message_oid sender_oid]].
  apply silent_bind; [apply silent_gets | intros [message |]]; [| apply silent_ret].
  destruct (negb _); [apply silent_raise |].
  apply silent_bind; [apply silent_utcnow | intros now].
  apply silent_bind; [apply (silent_update_messages _ _ (fun n => n)) | intros n].
  destruct (Nat.ltb 0 n); [| apply silent_ret].
  apply silent_bind; [apply silent_gets | intros updated].
  apply silent_bind; [apply silent_get_conversation_by_id | intros [conv |]];
    (apply silent_bind; [| intros _; apply silent_ret]); [| apply silent_ret].
  destruct (bool_decide _); [| apply silent_ret].
  apply silent_bind; [apply silent_update_conversation_last_message | intros _].
  apply silent_ret.
Qed.

Lemma silent_delete_message (message_id sender_id : string) :
  silent (delete_message message_id sender_id).
Proof.
  unfold delete_message.
  apply silent_bind; [apply silent_ids | intros [message_oid sender_oid]].
  apply silent_bind; [apply silent_gets | intros [message |]]; [| apply silent_ret].
  destruct (negb _); [apply silent_raise |].
  apply silent_bind; [apply silent_utcnow | intros now].
  apply silent_bind; [apply (silent_update_messages _ _ (fun n => n)) | intros n].
  destruct (Nat.ltb 0 n); [| apply silent_ret].
  apply silent_bind; [apply silent_get_conversation_by_id | intros [conv |]];
    (apply silent_bind; [| intros _; apply silent_ret]); [| apply silent_ret].
  destruct (bool_decide _); [| apply silent_ret].
  apply silent_bind; [apply silent_get_messages_by_conversation | intros [| last_msg rest]].
  - apply silent_bind; [apply silent_update_conversation_last_message | intros _].
    apply silent_ret.
  - destruct (negb _);
      (apply silent_bind; [apply silent_update_conversation_last_message | intros _]);
      apply silent_ret.
Qed.

Lemma silent_invalid_id (x : json) : silent (invalid_id x).
Proof.
  apply silent_try_except_InvalidId; [| apply silent_ret].
  apply silent_bind; [| intros _; apply silent_ret].
  destruct x; try apply silent_raise; [apply silent_new_oid | apply silent_ObjectId].
Qed.

(** X25. The message views always answer and announce nothing: whatever
    the request, [update_message_view] and [delete_message_view] return
    a response, make no [group_send], store no notification and leave
    the users alone.  An edit or a deletion made through them is not
    sent to the conversation's group, as the one made through the
    socket is. *)
Theorem message_views_announce_nothing
    (request_user_id : Z) (message_id : string) (new_text : json) (w : World) :
  (exists response w',
     update_message_view request_user_id message_id new_text w = (Ok response, w')
     /\ trace w' = trace w
     /\ notifications w' = notifications w
     /\ users w' = users w)
  /\ (exists response w',
        delete_message_view request_user_id message_id w = (Ok response, w')
        /\ trace w' = trace w
        /\ notifications w' = notifications w
        /\ users w' = users w).
Proof.
  assert (Hanswer : forall m : M World Response,
            silent m ->
            exists response w',
              try_except m (fun _ => ret (mkResponse (B_error "Internal server error" [])
                                                     HTTP_500_INTERNAL_SERVER_ERROR)) w
              = (Ok response, w')
              /\ trace w' = trace w /\ notifications w' = notifications w
              /\ users w' = users w).
  { intros m Hm. destruct (Hm w) as (H1 & _ & H3 & H4). unfold try_except.
    destruct (m w) as [[response | e] w']; cbn [snd] in *; eexists _, w';
      (split; [reflexivity | auto]). }
  split; apply Hanswer.
  - apply silent_bind; [apply silent_invalid_id | intros [|]]; [apply silent_ret |].
    apply silent_bind; [apply silent_gets | intros [mongo_user |]]; [| apply silent_ret].
    destruct (negb _); [apply silent_ret |].
    apply silent_try_except_ValueError; [| intros msg args; apply silent_ret].
    apply silent_bind.
    + destruct new_text; try apply silent_raise. apply silent_update_message.
    + intros [updated |]; apply silent_ret.
  - apply silent_bind; [apply silent_invalid_id | intros [|]]; [apply silent_ret |].
    apply silent_bind; [apply silent_gets | intros [mongo_user |]]; [| apply silent_ret].
    apply silent_bind; [apply silent_get_message_by_id | intros [message |]];
      [| apply silent_ret].
    apply silent_try_except_ValueError; [| intros msg args; apply silent_ret].
    apply silent_bind; [apply silent_delete_message | intros [|]]; apply silent_ret.
Qed.

(** ** The replay on reconnection *)

(** *** The query *)



(** *** The loop over the fetched messages *)

Lemma session_eq (s : Session) (ids ids' : gset string) (fs fs' : list Frame) :
  ids = ids' -> fs = fs' ->
  set_sent_message_ids ids (set_transport fs s) = set_sent_message_ids ids' (set_transport fs' s).
Proof. now intros -> ->. Qed.


(** *** One conversation *)







(** *** The loop over the user's conversations *)



(** *** The whole of [reconnect_to_conversations] *)



